(** * Doctor appointment booking: slot allocation and conversation engine

    A shallow embedding of [app/tools.py] and [app/simple_agent.py].

    - Python [str] values are byte strings ([string]); [str.lower] and the
      case folding of SQL [LIKE] act on the ASCII letters only.
    - [datetime] values are minutes since 0001-01-01T00:00 (the code never
      looks at seconds); [strptime] follows the regular expressions of
      CPython's [_strptime] for the two formats the code uses.
    - The relational store is a pair of row lists in insertion order.
    - Exceptions are an explicit [result]; the body of [process_message]
      runs in a state-and-exception monad in which a raise keeps the
      mutations made before it, as an in-place update of a Python object
      does. *)

From Stdlib Require Import ZArith List String Ascii Bool Lia.
From Stdlib Require Import Sorting.Sorted Sorting.Permutation.
From stdpp Require Import base gmap strings.
From Equations Require Import Equations.
Import ListNotations.
Open Scope string_scope.
Open Scope list_scope.
Open Scope Z_scope.

(** ** Exceptions *)

Inductive exn : Type :=
| ValueError        (* strptime on a malformed string *)
| AttributeError    (* attribute access on None *)
| UnboundLocalError (* a local read before any assignment *)
| OperationalError. (* the storage layer failed *)

Inductive result (A : Type) : Type :=
| Ok (a : A)
| Raise (e : exn).
Arguments Ok {A} a.
Arguments Raise {A} e.

Definition rbind {A B} (r : result A) (k : A -> result B) : result B :=
  match r with
  | Ok a => k a
  | Raise e => Raise e
  end.

Notation "'try!' x <- e ; k" := (rbind e (fun x => k))
  (at level 10, x name, e at level 100, k at level 200).

(** ** Python strings *)

Module Py.

Definition is_digit (c : ascii) : bool :=
  ((48 <=? N_of_ascii c) && (N_of_ascii c <=? 57))%N.

Definition digit_value (c : ascii) : Z := Z.of_N (N_of_ascii c) - 48.

Definition digit_char (d : Z) : ascii := ascii_of_N (Z.to_N (d + 48)).

Definition lower_char (c : ascii) : ascii :=
  let n := N_of_ascii c in
  if ((65 <=? n) && (n <=? 90))%N then ascii_of_N (n + 32) else c.

(** [s.lower()] *)
Fixpoint lower (s : string) : string :=
  match s with
  | EmptyString => EmptyString
  | String c r => String (lower_char c) (lower r)
  end.

(** [sub in s] on strings *)
Fixpoint contains (sub s : string) : bool :=
  String.prefix sub s ||
  match s with
  | EmptyString => false
  | String _ r => contains sub r
  end.

(** [x in l] on a list of strings *)
Definition mem (x : string) (l : list string) : bool :=
  existsb (String.eqb x) l.

(** truth value of an optional string: [None] and [""] are false *)
Definition truthy (v : option string) : bool :=
  match v with
  | Some (String _ _) => true
  | _ => false
  end.

(** [f"{v}"] *)
Definition fmt (v : option string) : string :=
  match v with
  | Some s => s
  | None => "None"
  end.

(** ["\n".join(l)] *)
Definition newline : string := String (ascii_of_N 10) EmptyString.
Definition join_lines (l : list string) : string := String.concat newline l.

End Py.

(** ** The part of [datetime] the code uses *)

Module datetime.

Definition is_leap (y : Z) : bool :=
  (y `mod` 4 =? 0) && (negb (y `mod` 100 =? 0) || (y `mod` 400 =? 0)).

Definition days_before_year (y : Z) : Z :=
  let p := y - 1 in p * 365 + p `div` 4 - p `div` 100 + p `div` 400.

Definition month_lengths (y : Z) : list Z :=
  [31; if is_leap y then 29 else 28; 31; 30; 31; 30; 31; 31; 30; 31; 30; 31].

Definition days_in_month (y m : Z) : Z :=
  nth (Z.to_nat (m - 1)) (month_lengths y) 0.

Definition days_before_month (y m : Z) : Z :=
  fold_right Z.add 0 (firstn (Z.to_nat (m - 1)) (month_lengths y)).

Definition ymd2ord (y m d : Z) : Z :=
  days_before_year y + days_before_month y m + d.

(** [datetime(y, m, d, H, M)] *)
Definition make (y m d H M : Z) : Z :=
  (ymd2ord y m d - 1) * 1440 + H * 60 + M.

Definition toordinal (dt : Z) : Z := dt `div` 1440 + 1.

(** Monday is 0 *)
Definition weekday (dt : Z) : Z := (toordinal dt + 6) `mod` 7.

(** *** Matching the regular expressions of [_strptime] *)

Definition matcher : Type := string -> option (Z * string).

Definition digit_if (p : Z -> bool) : matcher := fun s =>
  match s with
  | String c r =>
      if Py.is_digit c && p (Py.digit_value c)
      then Some (Py.digit_value c, r) else None
  | EmptyString => None
  end.

Definition then_digit (m : matcher) (p : Z -> bool) : matcher := fun s =>
  match m s with
  | Some (a, r) =>
      match digit_if p r with
      | Some (b, r') => Some (10 * a + b, r')
      | None => None
      end
  | None => None
  end.

Definition after_space (m : matcher) : matcher := fun s =>
  match s with
  | String " " r => m r
  | _ => None
  end.

Definition any (_ : Z) : bool := true.

(** alternatives are tried in order, backtracking into the next one when
    the rest of the pattern [k] fails *)
Fixpoint first_of {A} (alts : list matcher) (k : Z -> string -> option A)
    (s : string) : option A :=
  match alts with
  | [] => None
  | m :: rest =>
      match (match m s with Some (v, r) => k v r | None => None end) with
      | Some a => Some a
      | None => first_of rest k s
      end
  end.

Definition lit {A} (c : ascii) (k : string -> option A) (s : string) : option A :=
  match s with
  | String c' r => if Ascii.eqb c c' then k r else None
  | EmptyString => None
  end.

(** [%H]: 2[0-3]|[0-1]\d|\d *)
Definition re_H : list matcher :=
  [ then_digit (digit_if (Z.eqb 2)) (fun d => d <=? 3);
    then_digit (digit_if (fun d => d <=? 1)) any;
    digit_if any ].

(** [%M]: [0-5]\d|\d *)
Definition re_M : list matcher :=
  [ then_digit (digit_if (fun d => d <=? 5)) any;
    digit_if any ].

(** [%Y]: \d\d\d\d *)
Definition re_Y : list matcher :=
  [ then_digit (then_digit (then_digit (digit_if any) any) any) any ].

(** [%m]: 1[0-2]|0[1-9]|[1-9] *)
Definition re_m : list matcher :=
  [ then_digit (digit_if (Z.eqb 1)) (fun d => d <=? 2);
    then_digit (digit_if (Z.eqb 0)) (fun d => 1 <=? d);
    digit_if (fun d => 1 <=? d) ].

(** [%d]: 3[0-1]|[1-2]\d|0[1-9]|[1-9]| [1-9] *)
Definition re_d : list matcher :=
  [ then_digit (digit_if (Z.eqb 3)) (fun d => d <=? 1);
    then_digit (digit_if (fun d => (1 <=? d) && (d <=? 2))) any;
    then_digit (digit_if (Z.eqb 0)) (fun d => 1 <=? d);
    digit_if (fun d => 1 <=? d);
    after_space (digit_if (fun d => 1 <=? d)) ].

(** [datetime.strptime(s, "%H:%M")]: the date defaults to 1900-01-01;
    text left over after the match is an error *)
Definition strptime_HM (s : string) : result Z :=
  match first_of re_H (fun h =>
          lit ":" (first_of re_M (fun m r => Some (h, m, r)))) s with
  | Some (h, m, EmptyString) => Ok (make 1900 1 1 h m)
  | _ => Raise ValueError
  end.

(** [datetime.strptime(s, "%Y-%m-%d")]: the constructor rejects year 0
    and a day the month does not have *)
Definition strptime_Ymd (s : string) : result Z :=
  match first_of re_Y (fun y =>
          lit "-" (first_of re_m (fun m =>
            lit "-" (first_of re_d (fun d r => Some (y, m, d, r)))))) s with
  | Some (y, m, d, EmptyString) =>
      if (1 <=? y) && (d <=? days_in_month y m)
      then Ok (make y m d 0 0) else Raise ValueError
  | _ => Raise ValueError
  end.

Definition two_digits (n : Z) : string :=
  String (Py.digit_char (n `div` 10)) (String (Py.digit_char (n `mod` 10)) EmptyString).

(** [dt.strftime("%H:%M")] *)
Definition strftime_HM (dt : Z) : string :=
  two_digits ((dt `mod` 1440) `div` 60) +:+ ":" +:+ two_digits (dt `mod` 60).

Definition day_names : list string :=
  ["Monday"; "Tuesday"; "Wednesday"; "Thursday"; "Friday"; "Saturday"; "Sunday"].

(** [dt.strftime("%A")] in the C locale *)
Definition strftime_A (dt : Z) : string :=
  nth (Z.to_nat (weekday dt)) day_names "".

End datetime.

(** ** [generate_time_slots] *)

(** The [while current < end] loop; [slots] is the list being appended to. *)
Equations? slots_loop (slots : list string) (current end_ : Z) : list string
  by wf (Z.to_nat (end_ - current)) lt :=
  slots_loop slots current end_ with Z_lt_dec current end_ => {
    | left _ =>
        slots_loop (slots ++ [datetime.strftime_HM current]) (current + 20) end_
    | right _ => slots }.
Proof. lia. Qed.

Definition generate_time_slots (start_time end_time : string)
  : result (list string) :=
  try! start <- datetime.strptime_HM start_time;
  try! end_ <- datetime.strptime_HM end_time;
  Ok (slots_loop [] start end_).

(** ** The relational store ([app/models.py]) *)

(** Every column of [Booking] is nullable and [create_booking] stores what
    it is given, so those columns are optional strings.  Doctors come from
    the seed file and the [DoctorIn] schema, which make every column but
    [off_day] a string. *)

Module Doctor.
Record t : Type := mk {
  id : Z;
  doctor_name : string;
  department : string;
  available_start : string;
  available_end : string;
  off_day : option string }.
End Doctor.

Module Booking.
Record t : Type := mk {
  id : Z;
  patient_name : option string;
  doctor_name : option string;
  date : option string;
  time_slot : option string }.
End Booking.

(** Rows in insertion order. *)
Record Store : Type := mkStore {
  doctors : list Doctor.t;
  bookings : list Booking.t }.

Module Sql.

(** [LIKE]: [%] is any run of characters, [_] any one character *)
Fixpoint like (p : string) : string -> bool :=
  match p with
  | EmptyString => fun s => match s with EmptyString => true | _ => false end
  | String "%" p' =>
      fix star (s : string) : bool :=
        like p' s || match s with
                     | EmptyString => false
                     | String _ r => star r
                     end
  | String "_" p' =>
      fun s => match s with EmptyString => false | String _ r => like p' r end
  | String c p' =>
      fun s => match s with
               | EmptyString => false
               | String d r => Ascii.eqb c d && like p' r
               end
  end.

(** [column.ilike(p)] *)
Definition ilike (p s : string) : bool := like (Py.lower p) (Py.lower s).

(** [SELECT DISTINCT]: first occurrences, in row order *)
Fixpoint distinct (l : list string) : list string :=
  match l with
  | [] => []
  | x :: r => x :: List.filter (fun y => negb (String.eqb x y)) (distinct r)
  end.

(** the rowid SQLite gives to the next inserted row *)
Definition next_id (ids : list Z) : Z := 1 + fold_right Z.max 0 ids.

End Sql.

(** ** [app/tools.py] *)

Definition list_departments (db : Store) : list string :=
  Sql.distinct (map Doctor.department (doctors db)).

Definition find_doctors_by_department (db : Store) (dept : string)
  : list Doctor.t :=
  List.filter (fun d => Sql.ilike ("%" +:+ dept +:+ "%") (Doctor.department d))
    (doctors db).

Definition find_doctor_by_name (db : Store) (name : option string)
  : option Doctor.t :=
  List.find (fun d => Sql.ilike ("%" +:+ Py.fmt name +:+ "%") (Doctor.doctor_name d))
    (doctors db).

(** [db.query(Doctor).filter(Doctor.doctor_name == doctor_name).first()] *)
Definition doctor_named (db : Store) (doctor_name : option string)
  : option Doctor.t :=
  List.find (fun d => bool_decide (Some (Doctor.doctor_name d) = doctor_name))
    (doctors db).

(** the rows of [Booking] for [(doctor_name, date)] *)
Definition booked_for (db : Store) (doctor_name date : option string)
  : list Booking.t :=
  List.filter (fun b => bool_decide (Booking.doctor_name b = doctor_name)
                        && bool_decide (Booking.date b = date))
    (bookings db).

Definition get_doctor_available_slots (db : Store)
    (doctor_name date : option string) : result (list string) :=
  match doctor_named db doctor_name with
  | None => Ok []
  | Some doc =>
      try! all_slots <- generate_time_slots (Doctor.available_start doc)
                                            (Doctor.available_end doc);
      let booked := booked_for db doctor_name date in
      let booked_slots := map Booking.time_slot booked in
      let available :=
        List.filter (fun s => negb (bool_decide (Some s ∈ booked_slots))) all_slots in
      Ok available
  end.

Definition create_booking (db : Store)
    (patient_name doctor_name date time_slot : option string)
  : Store * option Booking.t :=
  let exists_ :=
    List.find (fun b => bool_decide (Booking.doctor_name b = doctor_name)
                        && bool_decide (Booking.date b = date)
                        && bool_decide (Booking.time_slot b = time_slot))
      (bookings db) in
  match exists_ with
  | Some _ => (db, None)
  | None =>
      let booking :=
        Booking.mk (Sql.next_id (map Booking.id (bookings db)))
                   patient_name doctor_name date time_slot in
      (mkStore (doctors db) (bookings db ++ [booking]), Some booking)
  end.

(** [list.sort(key=...)] is stable, so its result is the one of any stable
    sort; this is insertion from the right. *)
Section StableSort.
Context {A : Type} (key : A -> Z).

Fixpoint insert_by (x : A) (l : list A) : list A :=
  match l with
  | [] => [x]
  | y :: r => if key x <=? key y then x :: y :: r else y :: insert_by x r
  end.

Fixpoint sort_by (l : list A) : list A :=
  match l with
  | [] => []
  | x :: r => insert_by x (sort_by r)
  end.
End StableSort.

(** a list comprehension whose body may raise *)
Fixpoint map_result {A B} (f : A -> result B) (l : list A) : result (list B) :=
  match l with
  | [] => Ok []
  | x :: r =>
      try! y <- f x;
      try! ys <- map_result f r;
      Ok (y :: ys)
  end.

Definition suggest_alternative_slots (db : Store)
    (doctor_name date : option string) (preferred_time : string)
  : result (list string) :=
  try! available_slots <- get_doctor_available_slots db doctor_name date;
  match available_slots with
  | [] => Ok []
  | _ =>
      if Py.mem preferred_time available_slots then Ok [preferred_time]
      else
        try! preferred_dt <- datetime.strptime_HM preferred_time;
        try! available_dts <- map_result datetime.strptime_HM available_slots;
        let sorted :=
          sort_by (fun x => Z.abs ((x - preferred_dt) * 60)) available_dts in
        Ok (map datetime.strftime_HM (firstn 3 sorted))
  end.

Definition check_doctor_availability (db : Store)
    (doctor_name : option string) (date : string) : result bool :=
  match doctor_named db doctor_name with
  | None => Ok false
  | Some doc =>
      try! date_obj <- datetime.strptime_Ymd date;
      let day_name := datetime.strftime_A date_obj in
      if Py.truthy (Doctor.off_day doc)
         && bool_decide (Some day_name = Doctor.off_day doc)
      then Ok false
      else Ok true
  end.

Module Examples.

Definition smith : Doctor.t :=
  Doctor.mk 1 "Dr. Smith" "Cardiology" "09:00" "10:00" (Some "Friday").

Definition jones : Doctor.t :=
  Doctor.mk 2 "Dr. Jones" "Neurology" "09:00" "12:00" None.

Definition taken (i : Z) (d t : string) : Booking.t :=
  Booking.mk i (Some "Bob") (Some d) (Some "2024-01-01") (Some t).

Definition db0 : Store := mkStore [smith; jones] [].

Definition db1 : Store := mkStore [smith; jones] [taken 1 "Dr. Smith" "09:20"].

End Examples.

(** ** [app/simple_agent.py] *)

Record ConversationState : Type := mkState {
  patient_name : option string;
  intent : option string;
  selected_department : option string;
  selected_doctor : option string;
  selected_date : option string;
  selected_time : option string;
  booking_confirmed : bool;
  booking_details : option Booking.t;
  step : string }.

(** [ConversationState()] *)
Definition new_state : ConversationState :=
  mkState None None None None None None false None "welcome".

(** The dictionary the extraction returns, as the prompt asks for it: every
    value is a string or [null]; a missing key reads as [None], as
    [dict.get] does. *)
Module Parsed.
Record t : Type := mk {
  intent : option string;
  patient_name : option string;
  department : option string;
  doctor_name : option string;
  date : option string;
  time : option string;
  problem_description : option string }.

(** [{"intent": "other"}] *)
Definition other : t := mk (Some "other") None None None None None None.
End Parsed.

Definition department_mapping : list (string * string) :=
  [ ("cardiology", "Cardiology"); ("dermatology", "Dermatology");
    ("emergency medicine", "Emergency Medicine");
    ("family medicine", "Family Medicine");
    ("gastroenterology", "Gastroenterology"); ("nephrology", "Nephrology");
    ("neurology", "Neurology"); ("oncology", "Oncology");
    ("ophthalmology", "Ophthalmology"); ("orthopedics", "Orthopedics");
    ("pathology", "Pathology"); ("pediatrics", "Pediatrics");
    ("radiology", "Radiology"); ("surgery", "Surgery") ].

(** [llm] is what [json.loads(llm.invoke(...).content)] gives for this
    message, or the exception it raises. *)
Definition extract_intent_and_entities (llm : result Parsed.t) (message : string)
  : Parsed.t :=
  match llm with
  | Ok result_ =>
      let message_lower := Py.lower message in
      if Py.truthy (Parsed.department result_) then result_
      else
        match List.find (fun kv => Py.contains (fst kv) message_lower)
                department_mapping with
        | Some (_, dept_name) =>
            Parsed.mk (Some "select_department") (Parsed.patient_name result_)
              (Some dept_name) (Parsed.doctor_name result_) (Parsed.date result_)
              (Parsed.time result_) (Parsed.problem_description result_)
        | None => result_
        end
  | Raise _ => Parsed.other
  end.

(** The functions of [tools.py] that [process_message] calls. *)
Inductive tool : Type :=
| ListDepartments | FindDoctorsByDepartment | FindDoctorByName
| GetDoctorAvailableSlots | CreateBooking | SuggestAlternativeSlots
| CheckDoctorAvailability.

(** What one call of [process_message] takes from outside the program. *)
Record Env : Type := mkEnv {
  llm : result Parsed.t;          (* the language model's answer *)
  today : string;                 (* datetime.now(), as %Y-%m-%d *)
  tomorrow : string;              (* the day after *)
  storage_fails : tool -> bool }. (* the tools whose session raises *)

(** *** The monad of the [try] block

    The state is the session's [ConversationState] object and the store.  A
    raise returns the state as it is at that point. *)

Definition M (A : Type) : Type :=
  ConversationState * Store -> (ConversationState * Store) * result A.

Definition ret {A} (a : A) : M A := fun m => (m, Ok a).

Definition bind {A B} (c : M A) (k : A -> M B) : M B := fun m =>
  match c m with
  | (m', Ok a) => k a m'
  | (m', Raise e) => (m', Raise e)
  end.

Definition raise {A} (e : exn) : M A := fun m => (m, Raise e).

Definition get_state : M ConversationState := fun m => (m, Ok (fst m)).

Definition get_store : M Store := fun m => (m, Ok (snd m)).

Definition modify (f : ConversationState -> ConversationState) : M unit :=
  fun m => ((f (fst m), snd m), Ok tt).

Notation "'do!' x <- c ; k" := (bind c (fun x => k))
  (at level 10, x name, c at level 100, k at level 200).
Notation "'run!' c ; k" := (bind c (fun _ => k))
  (at level 10, c at level 100, k at level 200).

(** a call of a read-only tool *)
Definition call {A} (env : Env) (t : tool) (f : Store -> result A) : M A :=
  fun m =>
    if storage_fails env t then (m, Raise OperationalError) else (m, f (snd m)).

(** the call of [create_booking]; a failed session leaves the store as it was *)
Definition call_create_booking (env : Env)
    (patient doctor date time_slot : option string) : M (option Booking.t) :=
  fun m =>
    if storage_fails env CreateBooking then (m, Raise OperationalError)
    else
      let '(db', booking) := create_booking (snd m) patient doctor date time_slot in
      ((fst m, db'), Ok booking).

(** [v.attr] where [v] may be [None] *)
Definition attr {A} (v : option A) : M A :=
  match v with
  | Some a => ret a
  | None => raise AttributeError
  end.

Definition set_patient_name (v : option string) : M unit :=
  modify (fun s => mkState v (intent s) (selected_department s)
    (selected_doctor s) (selected_date s) (selected_time s)
    (booking_confirmed s) (booking_details s) (step s)).

Definition set_intent (v : option string) : M unit :=
  modify (fun s => mkState (patient_name s) v (selected_department s)
    (selected_doctor s) (selected_date s) (selected_time s)
    (booking_confirmed s) (booking_details s) (step s)).

Definition set_selected_department (v : option string) : M unit :=
  modify (fun s => mkState (patient_name s) (intent s) v
    (selected_doctor s) (selected_date s) (selected_time s)
    (booking_confirmed s) (booking_details s) (step s)).

Definition set_selected_doctor (v : option string) : M unit :=
  modify (fun s => mkState (patient_name s) (intent s) (selected_department s)
    v (selected_date s) (selected_time s)
    (booking_confirmed s) (booking_details s) (step s)).

Definition set_selected_date (v : option string) : M unit :=
  modify (fun s => mkState (patient_name s) (intent s) (selected_department s)
    (selected_doctor s) v (selected_time s)
    (booking_confirmed s) (booking_details s) (step s)).

Definition set_selected_time (v : option string) : M unit :=
  modify (fun s => mkState (patient_name s) (intent s) (selected_department s)
    (selected_doctor s) (selected_date s) v
    (booking_confirmed s) (booking_details s) (step s)).

Definition set_booking_confirmed (v : bool) : M unit :=
  modify (fun s => mkState (patient_name s) (intent s) (selected_department s)
    (selected_doctor s) (selected_date s) (selected_time s)
    v (booking_details s) (step s)).

Definition set_booking_details (v : option Booking.t) : M unit :=
  modify (fun s => mkState (patient_name s) (intent s) (selected_department s)
    (selected_doctor s) (selected_date s) (selected_time s)
    (booking_confirmed s) v (step s)).

Definition set_step (v : string) : M unit :=
  modify (fun s => mkState (patient_name s) (intent s) (selected_department s)
    (selected_doctor s) (selected_date s) (selected_time s)
    (booking_confirmed s) (booking_details s) v).

(** *** The replies *)

Module Text.

Definition nl : string := Py.newline.

(** ["\n".join([f"• {x}" for x in l])] *)
Definition bullets (l : list string) : string :=
  Py.join_lines (map (fun x => "• " +:+ x) l).

Definition welcome : string :=
  "Welcome to our Hospital Appointment Booking System! 🏥" +:+ nl +:+ nl +:+
  "I'm here to help you book an appointment with our doctors. To get started, may I have your full name please?".

Definition nice_to_meet (name : option string) : string :=
  "Nice to meet you, " +:+ Py.fmt name +:+ "! 👋" +:+ nl +:+ nl +:+
  "How can I help you today? Would you like to book an appointment with one of our doctors?".

Definition hello (name : option string) : string :=
  "Hello " +:+ Py.fmt name +:+
  "! How can I help you today? Would you like to book an appointment?".

Definition choose_department (departments : list string) : string :=
  "Great! I'd be happy to help you book an appointment. 🩺" +:+ nl +:+ nl +:+
  "What type of doctor would you like to see? You can either:" +:+ nl +:+ nl +:+
  "1. Tell me which department you need:" +:+ nl +:+ bullets departments +:+
  nl +:+ nl +:+
  "2. Describe your problem/symptoms and I'll suggest the right department for you." +:+
  nl +:+ nl +:+ "What would you prefer?".

Definition ask_booking : string :=
  "I'm here to help you book an appointment. Would you like to book an appointment with one of our doctors?".

Definition doctors_found (department : string) (doctors : list Doctor.t) : string :=
  "Perfect! I found these doctors in the " +:+ department +:+ " department:" +:+
  nl +:+ nl +:+ bullets (map Doctor.doctor_name doctors) +:+ nl +:+ nl +:+
  "Which doctor would you like to book an appointment with?".

Definition no_doctors_listing (department : string) (departments : list string)
  : string :=
  "I couldn't find any doctors in the " +:+ department +:+
  " department. Here are the available departments:" +:+ nl +:+ nl +:+
  bullets departments +:+ nl +:+ nl +:+ "Please choose from the list above.".

Definition no_doctors (department : string) : string :=
  "I couldn't find any doctors in the " +:+ department +:+
  " department. Please choose a different department.".

Definition need_more_info : string :=
  "I need a bit more information. Could you please tell me which department you need or describe your problem so I can suggest the right doctor for you?".

Definition excellent_choice (doctor : Doctor.t) (today tomorrow : string) : string :=
  "Excellent choice! " +:+ Doctor.doctor_name doctor +:+ " is a great " +:+
  Doctor.department doctor +:+ " specialist. 🩺" +:+ nl +:+ nl +:+
  "What date would you like to book your appointment? You can say:" +:+ nl +:+
  "• Today (" +:+ today +:+ ")" +:+ nl +:+
  "• Tomorrow (" +:+ tomorrow +:+ ")" +:+ nl +:+
  "• Or any specific date (YYYY-MM-DD format)" +:+ nl +:+ nl +:+
  "Please note: " +:+ Doctor.doctor_name doctor +:+ " is off on " +:+
  Py.fmt (Doctor.off_day doctor) +:+ "s.".

Definition doctor_not_found (doctor_name : option string) : string :=
  "I couldn't find a doctor named " +:+ Py.fmt doctor_name +:+
  ". Could you please check the spelling and try again?".

Definition no_doctor_name : string :=
  "I didn't catch the doctor's name. Could you please tell me which doctor you'd like to book an appointment with, or if you want to change departments, just tell me the department name.".

Definition off_day (selected_doctor date : option string) (doctor : Doctor.t)
  : string :=
  "Sorry, " +:+ Py.fmt selected_doctor +:+ " is not available on " +:+
  Py.fmt date +:+ " (it's their " +:+ Py.fmt (Doctor.off_day doctor) +:+
  " off day). Please choose a different date.".

Definition slots_available (selected_doctor date : option string)
    (available_slots : list string) : string :=
  "Great! Here are the available time slots for " +:+ Py.fmt selected_doctor +:+
  " on " +:+ Py.fmt date +:+ ":" +:+ nl +:+ nl +:+
  bullets (firstn 10 available_slots) +:+ nl +:+ nl +:+
  "Which time slot would you prefer? (Each appointment is 20 minutes long)".

Definition no_slots (selected_doctor date : option string) : string :=
  "Sorry, " +:+ Py.fmt selected_doctor +:+ " has no available slots on " +:+
  Py.fmt date +:+ ". Please choose a different date.".

Definition need_date : string :=
  "I need a specific date for your appointment. Please tell me which date you'd like (today, tomorrow, or a specific date in YYYY-MM-DD format).".

Definition confirm_details (state : ConversationState) (time : option string)
  : string :=
  "Perfect! Let me confirm your appointment details:" +:+ nl +:+ nl +:+
  "👤 Patient: " +:+ Py.fmt (patient_name state) +:+ nl +:+
  "🩺 Doctor: " +:+ Py.fmt (selected_doctor state) +:+ nl +:+
  "📅 Date: " +:+ Py.fmt (selected_date state) +:+ nl +:+
  "⏰ Time: " +:+ Py.fmt time +:+ nl +:+ nl +:+
  "Is this correct? Please say 'yes' to confirm or 'no' to make changes.".

Definition alternatives (time : option string) (alts : list string) : string :=
  "Sorry, " +:+ Py.fmt time +:+
  " is no longer available. Here are some alternative time slots:" +:+
  nl +:+ nl +:+ bullets alts +:+ nl +:+ nl +:+ "Which one would you prefer?".

Definition no_alternatives (time : option string) : string :=
  "Sorry, " +:+ Py.fmt time +:+
  " is not available and there are no alternative slots. Please choose a different date.".

Definition need_time : string :=
  "I need a specific time for your appointment. Please choose from the available time slots I showed you.".

Definition booked (state : ConversationState) : string :=
  "🎉 Congratulations! Your appointment has been successfully booked!" +:+
  nl +:+ nl +:+ "📋 Booking Details:" +:+ nl +:+
  "• Patient: " +:+ Py.fmt (patient_name state) +:+ nl +:+
  "• Doctor: " +:+ Py.fmt (selected_doctor state) +:+ nl +:+
  "• Date: " +:+ Py.fmt (selected_date state) +:+ nl +:+
  "• Time: " +:+ Py.fmt (selected_time state) +:+ nl +:+
  "• Duration: 20 minutes" +:+ nl +:+ nl +:+
  "Please arrive 10 minutes before your appointment time. If you need to cancel or reschedule, please contact us at least 24 hours in advance." +:+
  nl +:+ nl +:+ "Is there anything else I can help you with?".

Definition slot_taken : string :=
  "Sorry, there was an error creating your booking. The time slot may have been taken by someone else. Please try again with a different time slot.".

Definition what_to_change : string :=
  "No problem! What would you like to change? You can modify the doctor, date, or time.".

Definition completed : string :=
  "Your appointment has been successfully booked! Is there anything else I can help you with?".

Definition not_understood : string :=
  "I'm sorry, I didn't understand that. Could you please try again?".

Definition apology : string :=
  "I'm sorry, there was an error processing your request. Please try again.".

End Text.

(** *** The branches of [process_message] *)

Definition reset_phrases : list string :=
  ["hi"; "hello"; "start over"; "reset"; "new appointment"].

Definition symptom_rules : list (list string * string) :=
  [ (["heart"; "chest"; "cardiac"], "Cardiology");
    (["skin"; "rash"; "dermatitis"], "Dermatology");
    (["child"; "baby"; "pediatric"], "Pediatrics");
    (["bone"; "joint"; "fracture"], "Orthopedics");
    (["eye"; "vision"; "sight"], "Ophthalmology");
    (["brain"; "headache"; "neurological"], "Neurology");
    (["stomach"; "digestive"; "gastro"], "Gastroenterology");
    (["kidney"; "renal"; "urinary"], "Nephrology");
    (["cancer"; "tumor"; "oncology"], "Oncology");
    (["surgery"; "operation"; "surgical"], "Surgery");
    (["family"; "general"; "primary"], "Family Medicine");
    (["emergency"; "urgent"; "acute"], "Emergency Medicine");
    (["x-ray"; "scan"; "imaging"], "Radiology");
    (["test"; "lab"; "pathology"], "Pathology") ].

Definition department_keys : list string := map fst department_mapping.

Definition department_names : list string := map snd department_mapping.

(** the message is one of the phrases that start over *)
Definition on_start_over : M string :=
  run! set_patient_name None;
  run! set_intent None;
  run! set_selected_department None;
  run! set_selected_doctor None;
  run! set_selected_date None;
  run! set_selected_time None;
  run! set_booking_confirmed false;
  run! set_booking_details None;
  run! set_step "welcome";
  ret Text.welcome.

Definition on_welcome (parsed : Parsed.t) : M string :=
  do! state <- get_state;
  if negb (Py.truthy (patient_name state)) then
    let patient_name := Parsed.patient_name parsed in
    if Py.truthy patient_name then
      run! set_patient_name patient_name;
      run! set_step "booking_request";
      ret (Text.nice_to_meet patient_name)
    else ret Text.welcome
  else
    run! set_step "booking_request";
    ret (Text.hello (patient_name state)).

Definition on_booking_request (env : Env) (parsed : Parsed.t) (message : string)
  : M string :=
  let intent := Parsed.intent parsed in
  if bool_decide (intent = Some "book_appointment")
     || Py.contains "book" (Py.lower message)
     || Py.contains "appointment" (Py.lower message)
  then
    do! departments <- call env ListDepartments (fun db => Ok (list_departments db));
    let response := Text.choose_department departments in
    run! set_step "department_selection";
    ret response
  else ret Text.ask_booking.

Definition on_department_selection (env : Env) (parsed : Parsed.t) : M string :=
  let department := Parsed.department parsed in
  let problem := Parsed.problem_description parsed in
  let department :=
    if negb (Py.truthy department) && Py.truthy problem then
      let problem_lower := Py.lower (Py.fmt problem) in
      match List.find (fun rule =>
              existsb (fun word => Py.contains word problem_lower) (fst rule))
              symptom_rules with
      | Some (_, name) => Some name
      | None => department
      end
    else department in
  if Py.truthy department then
    do! doctors <- call env FindDoctorsByDepartment
                     (fun db => Ok (find_doctors_by_department db (Py.fmt department)));
    match doctors with
    | _ :: _ =>
        let response := Text.doctors_found (Py.fmt department) doctors in
        run! set_selected_department department;
        run! set_step "doctor_selection";
        ret response
    | [] =>
        do! departments <- call env ListDepartments
                             (fun db => Ok (list_departments db));
        ret (Text.no_doctors_listing (Py.fmt department) departments)
    end
  else ret Text.need_more_info.

Definition on_doctor_selection (env : Env) (parsed : Parsed.t) (message : string)
  : M string :=
  do! state <- get_state;
  let doctor_name := Parsed.doctor_name parsed in
  let department := Parsed.department parsed in
  do! change <-
    (if Py.truthy department then
       do! selected <- attr (selected_department state);
       ret (negb (String.eqb (Py.lower (Py.fmt department)) (Py.lower selected)))
     else ret false);
  if change : bool then
    do! doctors <- call env FindDoctorsByDepartment
                     (fun db => Ok (find_doctors_by_department db (Py.fmt department)));
    match doctors with
    | _ :: _ =>
        let response := Text.doctors_found (Py.fmt department) doctors in
        run! set_selected_department department;
        run! set_step "doctor_selection";
        ret response
    | [] =>
        do! departments <- call env ListDepartments
                             (fun db => Ok (list_departments db));
        let response := Text.no_doctors_listing (Py.fmt department) departments in
        run! set_step "department_selection";
        ret response
    end
  else if Py.truthy doctor_name then
    do! doctor <- call env FindDoctorByName
                    (fun db => Ok (find_doctor_by_name db doctor_name));
    match doctor with
    | Some doctor =>
        let response := Text.excellent_choice doctor (today env) (tomorrow env) in
        run! set_selected_doctor (Some (Doctor.doctor_name doctor));
        run! set_step "date_selection";
        ret response
    | None => ret (Text.doctor_not_found doctor_name)
    end
  else
    let message_lower := Py.lower message in
    if existsb (fun dept => Py.contains (Py.lower dept) message_lower) department_keys
    then
      match List.find (fun dept => Py.contains (Py.lower dept) message_lower)
              department_names with
      | Some dept =>
          do! doctors <- call env FindDoctorsByDepartment
                           (fun db => Ok (find_doctors_by_department db dept));
          match doctors with
          | _ :: _ =>
              let response := Text.doctors_found dept doctors in
              run! set_selected_department (Some dept);
              run! set_step "doctor_selection";
              ret response
          | [] =>
              let response := Text.no_doctors dept in
              run! set_step "department_selection";
              ret response
          end
      | None => raise UnboundLocalError
      end
    else ret Text.no_doctor_name.

Definition on_date_selection (env : Env) (parsed : Parsed.t) (message : string)
  : M string :=
  do! state <- get_state;
  let date := Parsed.date parsed in
  let date :=
    if negb (Py.truthy date) then
      if Py.contains "today" (Py.lower message) then Some (today env)
      else if Py.contains "tomorrow" (Py.lower message) then Some (tomorrow env)
      else date
    else date in
  if Py.truthy date then
    do! available <- call env CheckDoctorAvailability
        (fun db => check_doctor_availability db (selected_doctor state) (Py.fmt date));
    if negb available then
      do! doctor <- call env FindDoctorByName
                      (fun db => Ok (find_doctor_by_name db (selected_doctor state)));
      do! doctor <- attr doctor;
      ret (Text.off_day (selected_doctor state) date doctor)
    else
      do! available_slots <- call env GetDoctorAvailableSlots
          (fun db => get_doctor_available_slots db (selected_doctor state) date);
      match available_slots with
      | _ :: _ =>
          let response :=
            Text.slots_available (selected_doctor state) date available_slots in
          run! set_selected_date date;
          run! set_step "time_selection";
          ret response
      | [] => ret (Text.no_slots (selected_doctor state) date)
      end
  else ret Text.need_date.

Definition on_time_selection (env : Env) (parsed : Parsed.t) : M string :=
  do! state <- get_state;
  let time := Parsed.time parsed in
  if Py.truthy time then
    do! available_slots <- call env GetDoctorAvailableSlots
        (fun db => get_doctor_available_slots db (selected_doctor state)
                     (selected_date state));
    if Py.mem (Py.fmt time) available_slots then
      let response := Text.confirm_details state time in
      run! set_selected_time time;
      run! set_step "confirm_booking";
      ret response
    else
      do! alternatives <- call env SuggestAlternativeSlots
          (fun db => suggest_alternative_slots db (selected_doctor state)
                       (selected_date state) (Py.fmt time));
      match alternatives with
      | _ :: _ => ret (Text.alternatives time alternatives)
      | [] =>
          let response := Text.no_alternatives time in
          run! set_step "date_selection";
          ret response
      end
  else ret Text.need_time.

Definition on_confirm_booking (env : Env) (message : string) : M string :=
  do! state <- get_state;
  if Py.contains "yes" (Py.lower message) || Py.contains "confirm" (Py.lower message)
  then
    do! booking <- call_create_booking env (patient_name state)
                     (selected_doctor state) (selected_date state)
                     (selected_time state);
    match booking with
    | Some booking =>
        let response := Text.booked state in
        run! set_booking_confirmed true;
        run! set_booking_details (Some booking);
        run! set_step "completed";
        ret response
    | None =>
        let response := Text.slot_taken in
        run! set_step "time_selection";
        ret response
    end
  else ret Text.what_to_change.

(** the body of the [try] block *)
Definition transition (env : Env) (parsed : Parsed.t) (message : string)
  : M string :=
  do! state <- get_state;
  if Py.mem (Py.lower message) reset_phrases then on_start_over
  else if String.eqb (step state) "welcome" then on_welcome parsed
  else if String.eqb (step state) "booking_request" then
    on_booking_request env parsed message
  else if String.eqb (step state) "department_selection" then
    on_department_selection env parsed
  else if String.eqb (step state) "doctor_selection" then
    on_doctor_selection env parsed message
  else if String.eqb (step state) "date_selection" then
    on_date_selection env parsed message
  else if String.eqb (step state) "time_selection" then
    on_time_selection env parsed
  else if String.eqb (step state) "confirm_booking" then
    on_confirm_booking env message
  else if String.eqb (step state) "completed" then ret Text.completed
  else ret Text.not_understood.

(** the dictionary [process_message] returns *)
Module Reply.
Record t : Type := mk {
  reply : string;
  done : bool;
  booking_details : option Booking.t }.
End Reply.

(** The process: the global session map and the store. *)
Record World : Type := mkWorld {
  CONVERSATION_STATES : gmap string ConversationState;
  db : Store }.

Definition process_message (env : Env) (w : World) (session_id message : string)
  : World * Reply.t :=
  let states :=
    match CONVERSATION_STATES w !! session_id with
    | Some _ => CONVERSATION_STATES w
    | None => <[session_id := new_state]> (CONVERSATION_STATES w)
    end in
  let state := default new_state (states !! session_id) in
  let parsed := extract_intent_and_entities (llm env) message in
  match transition env parsed message (state, db w) with
  | ((state', db'), Ok response) =>
      (mkWorld (<[session_id := state']> states) db',
       Reply.mk response (booking_confirmed state') (booking_details state'))
  | ((state', db'), Raise _) =>
      (mkWorld (<[session_id := state']> states) db',
       Reply.mk Text.apology false None)
  end.

(** ** Vocabulary of the specification *)

(** midnight of 1900-01-01, the date [strptime] gives to a bare time *)
Definition day0 : Z := datetime.make 1900 1 1 0 0.

(** the well-formed HH:MM text of hour [h], minute [m] *)
Definition hhmm (h m : Z) : string :=
  datetime.two_digits h +:+ ":" +:+ datetime.two_digits m.

(** the HH:MM text of the time of day [t] minutes after midnight *)
Definition clock (t : Z) : string := hhmm (t `div` 60) (t `mod` 60).

(** [a] is an earlier time of day than [b] *)
Definition clock_lt (a b : string) : Prop :=
  exists ta tb, 0 <= ta < tb /\ tb < 1440 /\ a = clock ta /\ b = clock tb.

(** how many slots start in [[current, end_)] *)
Definition slot_count (current end_ : Z) : nat :=
  Z.to_nat ((end_ - current + 19) `div` 20).

(** [n] instants from [current], 20 minutes apart *)
Definition ticks (n : nat) (current : Z) : list Z :=
  map (fun i => current + 20 * Z.of_nat i) (seq 0 n).

(** the ledger holds a booking of slot [s] for doctor [D] on date [T] *)
Definition booked (db : Store) (D T s : string) : Prop :=
  exists b, In b (bookings db)
    /\ Booking.doctor_name b = Some D /\ Booking.date b = Some T
    /\ Booking.time_slot b = Some s.

(** the (doctor, date, time slot) key of a booking *)
Definition slot_key (b : Booking.t) : option string * option string * option string :=
  (Booking.doctor_name b, Booking.date b, Booking.time_slot b).

(** at most one row per (doctor, date, time slot) *)
Definition slot_unique (rows : list Booking.t) : Prop :=
  forall i j b1 b2,
    nth_error rows i = Some b1 -> nth_error rows j = Some b2 ->
    slot_key b1 = slot_key b2 -> i = j.

(** the name of the day of the week of a YYYY-MM-DD date *)
Definition day_of_week (date : string) : result string :=
  try! date_obj <- datetime.strptime_Ymd date;
  Ok (datetime.strftime_A date_obj).

(** the text [s] parses to the time of day [t] *)
Definition minute_of (s : string) (t : Z) : Prop :=
  0 <= t < 1440 /\ datetime.strptime_HM s = Ok (day0 + t).

(** [a] ranks before [b] around [p]: nearer in time, or as near and earlier *)
Definition nearer (p a b : Z) : Prop :=
  Z.abs (a - p) < Z.abs (b - p) \/ (Z.abs (a - p) = Z.abs (b - p) /\ a < b).

Definition closer (p : Z) (a b : string) : Prop :=
  exists ta tb, minute_of a ta /\ minute_of b tb /\ nearer p ta tb.

(** the session's state when [process_message] enters its [try] block *)
Definition session_state (w : World) (session_id : string) : ConversationState :=
  default new_state (CONVERSATION_STATES w !! session_id).

(** what the [try] block of [process_message] does for this call *)
Definition try_block (env : Env) (w : World) (session_id message : string)
  : (ConversationState * Store) * result string :=
  transition env (extract_intent_and_entities (llm env) message) message
    (session_state w session_id, db w).

(** the message starts the conversation over *)
Definition starts_over (message : string) : Prop :=
  In (Py.lower message) reset_phrases.

(** the message holds "yes" or "confirm", in any case *)
Definition says_yes (message : string) : Prop :=
  Py.contains "yes" (Py.lower message) = true
  \/ Py.contains "confirm" (Py.lower message) = true.

Definition with_step (s : ConversationState) (v : string) : ConversationState :=
  mkState (patient_name s) (intent s) (selected_department s)
    (selected_doctor s) (selected_date s) (selected_time s)
    (booking_confirmed s) (booking_details s) v.

Definition with_booking (s : ConversationState) (b : Booking.t) : ConversationState :=
  mkState (patient_name s) (intent s) (selected_department s)
    (selected_doctor s) (selected_date s) (selected_time s)
    true (Some b) "completed".

(** the invariant of a session's state *)
Definition consistent (s : ConversationState) : Prop :=
  (booking_confirmed s = true <-> step s = "completed")
  /\ (booking_details s <> None <-> booking_confirmed s = true).

(** a state before the booking is made *)
Definition pending (s : ConversationState) : Prop :=
  booking_confirmed s = false /\ booking_details s = None
  /\ step s <> "completed".

(** The worlds the process can be in: it starts with no session; a call of
    [process_message] moves it; the other endpoints and other processes
    may change the store in any way. *)
Inductive reachable : World -> Prop :=
| reach_start (store : Store) : reachable (mkWorld ∅ store)
| reach_message (env : Env) (w : World) (session_id message : string) :
    reachable w -> reachable (fst (process_message env w session_id message))
| reach_store (w : World) (store : Store) :
    reachable w -> reachable (mkWorld (CONVERSATION_STATES w) store).

(** A triple for the monad of the [try] block: from a state in [P], the
    computation ends in [Q] when it returns and in [E] when it raises. *)
Definition hoare {A} (P : ConversationState * Store -> Prop) (c : M A)
    (Q : A -> ConversationState * Store -> Prop)
    (E : ConversationState * Store -> Prop) : Prop :=
  forall m, P m ->
    match c m with
    | (m', Ok a) => Q a m'
    | (m', Raise _) => E m'
    end.

(** the computation leaves the state and the store as they are *)
Definition reads {A} (c : M A) : Prop := forall m, fst (c m) = m.

(** the integers from 0 up to [n], [n] excluded *)
Definition Zrange (n : nat) : list Z := map Z.of_nat (seq 0 n).

(** smaller key first; among equal keys, the order [R] *)
Definition key_then {A} (key : A -> Z) (R : A -> A -> Prop) (a b : A) : Prop :=
  key a < key b \/ (key a = key b /\ R a b).

(** ** The rest of [app/tools.py] *)

Definition get_booking_details (db : Store) (booking_id : Z) : option Booking.t :=
  List.find (fun b => Booking.id b =? booking_id) (bookings db).

Definition get_all_doctors (db : Store) : list Doctor.t := doctors db.

Definition get_patient_bookings (db : Store) (patient_name : option string)
  : list Booking.t :=
  List.filter (fun b => bool_decide (Booking.patient_name b = patient_name))
    (bookings db).

(** ** [app/database.py] *)

(** a record of the seed file: [off_day] may be missing *)
Module Seed.
Record t : Type := mk {
  doctor_name : string;
  department : string;
  available_start : string;
  available_end : string;
  off_day : option string }.
End Seed.

(** [db.add(doc)] for each record, then one commit: the rows get the next
    ids in order *)
Fixpoint add_doctors (rows : list Doctor.t) (data : list Seed.t) : list Doctor.t :=
  match data with
  | [] => rows
  | d :: rest =>
      let doc := Doctor.mk (Sql.next_id (map Doctor.id rows))
                   (Seed.doctor_name d) (Seed.department d)
                   (Seed.available_start d) (Seed.available_end d)
                   (Seed.off_day d) in
      add_doctors (rows ++ [doc]) rest
  end.

(** [init_db], with [data] the ["doctors"] list of the seed file *)
Definition init_db (db : Store) (data : list Seed.t) : Store :=
  let dcount := length (doctors db) in
  if (dcount =? 0)%nat then mkStore (add_doctors (doctors db) data) (bookings db)
  else db.

(** ** The endpoints of [app/main.py] *)

Module Http.

(** what an [except Exception as e] clause caught *)
Inductive caught : Type :=
| Exn (e : exn)
| Status (status_code : Z) (detail : string).

(** a returned body, or [HTTPException(status_code, detail)]; the detail of
    a handler that wraps is its prefix followed by [str(e)] of [cause] *)
Inductive response (A : Type) : Type :=
| Returned (body : A)
| HTTPException (status_code : Z) (detail : string) (cause : option caught).
Arguments Returned {A} body.
Arguments HTTPException {A} status_code detail cause.

Definition status {A} (r : response A) : Z :=
  match r with
  | Returned _ => 200
  | HTTPException code _ _ => code
  end.

End Http.

(** the body of a request that creates a booking *)
Module BookingIn.
Record t : Type := mk {
  patient_name : string;
  doctor_name : string;
  date : string;
  time_slot : string }.
End BookingIn.

Definition get_doctors_by_department (db : Store) (department : string)
  : Http.response (list Doctor.t) :=
  let doctors := find_doctors_by_department db department in
  match doctors with
  | [] => Http.HTTPException 404
            ("No doctors found in " +:+ department +:+ " department") None
  | _ => Http.Returned doctors
  end.

Definition get_doctor_availability (db : Store) (doctor_name date : string)
  : Http.response (string * string * list string) :=
  match get_doctor_available_slots db (Some doctor_name) (Some date) with
  | Ok slots => Http.Returned (doctor_name, date, slots)
  | Raise e =>
      Http.HTTPException 500 "Error getting availability: " (Some (Http.Exn e))
  end.


Definition get_patient_booking_history (db : Store) (patient_name : string)
  : list Booking.t :=
  get_patient_bookings db (Some patient_name).

Definition get_all_bookings (db : Store) : list Booking.t := bookings db.

Definition add_doctor (db : Store) (doctor : Seed.t) : Store * Doctor.t :=
  let db_doctor := Doctor.mk (Sql.next_id (map Doctor.id (doctors db)))
                     (Seed.doctor_name doctor) (Seed.department doctor)
                     (Seed.available_start doctor) (Seed.available_end doctor)
                     (Seed.off_day doctor) in
  (mkStore (doctors db ++ [db_doctor]) (bookings db), db_doctor).

(** [db.delete(row)] deletes by primary key *)
Definition delete_doctor (db : Store) (doctor_id : Z) : Store * Http.response string :=
  match List.find (fun d => Doctor.id d =? doctor_id) (doctors db) with
  | None => (db, Http.HTTPException 404 "Doctor not found" None)
  | Some doctor =>
      (mkStore (List.filter (fun d => negb (Doctor.id d =? Doctor.id doctor))
                  (doctors db)) (bookings db),
       Http.Returned "Doctor deleted successfully")
  end.

Definition cancel_booking (db : Store) (booking_id : Z) : Store * Http.response string :=
  match List.find (fun b => Booking.id b =? booking_id) (bookings db) with
  | None => (db, Http.HTTPException 404 "Booking not found" None)
  | Some booking =>
      (mkStore (doctors db)
         (List.filter (fun b => negb (Booking.id b =? Booking.id booking))
            (bookings db)),
       Http.Returned "Booking cancelled successfully")
  end.

(** ** More vocabulary *)

(** the character is a wildcard of [LIKE] *)
Definition is_wildcard (c : ascii) : bool := Ascii.eqb c "%" || Ascii.eqb c "_".

(** the text holds no wildcard of [LIKE] *)
Fixpoint wildcard_free (s : string) : bool :=
  match s with
  | EmptyString => true
  | String c r => negb (is_wildcard c) && wildcard_free r
  end.

(** the columns of a doctor row other than its id *)
Definition doctor_columns (d : Doctor.t) : Seed.t :=
  Seed.mk (Doctor.doctor_name d) (Doctor.department d)
    (Doctor.available_start d) (Doctor.available_end d) (Doctor.off_day d).

(** every exception the computation raises is in [allowed] *)
Definition raises_only {A} (allowed : exn -> Prop) (c : M A) : Prop :=
  forall m e, snd (c m) = Raise e -> allowed e.

(** the exceptions a call with [env] may end in: a rejected time or date,
    an attribute of [None], or a failure of the storage layer when [env]
    has one *)
Definition tool_error (env : Env) (e : exn) : Prop :=
  e = ValueError \/ e = AttributeError
  \/ (e = OperationalError /\ exists t, storage_fails env t = true).

(** the steps of a conversation, in order *)
Definition steps : list string :=
  ["welcome"; "booking_request"; "department_selection"; "doctor_selection";
   "date_selection"; "time_selection"; "confirm_booking"; "completed"].

(** how far a step is into the conversation *)
Definition stage (s : string) : Z :=
  if String.eqb s "booking_request" then 1
  else if String.eqb s "department_selection" then 2
  else if String.eqb s "doctor_selection" then 3
  else if String.eqb s "date_selection" then 4
  else if String.eqb s "time_selection" then 5
  else if String.eqb s "confirm_booking" then 6
  else if String.eqb s "completed" then 7
  else 0.

(** the steps a message that does not start over can lead to *)
Definition next_steps (s : string) : list string :=
  if String.eqb s "welcome" then ["welcome"; "booking_request"]
  else if String.eqb s "booking_request" then
    ["booking_request"; "department_selection"]
  else if String.eqb s "department_selection" then
    ["department_selection"; "doctor_selection"]
  else if String.eqb s "doctor_selection" then
    ["doctor_selection"; "department_selection"; "date_selection"]
  else if String.eqb s "date_selection" then ["date_selection"; "time_selection"]
  else if String.eqb s "time_selection" then
    ["time_selection"; "confirm_booking"; "date_selection"]
  else if String.eqb s "confirm_booking" then
    ["confirm_booking"; "completed"; "time_selection"]
  else [s].

(** the booking is the one the state describes *)
Definition booking_of (s : ConversationState) (b : Booking.t) : Prop :=
  Booking.patient_name b = patient_name s
  /\ Booking.doctor_name b = selected_doctor s
  /\ Booking.date b = selected_date s
  /\ Booking.time_slot b = selected_time s.

(** the state holds what its step needs: the step is a known one, and each
    field has been filled by the time the conversation is past the step
    that asks for it *)
Definition has_fields (s : ConversationState) : Prop :=
  Py.mem (step s) steps = true
  /\ (1 <= stage (step s) -> Py.truthy (patient_name s) = true)
  /\ (3 <= stage (step s) -> Py.truthy (selected_department s) = true)
  /\ (4 <= stage (step s) -> selected_doctor s <> None)
  /\ (5 <= stage (step s) -> Py.truthy (selected_date s) = true)
  /\ (6 <= stage (step s) -> Py.truthy (selected_time s) = true)
  /\ (7 <= stage (step s) ->
      exists b, booking_details s = Some b /\ booking_of s b).

(** what a branch other than the confirmation does to a state [s] with
    store [store]: the store is as it was, the step is one the step of [s]
    leads to, and the fields stay filled *)
Definition branch_post (s : ConversationState) (store : Store)
    (m' : ConversationState * Store) : Prop :=
  snd m' = store
  /\ Py.mem (step (fst m')) (next_steps (step s)) = true
  /\ (has_fields s -> has_fields (fst m')).

(** what the confirmation branch does to a state [s] with store [store] *)
Definition confirm_post (message : string) (s : ConversationState) (store : Store)
    (m' : ConversationState * Store) : Prop :=
  m' = (s, store)
  \/ (says_yes message /\ m' = (with_step s "time_selection", store)
      /\ exists b, In b (bookings store)
           /\ slot_key b = (selected_doctor s, selected_date s, selected_time s))
  \/ (says_yes message /\ exists b,
        fst m' = with_booking s b
        /\ create_booking store (patient_name s) (selected_doctor s)
             (selected_date s) (selected_time s) = (snd m', Some b)).

(** what the [try] block does to a state [s] with store [store], by the
    branch it takes *)
Definition transition_post (message : string) (s : ConversationState)
    (store : Store) (m' : ConversationState * Store) : Prop :=
  (starts_over message /\ m' = (new_state, store))
  \/ (~ starts_over message /\ step s <> "confirm_booking"
      /\ branch_post s store m')
  \/ (~ starts_over message /\ step s = "confirm_booking"
      /\ confirm_post message s store m').

(** a conversation from the first message to the booking, on
    [Examples.db1] *)
Module Dialogue.

Definition heard (p : Parsed.t) : Env :=
  mkEnv (Ok p) "2024-01-01" "2024-01-02" (fun _ => false).

Definition nothing : Parsed.t := Parsed.mk None None None None None None None.

Definition w0 : World := mkWorld ∅ Examples.db1.

Definition w1 : World :=
  fst (process_message
         (heard (Parsed.mk None (Some "Alice") None None None None None))
         w0 "s1" "I am Alice").

Definition w2 : World := fst (process_message (heard nothing) w1 "s1" "book please").

Definition w3 : World := fst (process_message (heard nothing) w2 "s1" "cardiology").

Definition w4 : World :=
  fst (process_message
         (heard (Parsed.mk None None None (Some "smith") None None None))
         w3 "s1" "Dr smith").

Definition w5 : World := fst (process_message (heard nothing) w4 "s1" "tomorrow").

Definition w6 : World :=
  fst (process_message
         (heard (Parsed.mk None None None None None (Some "09:20") None))
         w5 "s1" "at 09:20").

Definition w7 : World := fst (process_message (heard nothing) w6 "s1" "YES").

Definition booking : Booking.t :=
  Booking.mk 2 (Some "Alice") (Some "Dr. Smith") (Some "2024-01-02") (Some "09:20").

End Dialogue.

(** the date the session moved on with was open for the doctor: not the
    off-day, and with a free slot *)
Definition date_accepted (s : ConversationState) (store : Store)
    (m' : ConversationState * Store) : Prop :=
  step (fst m') = "time_selection" ->
  exists date slots,
    selected_date (fst m') = Some date
    /\ check_doctor_availability store (selected_doctor s) date = Ok true
    /\ get_doctor_available_slots store (selected_doctor s) (Some date) = Ok slots
    /\ slots <> [].

(** the time the session moved on with was a free slot of the doctor on
    the date *)
Definition time_accepted (s : ConversationState) (store : Store)
    (m' : ConversationState * Store) : Prop :=
  step (fst m') = "confirm_booking" ->
  exists time slots,
    selected_time (fst m') = Some time
    /\ get_doctor_available_slots store (selected_doctor s) (selected_date s)
       = Ok slots
    /\ In time slots.

(** * Properties *)

Example generate_time_slots_ex1 :
  generate_time_slots "09:00" "10:00" = Ok ["09:00"; "09:20"; "09:40"].
Proof. reflexivity. Qed.

Example generate_time_slots_ex2 :
  generate_time_slots "23:10" "23:59" = Ok ["23:10"; "23:30"; "23:50"].
Proof. reflexivity. Qed.

Example generate_time_slots_ex3 :
  generate_time_slots "9:00" "9:30" = Ok ["09:00"; "09:20"].
Proof. reflexivity. Qed.

Example generate_time_slots_ex5 :
  generate_time_slots (hhmm 9 0) (hhmm 9 30) = Ok [hhmm 9 0; hhmm 9 20]
  /\ hhmm 9 20 = "09:20" /\ clock 565 = "09:25".
Proof. repeat split; reflexivity. Qed.

Example generate_time_slots_ex4 :
  generate_time_slots "09:00" "24:00" = Raise ValueError.
Proof. reflexivity. Qed.

Example available_slots_scenario :
  get_doctor_available_slots Examples.db1 (Some "Dr. Smith") (Some "2024-01-01")
  = Ok ["09:00"; "09:40"].
Proof. vm_compute. reflexivity. Qed.

(** ** Times of day *)

Lemma Zrange_In (n : nat) (x : Z) : 0 <= x < Z.of_nat n -> In x (Zrange n).
Proof.
  intros Hx. unfold Zrange. apply in_map_iff.
  exists (Z.to_nat x). split; [lia|]. apply in_seq. lia.
Qed.

(** a property of hours and minutes checked on the whole dial *)
Lemma dial_check (P : Z -> Z -> bool) :
  forallb (fun h => forallb (P h) (Zrange 60)) (Zrange 24) = true ->
  forall h m, 0 <= h < 24 -> 0 <= m < 60 -> P h m = true.
Proof.
  intros Hall h m Hh Hm.
  rewrite forallb_forall in Hall.
  specialize (Hall h (Zrange_In 24 h Hh)).
  rewrite forallb_forall in Hall.
  exact (Hall m (Zrange_In 60 m Hm)).
Qed.

Lemma strptime_hhmm (h m : Z) :
  0 <= h < 24 -> 0 <= m < 60 ->
  datetime.strptime_HM (hhmm h m) = Ok (day0 + 60 * h + m).
Proof.
  intros Hh Hm.
  pose (P := fun h m =>
    match datetime.strptime_HM (hhmm h m) with
    | Ok v => v =? day0 + 60 * h + m
    | Raise _ => false
    end).
  assert (HP : P h m = true).
  { apply dial_check; [vm_compute; reflexivity | assumption | assumption]. }
  unfold P in HP.
  destruct (datetime.strptime_HM (hhmm h m)); [|discriminate].
  apply Z.eqb_eq in HP. now subst.
Qed.

Lemma day0_value : day0 = 693595 * 1440.
Proof. reflexivity. Qed.

Lemma strftime_clock (t : Z) :
  0 <= t < 1440 -> datetime.strftime_HM (day0 + t) = clock t.
Proof.
  intros Ht. unfold datetime.strftime_HM, clock, hhmm.
  rewrite day0_value.
  replace ((693595 * 1440 + t) `mod` 1440) with t
    by (rewrite Z.add_comm, Z.mod_add, Z.mod_small; lia).
  replace ((693595 * 1440 + t) `mod` 60) with (t `mod` 60).
  - reflexivity.
  - replace (693595 * 1440 + t) with (t + (693595 * 24) * 60) by lia.
    now rewrite Z.mod_add by lia.
Qed.

Lemma strptime_clock (t : Z) :
  0 <= t < 1440 -> datetime.strptime_HM (clock t) = Ok (day0 + t).
Proof.
  intros Ht. unfold clock.
  rewrite strptime_hhmm.
  - f_equal. pose proof (Z.div_mod t 60). lia.
  - split; [apply Z.div_pos; lia | apply Z.div_lt_upper_bound; lia].
  - apply Z.mod_pos_bound. lia.
Qed.

Lemma clock_inj (t u : Z) :
  0 <= t < 1440 -> 0 <= u < 1440 -> clock t = clock u -> t = u.
Proof.
  intros Ht Hu Heq.
  pose proof (strptime_clock t Ht) as H1.
  pose proof (strptime_clock u Hu) as H2.
  rewrite Heq in H1. rewrite H1 in H2. injection H2. lia.
Qed.

Lemma clock_hhmm (h m : Z) :
  0 <= h < 24 -> 0 <= m < 60 -> clock (60 * h + m) = hhmm h m.
Proof.
  intros Hh Hm. unfold clock.
  replace ((60 * h + m) `div` 60) with h.
  - replace ((60 * h + m) `mod` 60) with m; [reflexivity|].
    rewrite Z.add_comm, Z.mul_comm, Z.mod_add, Z.mod_small; lia.
  - rewrite Z.add_comm, Z.mul_comm, Z.div_add, Z.div_small; lia.
Qed.

(** ** The slot grid *)

Lemma ticks_succ (n : nat) (current : Z) :
  ticks (S n) current = current :: ticks n (current + 20).
Proof.
  unfold ticks. cbn [seq map]. f_equal; [lia|].
  rewrite <- seq_shift, map_map. apply map_ext. intros i. lia.
Qed.

Lemma slot_count_step (current end_ : Z) :
  current < end_ -> slot_count current end_ = S (slot_count (current + 20) end_).
Proof.
  intros Hlt. unfold slot_count.
  replace (end_ - current + 19) with ((end_ - (current + 20) + 19) + 1 * 20) by lia.
  rewrite Z.div_add by lia.
  assert (0 <= (end_ - (current + 20) + 19) `div` 20) by (apply Z.div_pos; lia).
  lia.
Qed.

Lemma slot_count_done (current end_ : Z) :
  ~ current < end_ -> slot_count current end_ = 0%nat.
Proof.
  intros Hge. unfold slot_count.
  assert ((end_ - current + 19) `div` 20 <= 0).
  { apply Z.lt_succ_r. apply Z.div_lt_upper_bound; lia. }
  lia.
Qed.

(** the loop appends the texts of the ticks below [end_] *)
Lemma slots_loop_ticks (slots : list string) (current end_ : Z) :
  slots_loop slots current end_
  = slots ++ map datetime.strftime_HM (ticks (slot_count current end_) current).
Proof.
  funelim (slots_loop slots current end_).
  - rewrite H. rewrite (slot_count_step current end_) by assumption.
    rewrite ticks_succ. cbn [map]. now rewrite <- app_assoc.
  - rewrite slot_count_done by assumption. cbn. now rewrite app_nil_r.
Qed.

Lemma slot_count_shift (d current end_ : Z) :
  slot_count (d + current) (d + end_) = slot_count current end_.
Proof. unfold slot_count. f_equal. f_equal. lia. Qed.

Lemma slot_count_bounds (s e : Z) :
  s < e ->
  let n := Z.of_nat (slot_count s e) in 20 * (n - 1) < e - s <= 20 * n.
Proof.
  intros Hlt n. subst n. unfold slot_count.
  pose proof (Z.div_mod (e - s + 19) 20 ltac:(lia)) as Hdm.
  pose proof (Z.mod_pos_bound (e - s + 19) 20 ltac:(lia)) as Hmod.
  assert (0 <= (e - s + 19) `div` 20) by (apply Z.div_pos; lia).
  rewrite Z2Nat.id by assumption. lia.
Qed.

Lemma ticks_In (n : nat) (current t : Z) :
  In t (ticks n current) <->
  exists i, (i < n)%nat /\ t = current + 20 * Z.of_nat i.
Proof.
  unfold ticks. rewrite in_map_iff. split.
  - intros (i & <- & Hi). apply in_seq in Hi. exists i. split; [lia | reflexivity].
  - intros (i & Hi & ->). exists i. split; [reflexivity | apply in_seq; lia].
Qed.

(** the ticks counted by [slot_count] are the multiples of 20 minutes from
    [s] that lie below [e] *)
Lemma ticks_below (s e t : Z) :
  In t (ticks (slot_count s e) s) <-> s <= t < e /\ (t - s) `mod` 20 = 0.
Proof.
  rewrite ticks_In. split.
  - intros (i & Hi & ->).
    destruct (Z_lt_dec s e) as [Hlt|Hge].
    + pose proof (slot_count_bounds s e Hlt) as Hb. cbv zeta in Hb.
      split; [lia|].
      replace (s + 20 * Z.of_nat i - s) with (Z.of_nat i * 20) by lia.
      apply Z.mod_mul. lia.
    + rewrite slot_count_done in Hi by assumption. lia.
  - intros [[Hs He] Hmod].
    assert (Hlt : s < e) by lia.
    pose proof (slot_count_bounds s e Hlt) as Hb. cbv zeta in Hb.
    pose proof (Z.div_mod (t - s) 20 ltac:(lia)) as Hdm.
    rewrite Hmod in Hdm.
    assert (0 <= (t - s) `div` 20) by (apply Z.div_pos; lia).
    exists (Z.to_nat ((t - s) `div` 20)). split; lia.
Qed.

Lemma StronglySorted_map_seq {A} (R : A -> A -> Prop) (f : nat -> A) (a n : nat) :
  (forall i j, (a <= i < j)%nat -> (j < a + n)%nat -> R (f i) (f j)) ->
  StronglySorted R (map f (seq a n)).
Proof.
  revert a. induction n as [|n IH]; intros a HR; cbn [seq map].
  - constructor.
  - constructor.
    + apply IH. intros i j Hij Hj. apply HR; lia.
    + apply List.Forall_forall. intros x Hx. apply in_map_iff in Hx.
      destruct Hx as (j & <- & Hj). apply in_seq in Hj. apply HR; lia.
Qed.

Lemma ticks_sorted (n : nat) (current : Z) :
  StronglySorted Z.lt (ticks n current).
Proof.
  unfold ticks. apply StronglySorted_map_seq. intros i j Hij _. lia.
Qed.

(** *** What [strptime] returns *)

Lemma digit_if_inv (p : Z -> bool) (s : string) (v : Z) (r : string) :
  datetime.digit_if p s = Some (v, r) -> 0 <= v <= 9 /\ p v = true.
Proof.
  unfold datetime.digit_if. destruct s as [|c s']; [discriminate|].
  destruct (Py.is_digit c) eqn:Hd; cbn [andb]; [|discriminate].
  destruct (p (Py.digit_value c)) eqn:Hp; [|discriminate].
  intros [= <- <-]. split; [|assumption].
  unfold Py.is_digit in Hd. unfold Py.digit_value.
  apply andb_true_iff in Hd. destruct Hd as [H1 H2].
  apply N.leb_le in H1, H2. lia.
Qed.

Lemma then_digit_inv (m : datetime.matcher) (p : Z -> bool) (s : string)
    (v : Z) (r : string) :
  datetime.then_digit m p s = Some (v, r) ->
  exists a b r', m s = Some (a, r') /\ v = 10 * a + b /\ 0 <= b <= 9 /\ p b = true.
Proof.
  unfold datetime.then_digit.
  destruct (m s) as [[a r']|]; [|discriminate].
  destruct (datetime.digit_if p r') as [[b r'']|] eqn:Hb; [|discriminate].
  intros [= <- <-]. apply digit_if_inv in Hb.
  exists a, b, r'. intuition.
Qed.

Lemma first_of_inv {A} (alts : list datetime.matcher)
    (k : Z -> string -> option A) (s : string) (a : A) :
  datetime.first_of alts k s = Some a ->
  exists m v r, In m alts /\ m s = Some (v, r) /\ k v r = Some a.
Proof.
  induction alts as [|m rest IH]; cbn [datetime.first_of]; [discriminate|].
  destruct (m s) as [[v r]|] eqn:Hm.
  - destruct (k v r) as [a'|] eqn:Hk.
    + intros [= <-]. exists m, v, r. cbn. auto.
    + intros H. destruct (IH H) as (m' & v' & r' & Hin & Hm' & Hk').
      exists m', v', r'. cbn. auto.
  - intros H. destruct (IH H) as (m' & v' & r' & Hin & Hm' & Hk').
    exists m', v', r'. cbn. auto.
Qed.

Lemma re_H_range (m : datetime.matcher) (s : string) (v : Z) (r : string) :
  In m datetime.re_H -> m s = Some (v, r) -> 0 <= v < 24.
Proof.
  intros Hin Hm. cbn in Hin. destruct Hin as [<-|[<-|[<-|[]]]].
  - apply then_digit_inv in Hm. destruct Hm as (a & b & r' & Ha & -> & Hb & Hp).
    apply digit_if_inv in Ha. destruct Ha as [_ Ha]. apply Z.eqb_eq in Ha.
    apply Z.leb_le in Hp. lia.
  - apply then_digit_inv in Hm. destruct Hm as (a & b & r' & Ha & -> & Hb & _).
    apply digit_if_inv in Ha. destruct Ha as [Ha0 Ha]. apply Z.leb_le in Ha. lia.
  - apply digit_if_inv in Hm. lia.
Qed.

Lemma re_M_range (m : datetime.matcher) (s : string) (v : Z) (r : string) :
  In m datetime.re_M -> m s = Some (v, r) -> 0 <= v < 60.
Proof.
  intros Hin Hm. cbn in Hin. destruct Hin as [<-|[<-|[]]].
  - apply then_digit_inv in Hm. destruct Hm as (a & b & r' & Ha & -> & Hb & _).
    apply digit_if_inv in Ha. destruct Ha as [Ha0 Ha]. apply Z.leb_le in Ha. lia.
  - apply digit_if_inv in Hm. lia.
Qed.

(** a parsed time is a minute of 1900-01-01 *)
Lemma strptime_HM_range (s : string) (v : Z) :
  datetime.strptime_HM s = Ok v -> exists t, 0 <= t < 1440 /\ v = day0 + t.
Proof.
  unfold datetime.strptime_HM.
  destruct (datetime.first_of _ _ s) as [[[h m] rest]|] eqn:Hre; [|discriminate].
  destruct rest; [|discriminate]. intros [= <-].
  apply first_of_inv in Hre. destruct Hre as (mh & h' & r1 & HinH & HmH & Hk).
  pose proof (re_H_range mh s h' r1 HinH HmH) as Hh.
  unfold datetime.lit in Hk. destruct r1 as [|c r2]; [discriminate|].
  destruct (Ascii.eqb ":" c); [|discriminate].
  apply first_of_inv in Hk. destruct Hk as (mm & m' & r3 & HinM & HmM & Hk).
  pose proof (re_M_range mm r2 m' r3 HinM HmM) as Hm.
  injection Hk as -> -> _.
  exists (60 * h + m). split; [lia|].
  unfold datetime.make. rewrite day0_value.
  change (datetime.ymd2ord 1900 1 1) with 693596. lia.
Qed.

(** the grid of a doctor whose hours parse: the clock texts of the ticks
    from the start that lie below the end *)
Lemma generate_time_slots_grid (start_time end_time : string) (slots : list string) :
  generate_time_slots start_time end_time = Ok slots ->
  exists s e, 0 <= s < 1440 /\ 0 <= e < 1440
    /\ datetime.strptime_HM start_time = Ok (day0 + s)
    /\ datetime.strptime_HM end_time = Ok (day0 + e)
    /\ slots = map clock (ticks (slot_count s e) s).
Proof.
  unfold generate_time_slots, rbind.
  destruct (datetime.strptime_HM start_time) as [vs|] eqn:Hs; [|discriminate].
  destruct (datetime.strptime_HM end_time) as [ve|] eqn:He; [|discriminate].
  intros [= <-].
  apply strptime_HM_range in Hs, He.
  destruct Hs as (s & Hs & ->). destruct He as (e & He & ->).
  exists s, e. repeat split; try lia.
  rewrite slots_loop_ticks, slot_count_shift. cbn [app].
  unfold ticks. rewrite !map_map. apply map_ext_in.
  intros i Hi. apply in_seq in Hi.
  replace (day0 + s + 20 * Z.of_nat i) with (day0 + (s + 20 * Z.of_nat i)) by lia.
  apply strftime_clock.
  destruct (Z_lt_dec s e) as [Hlt|Hge].
  - pose proof (slot_count_bounds s e Hlt) as Hb. cbv zeta in Hb. lia.
  - rewrite slot_count_done in Hi by assumption. lia.
Qed.

Lemma clock_grid_sorted (s e : Z) :
  0 <= s -> e < 1440 ->
  StronglySorted clock_lt (map clock (ticks (slot_count s e) s)).
Proof.
  intros Hs He. unfold ticks. rewrite map_map.
  apply StronglySorted_map_seq. intros i j Hij Hj.
  destruct (Z_lt_dec s e) as [Hlt|Hge].
  - pose proof (slot_count_bounds s e Hlt) as Hb. cbv zeta in Hb.
    exists (s + 20 * Z.of_nat i), (s + 20 * Z.of_nat j).
    repeat split; lia.
  - rewrite slot_count_done in Hj by assumption. lia.
Qed.

(** C2: for well-formed times [h1:m1] before [h2:m2], [generate_time_slots]
    returns a list that begins with the start, whose i-th entry is the
    start plus i times 20 minutes, that holds exactly the multiples of 20
    minutes from the start whose own time is strictly before the end, and
    that is strictly increasing. *)
Theorem generate_time_slots_correct (h1 m1 h2 m2 : Z) :
  0 <= h1 < 24 -> 0 <= m1 < 60 -> 0 <= h2 < 24 -> 0 <= m2 < 60 ->
  60 * h1 + m1 < 60 * h2 + m2 ->
  exists slots,
    generate_time_slots (hhmm h1 m1) (hhmm h2 m2) = Ok slots
    /\ hd_error slots = Some (hhmm h1 m1)
    /\ (exists n, slots =
          map (fun i => clock (60 * h1 + m1 + 20 * Z.of_nat i)) (seq 0 n))
    /\ (forall t, 0 <= t < 1440 ->
          In (clock t) slots <->
          60 * h1 + m1 <= t < 60 * h2 + m2 /\ (t - (60 * h1 + m1)) `mod` 20 = 0)
    /\ StronglySorted clock_lt slots.
Proof.
  intros Hh1 Hm1 Hh2 Hm2 Hlt.
  destruct (generate_time_slots (hhmm h1 m1) (hhmm h2 m2)) as [slots|x] eqn:Hgen.
  2:{ unfold generate_time_slots in Hgen.
      rewrite !strptime_hhmm in Hgen by assumption. discriminate. }
  exists slots. split; [reflexivity|].
  destruct (generate_time_slots_grid _ _ _ Hgen) as (s & e & Hs & He & Ps & Pe & ->).
  rewrite strptime_hhmm in Ps, Pe by assumption.
  assert (s = 60 * h1 + m1) as -> by (injection Ps; lia).
  assert (e = 60 * h2 + m2) as -> by (injection Pe; lia).
  clear Ps Pe.
  split; [|split; [|split]].
  - rewrite (slot_count_step _ _ Hlt), ticks_succ. cbn.
    now rewrite clock_hhmm.
  - exists (slot_count (60 * h1 + m1) (60 * h2 + m2)).
    unfold ticks. now rewrite map_map.
  - intros t Ht. rewrite <- ticks_below. split.
    + intros Hin. apply in_map_iff in Hin. destruct Hin as (u & Heq & Hu).
      pose proof Hu as Hu'. apply ticks_below in Hu'.
      apply clock_inj in Heq; [now subst u | lia | lia].
    + apply in_map.
  - apply clock_grid_sorted; lia.
Qed.

Lemma generate_time_slots_correct_witness :
  exists slots,
    generate_time_slots (hhmm 9 0) (hhmm 10 0) = Ok slots
    /\ hd_error slots = Some (hhmm 9 0)
    /\ (exists n, slots =
          map (fun i => clock (60 * 9 + 0 + 20 * Z.of_nat i)) (seq 0 n))
    /\ (forall t, 0 <= t < 1440 ->
          In (clock t) slots <->
          60 * 9 + 0 <= t < 60 * 10 + 0 /\ (t - (60 * 9 + 0)) `mod` 20 = 0)
    /\ StronglySorted clock_lt slots.
Proof.
  apply (generate_time_slots_correct 9 0 10 0); lia.
Defined.

(** ** Available slots *)

Lemma doctor_named_Some (db : Store) (D : string) (doc : Doctor.t) :
  doctor_named db (Some D) = Some doc ->
  In doc (doctors db) /\ Doctor.doctor_name doc = D.
Proof.
  unfold doctor_named. intros H. apply find_some in H. destruct H as [Hin Hd].
  apply bool_decide_eq_true in Hd. split; [assumption | congruence].
Qed.

Lemma doctor_named_None (db : Store) (D : string) :
  doctor_named db (Some D) = None <->
  forall d, In d (doctors db) -> Doctor.doctor_name d <> D.
Proof.
  unfold doctor_named. split.
  - intros H d Hin Heq.
    pose proof (find_none _ _ H d Hin) as Hd. cbn beta in Hd.
    apply bool_decide_eq_false in Hd. congruence.
  - intros H. destruct (List.find _ _) as [d|] eqn:Hf; [|reflexivity].
    apply find_some in Hf. destruct Hf as [Hin Hd].
    apply bool_decide_eq_true in Hd. exfalso. apply (H d Hin). congruence.
Qed.

Lemma booked_slots_spec (db : Store) (D T s : string) :
  Some s ∈ map Booking.time_slot (booked_for db (Some D) (Some T)) <->
  booked db D T s.
Proof.
  rewrite list_elem_of_In, in_map_iff. unfold booked_for, booked. split.
  - intros (b & Hs & Hb). apply filter_In in Hb. destruct Hb as [Hin Hk].
    apply andb_true_iff in Hk. destruct Hk as [H1 H2].
    apply bool_decide_eq_true in H1, H2. exists b. auto.
  - intros (b & Hin & H1 & H2 & H3). exists b. split; [assumption|].
    apply filter_In. split; [assumption|].
    apply andb_true_iff. split; apply bool_decide_eq_true; assumption.
Qed.

Lemma filter_sublist {A} (f : A -> bool) (l : list A) :
  sublist (List.filter f l) l.
Proof.
  induction l as [|x l IH]; cbn [List.filter].
  - constructor.
  - destruct (f x); constructor; assumption.
Qed.

(** C1: when no doctor has exactly the name [D] the result is empty;
    otherwise, with [grid] the slots generated from the working hours of
    the doctor found, the result is a subsequence of [grid] (its order is
    kept) that holds exactly the slots of [grid] with no booking for
    [(D, T)], so that the slots of [grid] missing from the result are the
    booked slots that lie in [grid]. *)
Theorem get_doctor_available_slots_correct (db : Store) (D T : string) :
  ((forall d, In d (doctors db) -> Doctor.doctor_name d <> D) ->
   get_doctor_available_slots db (Some D) (Some T) = Ok [])
  /\ (forall doc grid,
        doctor_named db (Some D) = Some doc ->
        generate_time_slots (Doctor.available_start doc) (Doctor.available_end doc)
          = Ok grid ->
        exists available,
          get_doctor_available_slots db (Some D) (Some T) = Ok available
          /\ sublist available grid
          /\ (forall s, In s available <-> In s grid /\ ~ booked db D T s)
          /\ (forall s, In s grid /\ ~ In s available <->
                        booked db D T s /\ In s grid)).
Proof.
  split.
  - intros Hno. apply doctor_named_None in Hno.
    unfold get_doctor_available_slots. now rewrite Hno.
  - intros doc grid Hdoc Hgrid.
    unfold get_doctor_available_slots. rewrite Hdoc, Hgrid. cbn [rbind].
    eexists. split; [reflexivity|].
    assert (Hmem : forall s,
      In s (List.filter (fun s => negb (bool_decide
        (Some s ∈ map Booking.time_slot (booked_for db (Some D) (Some T))))) grid)
      <-> In s grid /\ ~ booked db D T s).
    { intros s. rewrite filter_In, negb_true_iff, bool_decide_eq_false.
      now rewrite booked_slots_spec. }
    split; [apply filter_sublist|]. split; [exact Hmem|].
    intros s. rewrite Hmem. split.
    + intros [Hg Hn]. split; [|assumption].
      destruct (decide (Some s ∈ map Booking.time_slot
                          (booked_for db (Some D) (Some T)))) as [Hb|Hb].
      * now apply booked_slots_spec.
      * exfalso. apply Hn. split; [assumption|].
        now rewrite <- booked_slots_spec.
    + intros [Hb Hg]. split; [assumption|]. intros [_ Hn]. now apply Hn.
Qed.

Lemma get_doctor_available_slots_correct_witness :
  get_doctor_available_slots Examples.db1 (Some "Dr. Who") (Some "2024-01-01") = Ok []
  /\ exists available,
       get_doctor_available_slots Examples.db1 (Some "Dr. Smith") (Some "2024-01-01")
         = Ok available
       /\ sublist available ["09:00"; "09:20"; "09:40"]
       /\ (forall s, In s available <->
             In s ["09:00"; "09:20"; "09:40"]
             /\ ~ booked Examples.db1 "Dr. Smith" "2024-01-01" s)
       /\ (forall s, In s ["09:00"; "09:20"; "09:40"] /\ ~ In s available <->
             booked Examples.db1 "Dr. Smith" "2024-01-01" s
             /\ In s ["09:00"; "09:20"; "09:40"]).
Proof.
  split.
  - apply (get_doctor_available_slots_correct Examples.db1 "Dr. Who" "2024-01-01").
    intros d Hin. cbn in Hin. destruct Hin as [<-|[<-|[]]]; discriminate.
  - apply (proj2 (get_doctor_available_slots_correct
                    Examples.db1 "Dr. Smith" "2024-01-01") Examples.smith);
      reflexivity.
Defined.

(** ** The booking ledger *)

Lemma slot_key_test (b : Booking.t) (d dt ts : option string) :
  bool_decide (Booking.doctor_name b = d) && bool_decide (Booking.date b = dt)
    && bool_decide (Booking.time_slot b = ts) = true
  <-> slot_key b = (d, dt, ts).
Proof.
  unfold slot_key. rewrite !andb_true_iff, !bool_decide_eq_true. split.
  - intros [[-> ->] ->]. reflexivity.
  - intros [= -> -> ->]. auto.
Qed.

Lemma max_id_bound (ids : list Z) (x : Z) :
  In x ids -> x < Sql.next_id ids.
Proof.
  unfold Sql.next_id. induction ids as [|y ids IH]; cbn [In fold_right].
  - intros [].
  - intros [->|Hin]; [lia | specialize (IH Hin); lia].
Qed.

Lemma slot_unique_snoc (rows : list Booking.t) (b : Booking.t) :
  slot_unique rows ->
  (forall b', In b' rows -> slot_key b' <> slot_key b) ->
  slot_unique (rows ++ [b]).
Proof.
  intros Huniq Hfresh i j b1 b2 Hi Hj Hkey.
  destruct (Nat.lt_ge_cases i (length rows)) as [Hil|Hil];
    destruct (Nat.lt_ge_cases j (length rows)) as [Hjl|Hjl].
  - rewrite nth_error_app1 in Hi, Hj by assumption.
    exact (Huniq i j b1 b2 Hi Hj Hkey).
  - rewrite nth_error_app1 in Hi by assumption.
    rewrite nth_error_app2 in Hj by assumption.
    destruct (j - length rows)%nat as [|k]; cbn in Hj.
    + injection Hj as <-. exfalso.
      exact (Hfresh b1 (nth_error_In _ _ Hi) Hkey).
    + now destruct k.
  - rewrite nth_error_app2 in Hi by assumption.
    rewrite nth_error_app1 in Hj by assumption.
    destruct (i - length rows)%nat as [|k]; cbn in Hi.
    + injection Hi as <-. exfalso.
      exact (Hfresh b2 (nth_error_In _ _ Hj) (eq_sym Hkey)).
    + now destruct k.
  - rewrite nth_error_app2 in Hi, Hj by assumption.
    destruct (i - length rows)%nat as [|k] eqn:Hk; cbn in Hi; [|now destruct k].
    destruct (j - length rows)%nat as [|k'] eqn:Hk'; cbn in Hj; [|now destruct k'].
    lia.
Qed.

(** C3: [create_booking] returns [None] exactly when a booking with the
    same (doctor, date, time slot) exists, and then leaves the store as it
    was; otherwise it appends one booking with the given fields and a fresh
    id and returns it; a ledger with at most one booking per (doctor, date,
    time slot) stays so. *)
Theorem create_booking_correct (db : Store) (p d dt ts : option string) :
  let db' := fst (create_booking db p d dt ts) in
  let r := snd (create_booking db p d dt ts) in
  (r = None <-> exists b, In b (bookings db) /\ slot_key b = (d, dt, ts))
  /\ (r = None -> db' = db)
  /\ (forall b, r = Some b ->
        Booking.patient_name b = p /\ slot_key b = (d, dt, ts)
        /\ bookings db' = bookings db ++ [b]
        /\ doctors db' = doctors db
        /\ forall b', In b' (bookings db) -> Booking.id b' <> Booking.id b)
  /\ (slot_unique (bookings db) -> slot_unique (bookings db')).
Proof.
  unfold create_booking.
  destruct (List.find _ (bookings db)) as [b0|] eqn:Hfind; cbn [fst snd].
  - apply find_some in Hfind. destruct Hfind as [Hin Hk].
    apply slot_key_test in Hk.
    split; [split; [intros _; exists b0; auto | reflexivity]|].
    split; [reflexivity|]. split; [discriminate|]. auto.
  - assert (Hfresh : forall b', In b' (bookings db) -> slot_key b' <> (d, dt, ts)).
    { intros b' Hin Hk. apply slot_key_test in Hk.
      pose proof (find_none _ _ Hfind b' Hin) as Hn. cbn beta in Hn. congruence. }
    split.
    { split; [discriminate|]. intros (b & Hin & Hk). exfalso. exact (Hfresh b Hin Hk). }
    split; [discriminate|]. split.
    + intros b [= <-]. cbn. repeat split.
      intros b' Hin Heq.
      pose proof (max_id_bound (map Booking.id (bookings db)) (Booking.id b')
                    (in_map _ _ _ Hin)) as Hlt.
      lia.
    + intros Huniq. cbn. apply slot_unique_snoc; [assumption|].
      intros b' Hin. exact (Hfresh b' Hin).
Qed.

Lemma slot_unique_db1 : slot_unique (bookings Examples.db1).
Proof.
  intros i j b1 b2 Hi Hj _.
  destruct i as [|[|i]]; destruct j as [|[|j]]; cbn in Hi, Hj;
    try discriminate; reflexivity.
Qed.

Lemma create_booking_correct_witness :
  slot_unique (bookings (fst (create_booking Examples.db1 (Some "Alice")
    (Some "Dr. Smith") (Some "2024-01-01") (Some "09:40")))).
Proof.
  apply (create_booking_correct Examples.db1 (Some "Alice") (Some "Dr. Smith")
           (Some "2024-01-01") (Some "09:40")).
  apply slot_unique_db1.
Defined.

(** ** Off days *)

Lemma strftime_A_nonempty (dt : Z) : datetime.strftime_A dt <> "".
Proof.
  unfold datetime.strftime_A, datetime.weekday.
  pose proof (Z.mod_pos_bound (datetime.toordinal dt + 6) 7 ltac:(lia)) as Hb.
  set (w := (datetime.toordinal dt + 6) `mod` 7) in *.
  assert (Hw : w = 0 \/ w = 1 \/ w = 2 \/ w = 3 \/ w = 4 \/ w = 5 \/ w = 6) by lia.
  destruct Hw as [->|[->|[->|[->|[->|[->| ->]]]]]]; discriminate.
Qed.

(** C6, as the code has it: for a date whose day of the week is [dn], the
    answer is false exactly when no doctor has the name, or the doctor
    found has [dn] as off-day; it is true in every other case. *)
Theorem check_doctor_availability_correct (db : Store) (name date dn : string) :
  day_of_week date = Ok dn ->
  exists b,
    check_doctor_availability db (Some name) date = Ok b
    /\ (b = false <->
        doctor_named db (Some name) = None
        \/ exists doc, doctor_named db (Some name) = Some doc
                       /\ Doctor.off_day doc = Some dn).
Proof.
  unfold day_of_week, check_doctor_availability, rbind. intros Hday.
  destruct (datetime.strptime_Ymd date) as [date_obj|] eqn:Hparse; [|discriminate].
  injection Hday as <-.
  destruct (doctor_named db (Some name)) as [doc|].
  - destruct (Doctor.off_day doc) as [off|] eqn:Hoff; cbn [Py.truthy].
    + destruct off as [|c off'].
      * exists true. split; [reflexivity|]. split; [discriminate|].
        intros [Hn|(doc' & [= <-] & Hd)]; [discriminate|].
        rewrite Hoff in Hd. injection Hd as Hd. symmetry in Hd.
        now apply strftime_A_nonempty in Hd.
      * cbn [andb]. destruct (bool_decide _) eqn:Hdec.
        -- apply bool_decide_eq_true in Hdec. exists false.
           split; [reflexivity|]. split; [|reflexivity].
           intros _. right. exists doc. split; [reflexivity | congruence].
        -- apply bool_decide_eq_false in Hdec. exists true.
           split; [reflexivity|]. split; [discriminate|].
           intros [Hn|(doc' & [= <-] & Hd)]; [discriminate|].
           rewrite Hoff in Hd. exfalso. apply Hdec. congruence.
    + exists true. split; [reflexivity|]. split; [discriminate|].
      intros [Hn|(doc' & [= <-] & Hd)]; [discriminate|].
      rewrite Hoff in Hd. discriminate.
  - exists false. split; [reflexivity|]. split; auto.
Qed.

Lemma check_doctor_availability_correct_witness :
  exists b,
    check_doctor_availability Examples.db1 (Some "Dr. Smith") "2024-01-05" = Ok b
    /\ (b = false <->
        doctor_named Examples.db1 (Some "Dr. Smith") = None
        \/ exists doc, doctor_named Examples.db1 (Some "Dr. Smith") = Some doc
                       /\ Doctor.off_day doc = Some "Friday").
Proof.
  apply (check_doctor_availability_correct Examples.db1 "Dr. Smith" "2024-01-05"
           "Friday").
  reflexivity.
Defined.

(** C6, as stated, fails: no doctor is called Dr. Who, the date is a
    well-formed Monday, and the answer is false, not true. *)
Lemma check_doctor_availability_unknown_doctor :
  (forall d, In d (doctors Examples.db1) -> Doctor.doctor_name d <> "Dr. Who")
  /\ day_of_week "2024-01-01" = Ok "Monday"
  /\ check_doctor_availability Examples.db1 (Some "Dr. Who") "2024-01-01" = Ok false.
Proof.
  split; [|split; reflexivity].
  intros d Hin. cbn in Hin. destruct Hin as [<-|[<-|[]]]; discriminate.
Qed.

(** ** Stable sorting by a key *)

Section StableSortFacts.
Context {A : Type} (key : A -> Z) (R : A -> A -> Prop).

Local Abbreviation key_then := (key_then key R).

Lemma insert_by_perm (x : A) (l : list A) :
  Permutation (insert_by key x l) (x :: l).
Proof.
  induction l as [|y l IH]; cbn [insert_by]; [reflexivity|].
  destruct (key x <=? key y); [reflexivity|].
  rewrite IH. apply perm_swap.
Qed.

Lemma sort_by_perm (l : list A) : Permutation (sort_by key l) l.
Proof.
  induction l as [|x l IH]; cbn [sort_by]; [reflexivity|].
  rewrite insert_by_perm. now constructor.
Qed.

Lemma insert_by_sorted (x : A) (l : list A) :
  StronglySorted key_then l -> List.Forall (R x) l ->
  StronglySorted key_then (insert_by key x l).
Proof.
  induction l as [|y l IH]; intros Hs Hx; cbn [insert_by].
  - repeat constructor.
  - inversion Hs as [|? ? Hsl Hy]; subst.
    inversion Hx as [|? ? Hxy Hxl]; subst.
    destruct (Z.leb_spec (key x) (key y)) as [Hle|Hgt].
    + constructor; [assumption|]. constructor.
      * unfold key_then.
        destruct (Z.eq_dec (key x) (key y)) as [Heq|Hne]; [now right|].
        left. lia.
      * rewrite List.Forall_forall in *. intros z Hz.
        specialize (Hy z Hz). specialize (Hxl z Hz).
        unfold key_then in *.
        destruct (Z.eq_dec (key x) (key z)) as [Heq|Hne]; [now right|].
        left. lia.
    + constructor; [auto|].
      rewrite List.Forall_forall in *. intros z Hz.
      apply (Permutation_in _ (insert_by_perm x l)) in Hz.
      destruct Hz as [<-|Hz]; [unfold key_then; lia | auto].
Qed.

Lemma sort_by_sorted (l : list A) :
  StronglySorted R l -> StronglySorted key_then (sort_by key l).
Proof.
  induction 1 as [|x l Hs IH Hx]; cbn [sort_by]; [constructor|].
  apply insert_by_sorted; [assumption|].
  rewrite List.Forall_forall in *. intros z Hz. apply Hx.
  exact (Permutation_in _ (sort_by_perm l) Hz).
Qed.

End StableSortFacts.

Lemma insert_by_map {A B} (key : B -> Z) (g : A -> B) (x : A) (l : list A) :
  insert_by key (g x) (map g l) = map g (insert_by (fun a => key (g a)) x l).
Proof.
  induction l as [|y l IH]; cbn [insert_by map]; [reflexivity|].
  destruct (key (g x) <=? key (g y)); [reflexivity|]. cbn [map]. now rewrite IH.
Qed.

Lemma sort_by_map {A B} (key : B -> Z) (g : A -> B) (l : list A) :
  sort_by key (map g l) = map g (sort_by (fun a => key (g a)) l).
Proof.
  induction l as [|x l IH]; cbn [sort_by map]; [reflexivity|].
  now rewrite IH, insert_by_map.
Qed.

Lemma StronglySorted_firstn {A} (R : A -> A -> Prop) (n : nat) (l : list A) :
  StronglySorted R l -> StronglySorted R (firstn n l).
Proof.
  intros Hs. revert n. induction Hs as [|x l Hs IH Hx]; intros [|n]; cbn [firstn];
    try constructor.
  - apply IH.
  - rewrite List.Forall_forall in *. intros z Hz. apply Hx.
    rewrite <- (firstn_skipn n l). apply in_or_app. now left.
Qed.

Lemma StronglySorted_cut {A} (R : A -> A -> Prop) (n : nat) (l : list A) (a b : A) :
  StronglySorted R l -> In a (firstn n l) -> In b (skipn n l) -> R a b.
Proof.
  intros Hs. revert n. induction Hs as [|x l Hs IH Hx]; intros [|n] Ha Hb;
    cbn [firstn skipn] in *; try contradiction.
  destruct Ha as [<-|Ha].
  - rewrite List.Forall_forall in Hx. apply Hx.
    rewrite <- (firstn_skipn n l). apply in_or_app. now right.
  - exact (IH n Ha Hb).
Qed.

(** ** Alternative slots *)

Lemma filter_map_comm {A B} (f : B -> bool) (g : A -> B) (l : list A) :
  List.filter f (map g l) = map g (List.filter (fun a => f (g a)) l).
Proof.
  induction l as [|x l IH]; cbn [List.filter map]; [reflexivity|].
  destruct (f (g x)); cbn [map]; now rewrite IH.
Qed.

Lemma StronglySorted_filter_keep {A} (R : A -> A -> Prop) (f : A -> bool)
    (l : list A) :
  StronglySorted R l -> StronglySorted R (List.filter f l).
Proof.
  induction 1 as [|x l Hs IH Hx]; cbn [List.filter]; [constructor|].
  destruct (f x); [|assumption]. constructor; [assumption|].
  rewrite List.Forall_forall in *. intros z Hz. apply filter_In in Hz. now apply Hx.
Qed.

Lemma StronglySorted_map_in {A B} (R : A -> A -> Prop) (R' : B -> B -> Prop)
    (f : A -> B) (l : list A) :
  (forall a b, In a l -> In b l -> R a b -> R' (f a) (f b)) ->
  StronglySorted R l -> StronglySorted R' (map f l).
Proof.
  intros Hf Hs. induction Hs as [|x l Hs IH Hx]; cbn [map]; constructor.
  - apply IH. intros a b Ha Hb. apply Hf; now right.
  - rewrite List.Forall_forall in *. intros z Hz. apply in_map_iff in Hz.
    destruct Hz as (b & <- & Hb). apply Hf; [now left | now right | now apply Hx].
Qed.

Lemma mem_In (x : string) (l : list string) : Py.mem x l = true <-> In x l.
Proof.
  unfold Py.mem. rewrite existsb_exists. split.
  - intros (y & Hy & Heq). apply String.eqb_eq in Heq. now subst.
  - intros Hin. exists x. split; [assumption | apply String.eqb_refl].
Qed.

(** the available slots are clock texts of increasing times of day *)
Lemma available_slots_shape (db : Store) (D T : option string)
    (available : list string) :
  get_doctor_available_slots db D T = Ok available ->
  exists us, available = map clock us
    /\ StronglySorted Z.lt us
    /\ forall u, In u us -> 0 <= u < 1440.
Proof.
  unfold get_doctor_available_slots.
  destruct (doctor_named db D) as [doc|].
  - destruct (generate_time_slots _ _) as [grid|] eqn:Hgrid; [|discriminate].
    cbn [rbind]. intros [= <-].
    destruct (generate_time_slots_grid _ _ _ Hgrid) as (s & e & Hs & He & _ & _ & ->).
    rewrite filter_map_comm. eexists. split; [reflexivity|]. split.
    + apply StronglySorted_filter_keep, ticks_sorted.
    + intros u Hu. apply filter_In in Hu. destruct Hu as [Hu _].
      apply ticks_below in Hu. lia.
  - intros [= <-]. exists []. split; [reflexivity|].
    split; [constructor | intros u []].
Qed.

Lemma map_result_clock (us : list Z) :
  (forall u, In u us -> 0 <= u < 1440) ->
  map_result datetime.strptime_HM (map clock us) = Ok (map (Z.add day0) us).
Proof.
  induction us as [|u us IH]; intros Hr; cbn [map map_result]; [reflexivity|].
  rewrite strptime_clock by (apply Hr; now left).
  cbn [rbind]. rewrite IH by (intros v Hv; apply Hr; now right). reflexivity.
Qed.

Lemma nearer_closer (p a b : Z) :
  0 <= a < 1440 -> 0 <= b < 1440 -> nearer p a b -> closer p (clock a) (clock b).
Proof.
  intros Ha Hb Hn. exists a, b.
  repeat split; try lia; try (now apply strptime_clock). exact Hn.
Qed.

(** C5: with [available] the available slots of the doctor on the date,
    the result is empty when [available] is; it is [[preferred]] when
    [preferred] is one of them; otherwise, for a preferred time of day [p],
    it holds min(3, number available) of the available slots, ranked
    nearest to [p] first with the earlier time first among equally near
    ones, and every available slot left out ranks after every one
    returned.  No result has more than 3 entries. *)
Theorem suggest_alternative_slots_correct (db : Store) (D T preferred : string)
    (available : list string) :
  get_doctor_available_slots db (Some D) (Some T) = Ok available ->
  (available = [] ->
   suggest_alternative_slots db (Some D) (Some T) preferred = Ok [])
  /\ (In preferred available ->
      suggest_alternative_slots db (Some D) (Some T) preferred = Ok [preferred])
  /\ (forall p, available <> [] -> ~ In preferred available ->
      minute_of preferred p ->
      exists r,
        suggest_alternative_slots db (Some D) (Some T) preferred = Ok r
        /\ length r = Nat.min 3 (length available)
        /\ (forall s, In s r -> In s available)
        /\ StronglySorted (closer p) r
        /\ (forall s t, In s r -> In t available -> ~ In t r -> closer p s t))
  /\ (forall r,
      suggest_alternative_slots db (Some D) (Some T) preferred = Ok r ->
      (length r <= 3)%nat).
Proof.
  intros Hget. unfold suggest_alternative_slots. rewrite Hget. cbn [rbind].
  split; [now intros ->|].
  split.
  { intros Hin. destruct available as [|a l]; [destruct Hin|].
    apply mem_In in Hin. now rewrite Hin. }
  split.
  - intros p Hne Hnot [Hp Hparse].
    destruct available as [|a0 l0] eqn:Hav; [congruence|]. rewrite <- Hav in *.
    clear Hne.
    assert (Hmem : Py.mem preferred available = false).
    { apply not_true_is_false. intros H. now apply mem_In in H. }
    rewrite Hmem, Hparse. cbn [rbind].
    destruct (available_slots_shape _ _ _ _ Hget) as (us & Hus & Hsorted & Hrange).
    rewrite Hus, (map_result_clock us Hrange). cbn [rbind].
    rewrite sort_by_map, firstn_map, map_map.
    set (key := fun a : Z => Z.abs ((day0 + a - (day0 + p)) * 60)).
    set (S := sort_by key us).
    assert (Hperm : Permutation S us) by apply sort_by_perm.
    assert (HS : StronglySorted (key_then key Z.lt) S)
      by now apply sort_by_sorted.
    assert (HSr : forall u, In u S -> 0 <= u < 1440).
    { intros u Hu. apply Hrange. exact (Permutation_in _ Hperm Hu). }
    assert (Hfirst : forall u, In u (firstn 3 S) -> In u S).
    { intros u Hu. rewrite <- (firstn_skipn 3 S). apply in_or_app. now left. }
    assert (Hnear : forall a b, In a S -> In b S ->
                      key_then key Z.lt a b -> closer p (clock a) (clock b)).
    { intros a b Ha Hb Hk. apply nearer_closer; [auto | auto |].
      unfold key_then, key in Hk. unfold nearer. lia. }
    assert (Heq : map (fun x => datetime.strftime_HM (day0 + x)) (firstn 3 S)
                  = map clock (firstn 3 S)).
    { apply map_ext_in. intros u Hu. apply strftime_clock. auto. }
    rewrite Heq. eexists. split; [reflexivity|].
    split; [|split; [|split]].
    + rewrite !length_map, length_firstn, (Permutation_length Hperm). reflexivity.
    + intros s Hs. apply in_map_iff in Hs. destruct Hs as (u & <- & Hu).
      apply in_map. apply (Permutation_in _ Hperm). auto.
    + apply (StronglySorted_map_in (key_then key Z.lt)).
      * intros a b Ha Hb. apply Hnear; auto.
      * now apply StronglySorted_firstn.
    + intros s t Hs Ht Hnt.
      apply in_map_iff in Hs. destruct Hs as (a & <- & Ha).
      apply in_map_iff in Ht. destruct Ht as (b & <- & Hb).
      apply (Permutation_in _ (Permutation_sym Hperm)) in Hb.
      assert (Hbs : In b (skipn 3 S)).
      { rewrite <- (firstn_skipn 3 S) in Hb. apply in_app_or in Hb.
        destruct Hb as [Hb|Hb]; [|assumption].
        exfalso. apply Hnt. now apply in_map. }
      apply Hnear; [auto | assumption |].
      exact (StronglySorted_cut _ 3 S a b HS Ha Hbs).
  - intros r. destruct available as [|a0 l0]; [now intros [= <-]; cbn; lia|].
    destruct (Py.mem preferred (a0 :: l0)); [now intros [= <-]; cbn; lia|].
    destruct (datetime.strptime_HM preferred); [|discriminate]. cbn [rbind].
    destruct (map_result _ _); [|discriminate]. cbn [rbind].
    intros [= <-]. rewrite length_map, length_firstn. lia.
Qed.

Example suggest_alternative_slots_ex :
  suggest_alternative_slots Examples.db1 (Some "Dr. Jones") (Some "2024-01-01") "10:30"
  = Ok ["10:20"; "10:40"; "10:00"].
Proof. vm_compute. reflexivity. Qed.

Lemma suggest_alternative_slots_correct_witness :
  let available :=
    ["09:00"; "09:20"; "09:40"; "10:00"; "10:20"; "10:40"; "11:00"; "11:20"; "11:40"] in
  exists r,
    suggest_alternative_slots Examples.db1 (Some "Dr. Jones") (Some "2024-01-01")
      "10:30" = Ok r
    /\ length r = Nat.min 3 (length available)
    /\ (forall s, In s r -> In s available)
    /\ StronglySorted (closer 630) r
    /\ (forall s t, In s r -> In t available -> ~ In t r -> closer 630 s t).
Proof.
  intros available.
  assert (Hget : get_doctor_available_slots Examples.db1 (Some "Dr. Jones")
                   (Some "2024-01-01") = Ok available)
    by (vm_compute; reflexivity).
  apply (proj1 (proj2 (proj2 (suggest_alternative_slots_correct
           Examples.db1 "Dr. Jones" "2024-01-01" "10:30" available Hget))) 630).
  - discriminate.
  - cbn. intuition discriminate.
  - split; [lia | vm_compute; reflexivity].
Defined.

(** ** The conversation *)

Lemma process_message_try (env : Env) (w : World) (session_id message : string) :
  process_message env w session_id message =
  match try_block env w session_id message with
  | ((state', db'), Ok response) =>
      (mkWorld (<[session_id := state']> (CONVERSATION_STATES w)) db',
       Reply.mk response (booking_confirmed state') (booking_details state'))
  | ((state', db'), Raise _) =>
      (mkWorld (<[session_id := state']> (CONVERSATION_STATES w)) db',
       Reply.mk Text.apology false None)
  end.
Proof.
  unfold process_message, try_block, session_state.
  destruct (CONVERSATION_STATES w !! session_id) as [st|] eqn:Hst.
  - rewrite Hst. reflexivity.
  - rewrite lookup_insert_eq. cbn [default].
    destruct (transition _ _ _ _) as [[st' db'] [response|e]];
      now rewrite insert_insert_eq.
Qed.

Example welcome_scenario :
  let env := mkEnv (Ok (Parsed.mk None (Some "Alice") None None None None None))
               "2024-01-01" "2024-01-02" (fun _ => false) in
  let out := process_message env (mkWorld ∅ Examples.db1) "s1" "I am Alice" in
  CONVERSATION_STATES (fst out) !! "s1"
  = Some (mkState (Some "Alice") None None None None None false None
            "booking_request")
  /\ snd out = Reply.mk (Text.nice_to_meet (Some "Alice")) false None.
Proof. vm_compute. split; reflexivity. Qed.

Example time_selection_scenario :
  let state := mkState (Some "Alice") None (Some "Cardiology") (Some "Dr. Smith")
                 (Some "2024-01-01") None false None "time_selection" in
  let env := mkEnv (Ok (Parsed.mk None None None None None (Some "09:20") None))
               "2024-01-01" "2024-01-02" (fun _ => false) in
  let out := process_message env (mkWorld (<["s1" := state]> ∅) Examples.db1)
               "s1" "09:20 please" in
  CONVERSATION_STATES (fst out) !! "s1" = Some state
  /\ Reply.reply (snd out) = Text.alternatives (Some "09:20") ["09:00"; "09:40"].
Proof. vm_compute. split; reflexivity. Qed.

Lemma starts_over_mem (message : string) :
  starts_over message <-> Py.mem (Py.lower message) reset_phrases = true.
Proof. unfold starts_over. now rewrite mem_In. Qed.

Lemma try_block_start_over (env : Env) (w : World) (session_id message : string) :
  starts_over message ->
  try_block env w session_id message = ((new_state, db w), Ok Text.welcome).
Proof.
  intros H. apply starts_over_mem in H.
  unfold try_block, transition, bind, get_state. cbn [fst]. rewrite H.
  reflexivity.
Qed.

(** C7: whatever the session's state, a message whose lowercased text is
    one of the five phrases leaves the session with step "welcome" and
    every field cleared (the state of a new session); the reply is the
    welcome text with done false and no booking details, and neither the
    store nor any other session changes. *)
Theorem process_message_start_over (env : Env) (w : World)
    (session_id message : string) :
  starts_over message ->
  let w' := fst (process_message env w session_id message) in
  let r := snd (process_message env w session_id message) in
  CONVERSATION_STATES w' !! session_id = Some new_state
  /\ r = Reply.mk Text.welcome false None
  /\ db w' = db w
  /\ (forall other, other <> session_id ->
        CONVERSATION_STATES w' !! other = CONVERSATION_STATES w !! other).
Proof.
  intros H. rewrite process_message_try, (try_block_start_over _ _ _ _ H).
  cbn [fst snd CONVERSATION_STATES db new_state booking_confirmed booking_details].
  split; [apply lookup_insert_eq|]. split; [reflexivity|]. split; [reflexivity|].
  intros other Hne. now apply lookup_insert_ne.
Qed.

Lemma process_message_start_over_witness :
  let w := mkWorld (<["s1" := mkState (Some "Alice") None (Some "Cardiology")
                      (Some "Dr. Smith") (Some "2024-01-02") (Some "09:40")
                      true (Some (Examples.taken 2 "Dr. Smith" "09:40"))
                      "completed"]> ∅) Examples.db1 in
  let env := mkEnv (Raise ValueError) "2024-01-01" "2024-01-02" (fun _ => true) in
  CONVERSATION_STATES (fst (process_message env w "s1" "Start Over")) !! "s1"
  = Some new_state.
Proof.
  intros w env.
  apply (process_message_start_over env w "s1" "Start Over").
  unfold starts_over. cbn. auto.
Defined.

Lemma try_block_confirm (env : Env) (w : World) (session_id message : string) :
  step (session_state w session_id) = "confirm_booking" ->
  ~ starts_over message ->
  try_block env w session_id message
  = on_confirm_booking env message (session_state w session_id, db w).
Proof.
  intros Hstep Hno. rewrite starts_over_mem in Hno. apply not_true_is_false in Hno.
  unfold try_block, transition, bind at 1, get_state. cbn [fst].
  rewrite Hno, Hstep. reflexivity.
Qed.

Lemma on_confirm_booking_yes (env : Env) (message : string)
    (state : ConversationState) (store : Store) :
  says_yes message ->
  storage_fails env CreateBooking = false ->
  on_confirm_booking env message (state, store)
  = match create_booking store (patient_name state) (selected_doctor state)
            (selected_date state) (selected_time state) with
    | (store', Some booking) =>
        ((with_booking state booking, store'), Ok (Text.booked state))
    | (store', None) =>
        ((with_step state "time_selection", store'), Ok Text.slot_taken)
    end.
Proof.
  intros Hyes Hstore.
  assert (Hy : Py.contains "yes" (Py.lower message)
               || Py.contains "confirm" (Py.lower message) = true).
  { apply orb_true_iff. exact Hyes. }
  unfold on_confirm_booking, bind at 1, get_state. cbn [fst]. rewrite Hy.
  unfold bind at 1, call_create_booking. rewrite Hstore. cbn [fst snd].
  destruct (create_booking _ _ _ _ _) as [store' [booking|]]; reflexivity.
Qed.

(** C8: in step confirm_booking, on a message that does not start over and
    says yes, when [create_booking] returns: if it returned [None] the
    reply is the slot-taken text, the step becomes time_selection, every
    other field (the confirmed flag among them) and the store stay as they
    were; if it returned a booking, that booking is stored as the details,
    the confirmed flag is set, the step becomes completed and the reply
    carries done true with the booking. *)
Theorem confirm_booking_outcome (env : Env) (w : World)
    (session_id message : string) :
  step (session_state w session_id) = "confirm_booking" ->
  ~ starts_over message ->
  says_yes message ->
  storage_fails env CreateBooking = false ->
  let state := session_state w session_id in
  let created := create_booking (db w) (patient_name state) (selected_doctor state)
                   (selected_date state) (selected_time state) in
  let w' := fst (process_message env w session_id message) in
  let r := snd (process_message env w session_id message) in
  match snd created with
  | None =>
      Reply.reply r = Text.slot_taken
      /\ CONVERSATION_STATES w' !! session_id = Some (with_step state "time_selection")
      /\ Reply.done r = booking_confirmed state
      /\ (booking_confirmed state = false -> Reply.done r = false)
      /\ db w' = db w
  | Some booking =>
      CONVERSATION_STATES w' !! session_id = Some (with_booking state booking)
      /\ Reply.done r = true
      /\ Reply.booking_details r = Some booking
      /\ db w' = fst created
  end.
Proof.
  intros Hstep Hno Hyes Hstore. cbv zeta.
  rewrite process_message_try, try_block_confirm by assumption.
  rewrite on_confirm_booking_yes by assumption.
  pose proof (create_booking_correct (db w)
    (patient_name (session_state w session_id))
    (selected_doctor (session_state w session_id))
    (selected_date (session_state w session_id))
    (selected_time (session_state w session_id))) as Hc.
  cbv zeta in Hc. destruct Hc as (_ & Hnone & _).
  destruct (create_booking _ _ _ _ _) as [db' [booking|]]; cbn [fst snd] in *.
  - cbn. rewrite lookup_insert_eq. auto.
  - rewrite (Hnone eq_refl). cbn. rewrite lookup_insert_eq. auto.
Qed.

Lemma confirm_booking_outcome_witness :
  let state := mkState (Some "Alice") None (Some "Cardiology") (Some "Dr. Smith")
                 (Some "2024-01-01") (Some "09:20") false None "confirm_booking" in
  let w := mkWorld (<["s1" := state]> ∅) Examples.db1 in
  let env := mkEnv (Raise ValueError) "2024-01-01" "2024-01-02" (fun _ => false) in
  let w' := fst (process_message env w "s1" "Yes, please") in
  let r := snd (process_message env w "s1" "Yes, please") in
  Reply.reply r = Text.slot_taken
  /\ CONVERSATION_STATES w' !! "s1" = Some (with_step state "time_selection")
  /\ Reply.done r = false
  /\ (false = false -> Reply.done r = false)
  /\ db w' = Examples.db1.
Proof.
  intros state w env.
  apply (confirm_booking_outcome env w "s1" "Yes, please").
  - reflexivity.
  - unfold starts_over. cbn. intuition discriminate.
  - left. reflexivity.
  - reflexivity.
Defined.

(** ** Reasoning about the [try] block *)

Lemma reads_ret {A} (a : A) : reads (ret a).
Proof. intros m. reflexivity. Qed.

Lemma reads_raise {A} (e : exn) : reads (@raise A e).
Proof. intros m. reflexivity. Qed.

Lemma reads_get_state : reads get_state.
Proof. intros m. reflexivity. Qed.

Lemma reads_call {A} (env : Env) (t : tool) (f : Store -> result A) :
  reads (call env t f).
Proof. intros m. unfold call. now destruct (storage_fails env t). Qed.

Lemma reads_attr {A} (v : option A) : reads (attr v).
Proof. intros m. now destruct v. Qed.

Lemma reads_bind {A B} (c : M A) (k : A -> M B) :
  reads c -> (forall a, reads (k a)) -> reads (bind c k).
Proof.
  intros Hc Hk m. unfold bind. specialize (Hc m).
  destruct (c m) as [m' [a|e]]; cbn [fst] in Hc; subst m'; [apply Hk | reflexivity].
Qed.

Section Triples.
Context (P E : ConversationState * Store -> Prop).
Hypothesis P_E : forall m, P m -> E m.

(** after a computation that only reads, the precondition still holds *)
Lemma hoare_bind_read {A B} (c : M A) (k : A -> M B)
    (Q : B -> ConversationState * Store -> Prop) :
  reads c -> (forall a, hoare P (k a) Q E) -> hoare P (bind c k) Q E.
Proof.
  intros Hc Hk m Hm. unfold bind. specialize (Hc m).
  destruct (c m) as [m' [a|e]]; cbn [fst] in Hc; subst m'.
  - now apply Hk.
  - now apply P_E.
Qed.

(** [create_booking] raises before it writes, and never touches the
    session's state *)
Lemma hoare_bind_create {B} (env : Env) (p d dt ts : option string)
    (k : option Booking.t -> M B) (Q : B -> ConversationState * Store -> Prop) :
  (forall b, hoare (fun m' => exists m, P m /\ fst m' = fst m) (k b) Q E) ->
  hoare P (bind (call_create_booking env p d dt ts) k) Q E.
Proof.
  intros Hk m Hm. unfold bind, call_create_booking.
  destruct (storage_fails env CreateBooking); [now apply P_E|].
  destruct (create_booking _ _ _ _ _) as [db' b].
  apply Hk. exists m. auto.
Qed.
End Triples.

Ltac prove_reads :=
  repeat (cbv zeta;
    first [ apply reads_get_state | apply reads_call | apply reads_attr
          | apply reads_ret | apply reads_raise
          | apply reads_bind; [|intros ?]
          | match goal with
            | |- reads (match ?x with _ => _ end) => destruct x
            end ]).

(** Walk down a handler: reads keep the precondition, branches are split,
    and [leaf] settles what remains (a return, a raise, or the writes that
    end a branch). *)
Ltac walk leaf :=
  cbv zeta;
  first
    [ lazymatch goal with
      | |- hoare _ (bind (call_create_booking _ _ _ _ _) _) _ _ =>
          apply hoare_bind_create; [assumption | intros ?; walk leaf]
      | |- hoare _ (bind _ _) _ _ =>
          apply hoare_bind_read; [assumption | solve [prove_reads] | intros ?; walk leaf]
      | |- hoare _ (match ?x with _ => _ end) _ _ => destruct x; walk leaf
      end
    | leaf ].

Lemma bind_modify {B} (f : ConversationState -> ConversationState)
    (k : unit -> M B) (m : ConversationState * Store) :
  bind (modify f) k m = k tt (f (fst m), snd m).
Proof. reflexivity. Qed.

(** run the writes that end a branch, one at a time *)
Ltac run_writes :=
  unfold set_patient_name, set_intent, set_selected_department,
    set_selected_doctor, set_selected_date, set_selected_time,
    set_booking_confirmed, set_booking_details, set_step;
  repeat (rewrite bind_modify;
          cbn [fst snd patient_name intent selected_department selected_doctor
               selected_date selected_time booking_confirmed booking_details
               step]);
  unfold ret, raise; cbv beta iota.

Ltac unfold_handlers :=
  unfold on_start_over, on_welcome, on_booking_request, on_department_selection,
    on_doctor_selection, on_date_selection, on_time_selection, on_confirm_booking.

(** *** A raise leaves everything as it was *)

Ltac leaf_unchanged :=
  let m := fresh "m" in let Hm := fresh "Hm" in
  intros m Hm; run_writes; first [exact I | exact Hm].

Lemma transition_unchanged_on_raise (env : Env) (parsed : Parsed.t)
    (message : string) (m0 : ConversationState * Store) :
  hoare (eq m0) (transition env parsed message) (fun _ _ => True) (eq m0).
Proof.
  assert (HE : forall m, m0 = m -> m0 = m) by auto.
  unfold transition. unfold_handlers. walk leaf_unchanged.
Qed.

(** evaluate the comparisons of two literal steps *)
Ltac eval_steps :=
  repeat match goal with
  | |- context [String.eqb (String ?c ?a) (String ?d ?b)] =>
      let v := eval vm_compute in (String.eqb (String c a) (String d b)) in
      change (String.eqb (String c a) (String d b)) with v
  end;
  cbv beta iota.

Lemma new_session_returns (env : Env) (parsed : Parsed.t) (message : string)
    (store : Store) :
  exists m' response,
    transition env parsed message (new_state, store) = (m', Ok response).
Proof.
  unfold transition, bind at 1, get_state. cbn [fst].
  destruct (Py.mem _ _).
  - exists (new_state, store), Text.welcome. reflexivity.
  - cbn [new_state step]. eval_steps.
    unfold on_welcome, bind at 1, get_state.
    cbn [fst new_state patient_name Py.truthy negb].
    destruct (Py.truthy (Parsed.patient_name parsed)); run_writes;
      eexists _, _; reflexivity.
Qed.

(** C9: when the [try] block of [process_message] raises, the call returns
    the apology with done false and no booking details, and the whole
    world is as before the call: the session's state (and with it the
    session map) and the store are unchanged. *)
Theorem process_message_exception (env : Env) (w : World)
    (session_id message : string) (e : exn) :
  snd (try_block env w session_id message) = Raise e ->
  snd (process_message env w session_id message) = Reply.mk Text.apology false None
  /\ CONVERSATION_STATES (fst (process_message env w session_id message)) !! session_id
     = CONVERSATION_STATES w !! session_id
  /\ CONVERSATION_STATES w !! session_id = Some (session_state w session_id)
  /\ fst (process_message env w session_id message) = w.
Proof.
  intros Hraise. rewrite process_message_try.
  pose proof (transition_unchanged_on_raise env
    (extract_intent_and_entities (llm env) message) message
    (session_state w session_id, db w) _ eq_refl) as Hsame.
  fold (try_block env w session_id message) in Hsame.
  destruct (try_block env w session_id message) as [[st' db'] [response|e']] eqn:Htry;
    cbn [snd] in Hraise; [discriminate|].
  injection Hsame as <- <-.
  assert (Hex : CONVERSATION_STATES w !! session_id = Some (session_state w session_id)).
  { unfold try_block, session_state in *.
    destruct (CONVERSATION_STATES w !! session_id) as [st|]; [reflexivity|].
    cbn [default] in Htry.
    destruct (new_session_returns env (extract_intent_and_entities (llm env) message)
                message (db w)) as (m' & response & Hok).
    congruence. }
  cbn [fst snd CONVERSATION_STATES].
  rewrite (insert_id _ _ _ Hex). destruct w. auto.
Qed.

Lemma process_message_exception_witness :
  let state := mkState (Some "Alice") None (Some "Cardiology") (Some "Dr. Smith")
                 None None false None "date_selection" in
  let w := mkWorld (<["s1" := state]> ∅) Examples.db1 in
  let env := mkEnv (Ok (Parsed.mk None None None None (Some "next monday") None None))
               "2024-01-01" "2024-01-02" (fun _ => false) in
  snd (process_message env w "s1" "next monday") = Reply.mk Text.apology false None
  /\ CONVERSATION_STATES (fst (process_message env w "s1" "next monday")) !! "s1"
     = CONVERSATION_STATES w !! "s1"
  /\ CONVERSATION_STATES w !! "s1" = Some (session_state w "s1")
  /\ fst (process_message env w "s1" "next monday") = w.
Proof.
  intros state w env.
  apply (process_message_exception env w "s1" "next monday" ValueError).
  vm_compute. reflexivity.
Defined.

(** *** The invariant of a session *)

Lemma pending_consistent (s : ConversationState) : pending s -> consistent s.
Proof.
  intros (Hc & Hd & Hs). unfold consistent. rewrite Hc, Hd.
  repeat split; intros; congruence.
Qed.

Lemma consistent_pending (s : ConversationState) :
  consistent s -> step s <> "completed" -> pending s.
Proof.
  intros [H1 H2] Hs. unfold pending.
  destruct (booking_confirmed s); [exfalso; now apply Hs, H1|].
  split; [reflexivity|]. split; [|assumption].
  destruct (booking_details s); [|reflexivity].
  assert (false = true) by (apply H2; discriminate). discriminate.
Qed.

Ltac leaf_consistent :=
  let st := fresh "st" in let store := fresh "store" in let Hm := fresh "Hm" in
  intros [st store] Hm; run_writes;
  cbn [fst snd booking_confirmed booking_details step] in *;
  try (let m0 := fresh "m" in let Heq := fresh "Heq" in
       destruct Hm as (m0 & Hm & Heq); rewrite Heq);
  try (apply pending_consistent; exact Hm);
  destruct Hm as (? & ? & ?);
  unfold consistent; cbn [booking_confirmed booking_details step];
  repeat split; intros; congruence.

Lemma handlers_consistent (env : Env) (parsed : Parsed.t) (message : string)
    (handler : M string) :
  In handler [ on_welcome parsed; on_booking_request env parsed message;
               on_department_selection env parsed;
               on_doctor_selection env parsed message;
               on_date_selection env parsed message;
               on_time_selection env parsed;
               on_confirm_booking env message ] ->
  hoare (fun m => pending (fst m)) handler
        (fun _ m => consistent (fst m)) (fun m => consistent (fst m)).
Proof.
  assert (HE : forall m : ConversationState * Store,
             pending (fst m) -> consistent (fst m))
    by (intros m; apply pending_consistent).
  intros Hin. cbn [In] in Hin.
  repeat (destruct Hin as [<-|Hin]; [unfold_handlers; walk leaf_consistent|]).
  destruct Hin.
Qed.

Lemma new_state_consistent : consistent new_state.
Proof. unfold consistent. cbn. repeat split; intros; congruence. Qed.

Lemma transition_consistent (env : Env) (parsed : Parsed.t) (message : string)
    (m : ConversationState * Store) :
  consistent (fst m) ->
  consistent (fst (fst (transition env parsed message m))).
Proof.
  destruct m as [st store]. cbn [fst]. intros Hst.
  unfold transition, bind at 1, get_state. cbn [fst].
  destruct (Py.mem _ _);
    [unfold on_start_over; run_writes; exact new_state_consistent|].
  assert (Hhandler : forall handler,
    In handler [ on_welcome parsed; on_booking_request env parsed message;
                 on_department_selection env parsed;
                 on_doctor_selection env parsed message;
                 on_date_selection env parsed message;
                 on_time_selection env parsed;
                 on_confirm_booking env message ] ->
    step st <> "completed" ->
    consistent (fst (fst (handler (st, store))))).
  { intros handler Hin Hs.
    pose proof (handlers_consistent env parsed message handler Hin (st, store)
                  (consistent_pending st Hst Hs)) as H.
    now destruct (handler (st, store)) as [m' [a|e]]. }
  repeat match goal with
  | |- context [String.eqb (step st) ?s] =>
      destruct (String.eqb_spec (step st) s) as [Heq|?];
      [ try (apply Hhandler; [cbn [In]; tauto | rewrite Heq; discriminate]) |]
  end; exact Hst.
Qed.

Lemma completed_returns (env : Env) (parsed : Parsed.t) (message : string)
    (m : ConversationState * Store) :
  step (fst m) = "completed" ->
  exists m' response, transition env parsed message m = (m', Ok response).
Proof.
  intros Hs. unfold transition, bind at 1, get_state. rewrite Hs.
  destruct (Py.mem _ _).
  - unfold on_start_over. run_writes. eexists _, _; reflexivity.
  - eval_steps. eexists _, _; reflexivity.
Qed.

Lemma session_state_consistent (w : World) (session_id : string) :
  (forall sid st, CONVERSATION_STATES w !! sid = Some st -> consistent st) ->
  consistent (session_state w session_id).
Proof.
  intros Hall. unfold session_state.
  destruct (CONVERSATION_STATES w !! session_id) as [st|] eqn:Hst; cbn [default].
  - exact (Hall _ _ Hst).
  - exact new_state_consistent.
Qed.

Lemma process_message_session (env : Env) (w : World) (session_id message : string) :
  CONVERSATION_STATES (fst (process_message env w session_id message))
  = <[session_id := fst (fst (try_block env w session_id message))]>
      (CONVERSATION_STATES w).
Proof.
  rewrite process_message_try.
  now destruct (try_block env w session_id message) as [[st' db'] [response|e]].
Qed.

Lemma reachable_consistent (w : World) :
  reachable w ->
  forall sid st, CONVERSATION_STATES w !! sid = Some st -> consistent st.
Proof.
  induction 1 as [store | env w session_id message Hw IH | w store Hw IH];
    intros sid st Hst.
  - cbn in Hst. now rewrite lookup_empty in Hst.
  - rewrite process_message_session in Hst.
    apply lookup_insert_Some in Hst. destruct Hst as [[_ <-]|[_ Hst]].
    + apply transition_consistent. cbn [fst].
      now apply session_state_consistent.
    + exact (IH _ _ Hst).
  - exact (IH _ _ Hst).
Qed.

(** C10: in every world reachable by calls of [process_message] (with the
    store free to change in between), every session's state has
    booking_confirmed true exactly when its step is "completed", and
    booking details exactly when booking_confirmed is true; and the reply
    of any further call, an error reply or not, carries done true exactly
    when the step of the session after the call is "completed". *)
Theorem conversation_invariant (w : World) :
  reachable w ->
  (forall session_id state,
     CONVERSATION_STATES w !! session_id = Some state ->
     (booking_confirmed state = true <-> step state = "completed")
     /\ (booking_details state <> None <-> booking_confirmed state = true))
  /\ (forall env session_id message,
        exists state',
          CONVERSATION_STATES (fst (process_message env w session_id message))
            !! session_id = Some state'
          /\ (Reply.done (snd (process_message env w session_id message)) = true
              <-> step state' = "completed")).
Proof.
  intros Hw. split; [exact (reachable_consistent w Hw)|].
  intros env session_id message.
  pose proof (reachable_consistent _ (reach_message env w session_id message Hw)
                session_id) as Hafter.
  rewrite process_message_session in *. rewrite lookup_insert_eq in *.
  eexists. split; [reflexivity|].
  specialize (Hafter _ eq_refl). destruct Hafter as [Hdone _].
  rewrite process_message_try.
  pose proof (transition_unchanged_on_raise env
    (extract_intent_and_entities (llm env) message) message
    (session_state w session_id, db w) _ eq_refl) as Hsame.
  fold (try_block env w session_id message) in Hsame.
  destruct (try_block env w session_id message) as [[st' db'] [response|e]] eqn:Htry;
    cbn [fst snd Reply.done] in *; [exact Hdone|].
  split; [discriminate|]. intros Hs. exfalso.
  injection Hsame as <- <-.
  destruct (completed_returns env (extract_intent_and_entities (llm env) message)
              message (session_state w session_id, db w) Hs) as (m' & r & Hok).
  unfold try_block in Htry. congruence.
Qed.

Lemma conversation_invariant_witness :
  let env := mkEnv (Ok (Parsed.mk None (Some "Alice") None None None None None))
               "2024-01-01" "2024-01-02" (fun _ => false) in
  let w := fst (process_message env (mkWorld ∅ Examples.db1) "s1" "I am Alice") in
  exists state',
    CONVERSATION_STATES (fst (process_message env w "s1" "book a visit")) !! "s1"
    = Some state'
    /\ (Reply.done (snd (process_message env w "s1" "book a visit")) = true
        <-> step state' = "completed").
Proof.
  intros env w.
  apply (conversation_invariant w).
  apply reach_message. apply reach_start.
Defined.

(** * Further properties *)

(** ** More on the slot grid *)

Lemma strptime_HM_raises (s : string) (e : exn) :
  datetime.strptime_HM s = Raise e -> e = ValueError.
Proof.
  unfold datetime.strptime_HM.
  destruct (datetime.first_of _ _ s) as [[[h m] [|c r]]|];
    intros H; congruence.
Qed.

Lemma strptime_HM_minute (s : string) (v : Z) :
  datetime.strptime_HM s = Ok v -> exists t, minute_of s t /\ v = day0 + t.
Proof.
  intros H. destruct (strptime_HM_range s v H) as (t & Ht & ->).
  exists t. repeat split; try lia. exact H.
Qed.

Lemma slot_count_le (s e : Z) :
  0 <= s -> e < 1440 -> (slot_count s e <= 72)%nat.
Proof.
  intros Hs He. unfold slot_count.
  assert ((e - s + 19) `div` 20 < 73) by (apply Z.div_lt_upper_bound; lia).
  lia.
Qed.

Lemma StronglySorted_lt_NoDup (l : list Z) : StronglySorted Z.lt l -> List.NoDup l.
Proof.
  induction 1 as [|x l Hs IH Hx]; constructor; [|assumption].
  intros Hin. rewrite List.Forall_forall in Hx. specialize (Hx x Hin). lia.
Qed.

Lemma clock_NoDup (us : list Z) :
  (forall u, In u us -> 0 <= u < 1440) -> List.NoDup us -> List.NoDup (map clock us).
Proof.
  intros Hr Hnd. induction Hnd as [|u us Hnot Hnd IH]; cbn [map]; constructor.
  - intros Hin. apply in_map_iff in Hin. destruct Hin as (v & Heq & Hv).
    apply clock_inj in Heq; [subst v; contradiction | |]; apply Hr; cbn; auto.
  - apply IH. intros v Hv. apply Hr. now right.
Qed.

(** X1: [generate_time_slots] raises exactly when one of its two arguments
    is not a time [strptime] accepts, and the exception is [ValueError];
    when both parse and the end is not after the start the result is the
    empty list. *)
Theorem generate_time_slots_edges (start_time end_time : string) :
  (forall x, generate_time_slots start_time end_time = Raise x <->
     x = ValueError
     /\ (datetime.strptime_HM start_time = Raise ValueError
         \/ datetime.strptime_HM end_time = Raise ValueError))
  /\ (forall s e, minute_of start_time s -> minute_of end_time e -> e <= s ->
        generate_time_slots start_time end_time = Ok []).
Proof.
  split.
  - intros x. unfold generate_time_slots, rbind.
    destruct (datetime.strptime_HM start_time) as [vs|es] eqn:Hs.
    + destruct (datetime.strptime_HM end_time) as [ve|ee] eqn:He.
      * split; [discriminate|]. intros [_ [H|H]]; discriminate.
      * pose proof (strptime_HM_raises _ _ He) as ->.
        split; [intros [= <-]; auto | intros [-> _]; reflexivity].
    + pose proof (strptime_HM_raises _ _ Hs) as ->.
      split; [intros [= <-]; auto | intros [-> _]; reflexivity].
  - intros s e [_ Hs] [_ He] Hle. unfold generate_time_slots.
    rewrite Hs, He. cbn [rbind]. rewrite slots_loop_ticks.
    rewrite slot_count_done by lia. reflexivity.
Qed.

Lemma generate_time_slots_edges_witness :
  generate_time_slots "17:00" "9:00" = Ok [].
Proof.
  apply (proj2 (generate_time_slots_edges "17:00" "9:00") 1020 540).
  - split; [lia | reflexivity].
  - split; [lia | reflexivity].
  - lia.
Defined.

(** X2: a grid that [generate_time_slots] returns has at most 72 slots and
    no duplicates, and each slot is a canonical HH:MM text that [strptime]
    reads back as the time it was formatted from; for a start [s] and an
    end [e] (minutes of the day) it has ceil((e - s) / 20) slots. *)
Theorem generate_time_slots_bounds (start_time end_time : string)
    (slots : list string) :
  generate_time_slots start_time end_time = Ok slots ->
  (length slots <= 72)%nat
  /\ List.NoDup slots
  /\ (forall x, In x slots -> exists t, x = clock t /\ minute_of x t)
  /\ (forall s e, minute_of start_time s -> minute_of end_time e ->
        Z.of_nat (length slots) = Z.max 0 ((e - s + 19) `div` 20)).
Proof.
  intros Hgen.
  destruct (generate_time_slots_grid _ _ _ Hgen) as (s & e & Hs & He & Ps & Pe & ->).
  assert (Hrange : forall u, In u (ticks (slot_count s e) s) -> 0 <= u < 1440).
  { intros u Hu. apply ticks_below in Hu. lia. }
  split; [|split; [|split]].
  - rewrite length_map. unfold ticks. rewrite length_map, length_seq.
    apply slot_count_le; lia.
  - apply clock_NoDup; [assumption|].
    apply StronglySorted_lt_NoDup, ticks_sorted.
  - intros x Hx. apply in_map_iff in Hx. destruct Hx as (t & <- & Ht).
    exists t. split; [reflexivity|]. split; [auto | apply strptime_clock; auto].
  - intros s' e' [_ Hs'] [_ He'].
    assert (s' = s) as -> by (rewrite Ps in Hs'; injection Hs'; lia).
    assert (e' = e) as -> by (rewrite Pe in He'; injection He'; lia).
    rewrite length_map. unfold ticks. rewrite length_map, length_seq.
    unfold slot_count. lia.
Qed.

Lemma generate_time_slots_bounds_witness :
  (length ["09:00"; "09:20"; "09:40"] <= 72)%nat
  /\ List.NoDup ["09:00"; "09:20"; "09:40"]
  /\ (forall x, In x ["09:00"; "09:20"; "09:40"] ->
        exists t, x = clock t /\ minute_of x t)
  /\ (forall s e, minute_of "09:00" s -> minute_of "10:00" e ->
        Z.of_nat (length ["09:00"; "09:20"; "09:40"])
        = Z.max 0 ((e - s + 19) `div` 20)).
Proof.
  apply (generate_time_slots_bounds "09:00" "10:00"). reflexivity.
Defined.

(** ** Availability and the ledger together *)

Lemma doctor_named_doctors (db1 db2 : Store) (D : option string) :
  doctors db1 = doctors db2 -> doctor_named db1 D = doctor_named db2 D.
Proof. unfold doctor_named. now intros ->. Qed.

(** X3: the available slots of [(D, T)] depend on the store only through
    the doctors and the slots booked for [(D, T)]: bookings of other
    doctors or other dates never change them. *)
Theorem get_doctor_available_slots_frame (db1 db2 : Store) (D T : string) :
  doctors db1 = doctors db2 ->
  (forall s, booked db1 D T s <-> booked db2 D T s) ->
  get_doctor_available_slots db1 (Some D) (Some T)
  = get_doctor_available_slots db2 (Some D) (Some T).
Proof.
  intros Hdocs Hbooked. unfold get_doctor_available_slots.
  rewrite (doctor_named_doctors db1 db2 _ Hdocs).
  destruct (doctor_named db2 (Some D)) as [doc|]; [|reflexivity].
  destruct (generate_time_slots _ _) as [grid|e]; [|reflexivity].
  cbn [rbind]. f_equal. apply filter_ext. intros s. f_equal.
  apply bool_decide_ext. rewrite !booked_slots_spec. apply Hbooked.
Qed.

Lemma get_doctor_available_slots_frame_witness :
  get_doctor_available_slots Examples.db1 (Some "Dr. Jones") (Some "2024-01-01")
  = get_doctor_available_slots Examples.db0 (Some "Dr. Jones") (Some "2024-01-01").
Proof.
  apply (get_doctor_available_slots_frame Examples.db1 Examples.db0
           "Dr. Jones" "2024-01-01").
  - reflexivity.
  - intros s. split; intros (b & Hin & Hd & _); cbn in Hin.
    + destruct Hin as [<-|[]]. discriminate.
    + destruct Hin.
Defined.

Lemma booked_after_create (db db' : Store) (b : Booking.t) (D T s : string) :
  bookings db' = bookings db ++ [b] ->
  slot_key b = (Some D, Some T, Some s) ->
  forall D' T' x,
    booked db' D' T' x <-> booked db D' T' x \/ (D' = D /\ T' = T /\ x = s).
Proof.
  intros Hrows Hkey D' T' x. unfold booked. rewrite Hrows.
  unfold slot_key in Hkey. injection Hkey as Hd Ht Hs. split.
  - intros (b' & Hin & H1 & H2 & H3). apply in_app_or in Hin.
    destruct Hin as [Hin|[<-|[]]].
    + left. exists b'. auto.
    + right. repeat split; congruence.
  - intros [(b' & Hin & H1 & H2 & H3)|(-> & -> & ->)].
    + exists b'. split; [apply in_or_app; now left | auto].
    + exists b. split; [apply in_or_app; right; now left | auto].
Qed.

Lemma filter_filter_and {A} (f g : A -> bool) (l : list A) :
  List.filter f (List.filter g l) = List.filter (fun x => g x && f x) l.
Proof.
  induction l as [|x l IH]; cbn [List.filter]; [reflexivity|].
  destruct (g x); cbn [List.filter andb]; [destruct (f x)|]; now rewrite IH.
Qed.

(** X4: after [create_booking] has booked slot [s] of doctor [D] on date
    [T], the available slots of [(D, T)] are the ones before without [s]
    (or the same exception), and those of every other doctor or date are
    what they were. *)
Theorem create_booking_then_available (db db' : Store) (p : option string)
    (D T s : string) (b : Booking.t) :
  create_booking db p (Some D) (Some T) (Some s) = (db', Some b) ->
  get_doctor_available_slots db' (Some D) (Some T)
  = (try! available <- get_doctor_available_slots db (Some D) (Some T);
     Ok (List.filter (fun x => negb (String.eqb x s)) available))
  /\ (forall D' T', (D', T') <> (D, T) ->
        get_doctor_available_slots db' (Some D') (Some T')
        = get_doctor_available_slots db (Some D') (Some T')).
Proof.
  intros Hcreate.
  pose proof (create_booking_correct db p (Some D) (Some T) (Some s)) as Hc.
  cbv zeta in Hc. rewrite Hcreate in Hc. cbn [fst snd] in Hc.
  destruct Hc as (_ & _ & Hsome & _).
  destruct (Hsome b eq_refl) as (_ & Hkey & Hrows & Hdocs & _).
  pose proof (booked_after_create db db' b D T s Hrows Hkey) as Hbooked.
  split.
  - unfold get_doctor_available_slots.
    rewrite (doctor_named_doctors db' db _ Hdocs).
    destruct (doctor_named db (Some D)) as [doc|]; [|reflexivity].
    destruct (generate_time_slots _ _) as [grid|e]; [|reflexivity].
    cbn [rbind]. f_equal. rewrite filter_filter_and. apply filter_ext.
    intros x. apply eq_true_iff_eq.
    rewrite andb_true_iff, !negb_true_iff, !bool_decide_eq_false.
    rewrite !booked_slots_spec, Hbooked.
    destruct (String.eqb_spec x s) as [Hx|Hx]; intuition congruence.
  - intros D' T' Hne. apply get_doctor_available_slots_frame; [assumption|].
    intros x. rewrite (booked_after_create db db' b D T s Hrows Hkey).
    split; [|auto]. intros [H|(-> & -> & _)]; [assumption | congruence].
Qed.

Lemma create_booking_then_available_witness :
  let db' := fst (create_booking Examples.db1 (Some "Alice") (Some "Dr. Smith")
                    (Some "2024-01-01") (Some "09:40")) in
  get_doctor_available_slots db' (Some "Dr. Smith") (Some "2024-01-01")
  = (try! available <- get_doctor_available_slots Examples.db1 (Some "Dr. Smith")
                         (Some "2024-01-01");
     Ok (List.filter (fun x => negb (String.eqb x "09:40")) available))
  /\ (forall D' T', (D', T') <> ("Dr. Smith", "2024-01-01") ->
        get_doctor_available_slots db' (Some D') (Some T')
        = get_doctor_available_slots Examples.db1 (Some D') (Some T')).
Proof.
  intros db'.
  apply (create_booking_then_available Examples.db1 db' (Some "Alice")
           "Dr. Smith" "2024-01-01" "09:40"
           (Booking.mk 2 (Some "Alice") (Some "Dr. Smith") (Some "2024-01-01")
              (Some "09:40"))).
  reflexivity.
Defined.

(** X5: whatever a call of [create_booking] did, a further call for the
    same (doctor, date, time slot), by any patient, returns [None] and
    leaves the store as it is. *)
Theorem create_booking_twice (db : Store) (p p' d dt ts : option string) :
  let db1 := fst (create_booking db p d dt ts) in
  create_booking db1 p' d dt ts = (db1, None).
Proof.
  cbv zeta.
  pose proof (create_booking_correct db p d dt ts) as Hc. cbv zeta in Hc.
  destruct Hc as (Hnone & Hsame & Hsome & _).
  set (db1 := fst (create_booking db p d dt ts)) in *.
  assert (Hkey : exists b, In b (bookings db1) /\ slot_key b = (d, dt, ts)).
  { destruct (snd (create_booking db p d dt ts)) as [b|] eqn:Hr.
    - destruct (Hsome b eq_refl) as (_ & Hk & Hrows & _).
      exists b. split; [rewrite Hrows; apply in_or_app; right; now left | exact Hk].
    - rewrite (Hsame eq_refl). now apply Hnone. }
  pose proof (create_booking_correct db1 p' d dt ts) as Hc'. cbv zeta in Hc'.
  destruct Hc' as (Hnone' & Hsame' & _).
  apply Hnone' in Hkey. specialize (Hsame' Hkey).
  destruct (create_booking db1 p' d dt ts) as [db2 r]. cbn [fst snd] in *.
  congruence.
Qed.

Lemma find_snoc_fresh {A} (f : A -> bool) (l : list A) (x : A) :
  (forall y, In y l -> f y = false) -> f x = true -> List.find f (l ++ [x]) = Some x.
Proof.
  intros Hl Hx. induction l as [|y l IH]; cbn [app List.find].
  - now rewrite Hx.
  - rewrite (Hl y) by now left. apply IH. intros z Hz. apply Hl. now right.
Qed.

Lemma filter_snoc_fresh {A} (f : A -> bool) (l : list A) (x : A) :
  (forall y, In y l -> f y = true) -> f x = false -> List.filter f (l ++ [x]) = l.
Proof.
  intros Hl Hx. rewrite List.filter_app. cbn [List.filter]. rewrite Hx, app_nil_r.
  induction l as [|y l IH]; cbn [List.filter]; [reflexivity|].
  rewrite (Hl y) by now left. f_equal. apply IH. intros z Hz. apply Hl. now right.
Qed.

(** X6: a booking that [create_booking] has made is the one
    [get_booking_details] finds under its id, and it is the last of the
    bookings [get_patient_bookings] lists for its patient. *)
Theorem create_booking_lookup (db db' : Store) (p d dt ts : option string)
    (b : Booking.t) :
  create_booking db p d dt ts = (db', Some b) ->
  get_booking_details db' (Booking.id b) = Some b
  /\ get_patient_bookings db' p = get_patient_bookings db p ++ [b].
Proof.
  intros Hcreate.
  pose proof (create_booking_correct db p d dt ts) as Hc.
  cbv zeta in Hc. rewrite Hcreate in Hc. cbn [fst snd] in Hc.
  destruct Hc as (_ & _ & Hsome & _).
  destruct (Hsome b eq_refl) as (Hp & _ & Hrows & _ & Hfresh).
  unfold get_booking_details, get_patient_bookings. rewrite Hrows. split.
  - apply find_snoc_fresh; [|apply Z.eqb_refl].
    intros y Hy. apply Z.eqb_neq. now apply Hfresh.
  - rewrite List.filter_app. cbn [List.filter]. f_equal.
    now rewrite bool_decide_eq_true_2.
Qed.

Lemma create_booking_lookup_witness :
  let b := Booking.mk 2 (Some "Alice") (Some "Dr. Smith") (Some "2024-01-01")
             (Some "09:40") in
  let db' := mkStore (doctors Examples.db1) (bookings Examples.db1 ++ [b]) in
  get_booking_details db' (Booking.id b) = Some b
  /\ get_patient_bookings db' (Some "Alice")
     = get_patient_bookings Examples.db1 (Some "Alice") ++ [b].
Proof.
  intros b db'.
  apply (create_booking_lookup Examples.db1 db' (Some "Alice") (Some "Dr. Smith")
           (Some "2024-01-01") (Some "09:40") b).
  reflexivity.
Defined.

(** X7: cancelling a booking right after [create_booking] made it gives
    back the store from before the creation. *)
Theorem create_then_cancel (db db' : Store) (p d dt ts : option string)
    (b : Booking.t) :
  create_booking db p d dt ts = (db', Some b) ->
  cancel_booking db' (Booking.id b)
  = (db, Http.Returned "Booking cancelled successfully").
Proof.
  intros Hcreate.
  destruct (create_booking_lookup _ _ _ _ _ _ _ Hcreate) as [Hfind _].
  pose proof (create_booking_correct db p d dt ts) as Hc.
  cbv zeta in Hc. rewrite Hcreate in Hc. cbn [fst snd] in Hc.
  destruct Hc as (_ & _ & Hsome & _).
  destruct (Hsome b eq_refl) as (_ & _ & Hrows & Hdocs & Hfresh).
  unfold cancel_booking. unfold get_booking_details in Hfind. rewrite Hfind.
  f_equal. rewrite Hrows, Hdocs.
  rewrite filter_snoc_fresh.
  - now destruct db.
  - intros y Hy. apply negb_true_iff, Z.eqb_neq. now apply Hfresh.
  - now rewrite Z.eqb_refl.
Qed.

Lemma create_then_cancel_witness :
  let b := Booking.mk 2 (Some "Alice") (Some "Dr. Smith") (Some "2024-01-01")
             (Some "09:40") in
  let db' := mkStore (doctors Examples.db1) (bookings Examples.db1 ++ [b]) in
  cancel_booking db' (Booking.id b)
  = (Examples.db1, Http.Returned "Booking cancelled successfully").
Proof.
  intros b db'.
  apply (create_then_cancel Examples.db1 db' (Some "Alice") (Some "Dr. Smith")
           (Some "2024-01-01") (Some "09:40") b).
  reflexivity.
Defined.

Lemma slot_unique_NoDup (rows : list Booking.t) :
  slot_unique rows <-> List.NoDup (map slot_key rows).
Proof.
  rewrite List.NoDup_nth_error. unfold slot_unique. split.
  - intros Hu i j Hi Heq. rewrite length_map in Hi. rewrite !nth_error_map in Heq.
    destruct (nth_error rows i) as [b1|] eqn:H1;
      [|apply nth_error_None in H1; lia].
    destruct (nth_error rows j) as [b2|] eqn:H2; [|discriminate].
    cbn [option_map] in Heq. apply (Hu i j b1 b2 H1 H2). congruence.
  - intros Hn i j b1 b2 H1 H2 Heq. apply Hn.
    + rewrite length_map. apply nth_error_Some. congruence.
    + rewrite !nth_error_map, H1, H2. cbn. now rewrite Heq.
Qed.

Lemma NoDup_map_filter {A B} (f : A -> B) (g : A -> bool) (l : list A) :
  List.NoDup (map f l) -> List.NoDup (map f (List.filter g l)).
Proof.
  induction l as [|x l IH]; cbn [map List.filter]; [auto|].
  intros Hn. apply List.NoDup_cons_iff in Hn. destruct Hn as [Hx Hn].
  destruct (g x); cbn [map]; [|auto].
  constructor; [|auto]. intros Hin. apply Hx.
  apply in_map_iff in Hin. destruct Hin as (y & Hy & Hin).
  apply filter_In in Hin. apply in_map_iff. exists y. tauto.
Qed.

Lemma slot_unique_same (rows : list Booking.t) (b1 b2 : Booking.t) :
  slot_unique rows -> In b1 rows -> In b2 rows -> slot_key b1 = slot_key b2 ->
  b1 = b2.
Proof.
  intros Hu H1 H2 Hk.
  apply In_nth_error in H1, H2. destruct H1 as [i Hi]. destruct H2 as [j Hj].
  pose proof (Hu i j b1 b2 Hi Hj Hk) as ->. congruence.
Qed.

(** X8: [cancel_booking] answers 404 and changes nothing when no booking
    has the id; otherwise it answers 200, removes exactly the bookings with
    that id, leaves the doctors alone and keeps the ledger at one booking
    per (doctor, date, time slot). *)
Theorem cancel_booking_effect (db : Store) (booking_id : Z) :
  let db' := fst (cancel_booking db booking_id) in
  let r := snd (cancel_booking db booking_id) in
  ((forall b, In b (bookings db) -> Booking.id b <> booking_id) ->
   r = Http.HTTPException 404 "Booking not found" None /\ db' = db)
  /\ ((exists b, In b (bookings db) /\ Booking.id b = booking_id) ->
      r = Http.Returned "Booking cancelled successfully"
      /\ doctors db' = doctors db
      /\ (forall b, In b (bookings db') <->
                    In b (bookings db) /\ Booking.id b <> booking_id)
      /\ (slot_unique (bookings db) -> slot_unique (bookings db'))).
Proof.
  cbv zeta. unfold cancel_booking.
  destruct (List.find _ (bookings db)) as [b0|] eqn:Hfind; cbn [fst snd].
  - apply find_some in Hfind. destruct Hfind as [Hin Hid]. apply Z.eqb_eq in Hid.
    split; [intros Hno; exfalso; exact (Hno b0 Hin Hid)|].
    intros _. split; [reflexivity|]. split; [reflexivity|]. split.
    + intros b. cbn [bookings]. rewrite filter_In, negb_true_iff, Z.eqb_neq.
      now rewrite Hid.
    + cbn [bookings]. rewrite !slot_unique_NoDup. apply NoDup_map_filter.
  - split; [auto|]. intros (b & Hin & Hid). exfalso.
    pose proof (find_none _ _ Hfind b Hin) as Hn. cbn beta in Hn.
    apply Z.eqb_neq in Hn. contradiction.
Qed.

Lemma cancel_booking_effect_witness :
  snd (cancel_booking Examples.db1 7)
  = Http.HTTPException 404 "Booking not found" None
  /\ fst (cancel_booking Examples.db1 7) = Examples.db1.
Proof.
  apply (cancel_booking_effect Examples.db1 7).
  intros b Hin. cbn in Hin. destruct Hin as [<-|[]]. discriminate.
Defined.

(** X9: in a ledger with one booking per (doctor, date, time slot),
    cancelling a booking frees its slot: [create_booking] for the same
    doctor, date and time slot then succeeds, for any patient. *)
Theorem cancel_then_create (db : Store) (b : Booking.t) (p : option string) :
  slot_unique (bookings db) -> In b (bookings db) ->
  let db' := fst (cancel_booking db (Booking.id b)) in
  exists b',
    snd (create_booking db' p (Booking.doctor_name b) (Booking.date b)
           (Booking.time_slot b)) = Some b'.
Proof.
  intros Hu Hin db'.
  destruct (cancel_booking_effect db (Booking.id b)) as [_ Hsome].
  destruct (Hsome (ex_intro _ b (conj Hin eq_refl))) as (_ & _ & Hrows & _).
  fold db' in Hrows.
  pose proof (create_booking_correct db' p (Booking.doctor_name b)
                (Booking.date b) (Booking.time_slot b)) as Hc.
  cbv zeta in Hc. destruct Hc as (Hnone & _).
  destruct (snd (create_booking db' p _ _ _)) as [b'|]; [now exists b'|].
  exfalso. destruct (proj1 Hnone eq_refl) as (b1 & Hin1 & Hk).
  apply Hrows in Hin1. destruct Hin1 as [Hin1 Hid].
  apply Hid. f_equal. exact (slot_unique_same _ _ _ Hu Hin1 Hin Hk).
Qed.

Lemma cancel_then_create_witness :
  exists b',
    snd (create_booking (fst (cancel_booking Examples.db1 1)) (Some "Carol")
           (Some "Dr. Smith") (Some "2024-01-01") (Some "09:20")) = Some b'.
Proof.
  apply (cancel_then_create Examples.db1 (Examples.taken 1 "Dr. Smith" "09:20")
           (Some "Carol")).
  - apply slot_unique_db1.
  - cbn. auto.
Defined.


Lemma strptime_Ymd_raises (s : string) (e : exn) :
  datetime.strptime_Ymd s = Raise e -> e = ValueError.
Proof.
  unfold datetime.strptime_Ymd.
  destruct (datetime.first_of _ _ s) as [[[[y m] d] [|c r]]|];
    [destruct (_ && _)| |]; intros H; congruence.
Qed.

(** X11: [get_doctor_availability] answers 200 with an empty list for a
    doctor that does not exist (it never answers 404), and 500 exactly
    when the doctor found has working hours that [strptime] rejects. *)
Theorem get_doctor_availability_status (db : Store) (D T : string) :
  let r := get_doctor_availability db D T in
  ((forall d, In d (doctors db) -> Doctor.doctor_name d <> D) ->
   r = Http.Returned (D, T, []))
  /\ (Http.status r = 200 \/ Http.status r = 500)
  /\ (Http.status r = 500 <->
      exists doc, doctor_named db (Some D) = Some doc
        /\ generate_time_slots (Doctor.available_start doc)
             (Doctor.available_end doc) = Raise ValueError).
Proof.
  cbv zeta. unfold get_doctor_availability. split.
  - intros Hno.
    now rewrite (proj1 (get_doctor_available_slots_correct db D T) Hno).
  - unfold get_doctor_available_slots.
    destruct (doctor_named db (Some D)) as [doc|]; cbn [Http.status].
    + destruct (generate_time_slots _ _) as [grid|e] eqn:Hgen;
        cbn [rbind Http.status].
      * split; [now left|]. split; [discriminate|].
        intros (doc' & [= <-] & Hr). congruence.
      * split; [now right|]. split; [|reflexivity]. intros _.
        exists doc. split; [reflexivity|].
        pose proof (proj1 (proj1 (generate_time_slots_edges _ _) e) Hgen) as [He _].
        now rewrite <- He.
    + split; [now left|]. split; [discriminate|].
      intros (doc' & Hd & _). discriminate.
Qed.

Lemma get_doctor_availability_status_witness :
  get_doctor_availability Examples.db1 "Dr. Who" "2024-01-01"
  = Http.Returned ("Dr. Who", "2024-01-01", []).
Proof.
  apply (get_doctor_availability_status Examples.db1 "Dr. Who" "2024-01-01").
  intros d Hin. cbn in Hin. destruct Hin as [<-|[<-|[]]]; discriminate.
Defined.

(** X12: [suggest_alternative_slots] passes on the exception of
    [get_doctor_available_slots]; when that returns, it raises exactly
    when some slot is available, the preferred time is not one of them and
    [strptime] rejects the preferred time. The exception is [ValueError]. *)
Theorem suggest_alternative_slots_raises (db : Store) (D T : option string)
    (preferred : string) :
  (forall e, get_doctor_available_slots db D T = Raise e ->
     suggest_alternative_slots db D T preferred = Raise e)
  /\ (forall available e,
        get_doctor_available_slots db D T = Ok available ->
        (suggest_alternative_slots db D T preferred = Raise e <->
         e = ValueError /\ available <> [] /\ ~ In preferred available
         /\ datetime.strptime_HM preferred = Raise ValueError)).
Proof.
  unfold suggest_alternative_slots. split.
  - intros e ->. reflexivity.
  - intros available e Hget. rewrite Hget. cbn [rbind].
    destruct available as [|a l] eqn:Hav.
    { split; [discriminate | intros (_ & H & _); congruence]. }
    rewrite <- Hav in *.
    destruct (Py.mem preferred available) eqn:Hmem.
    { apply mem_In in Hmem. split; [discriminate | tauto]. }
    assert (Hnot : ~ In preferred available).
    { intros H. apply mem_In in H. congruence. }
    destruct (datetime.strptime_HM preferred) as [pdt|pe] eqn:Hp; cbn [rbind].
    + destruct (available_slots_shape _ _ _ _ Hget) as (us & Hus & _ & Hrange).
      rewrite Hus, (map_result_clock us Hrange). cbn [rbind].
      split; [discriminate | intros (_ & _ & _ & H); discriminate].
    + pose proof (strptime_HM_raises _ _ Hp) as ->.
      split; [intros [= <-]; repeat split; [congruence | assumption]|].
      intros (-> & _). reflexivity.
Qed.

Lemma suggest_alternative_slots_raises_witness :
  suggest_alternative_slots Examples.db1 (Some "Dr. Smith") (Some "2024-01-01")
    "3pm" = Raise ValueError.
Proof.
  apply (proj2 (suggest_alternative_slots_raises Examples.db1 (Some "Dr. Smith")
                  (Some "2024-01-01") "3pm") ["09:00"; "09:40"] ValueError).
  - reflexivity.
  - repeat split; [discriminate | cbn; intuition discriminate].
Defined.

(** X13: [check_doctor_availability] answers false for a doctor that does
    not exist without looking at the date, and raises exactly when the
    doctor exists and the date is not a YYYY-MM-DD date; the exception is
    [ValueError]. *)
Theorem check_doctor_availability_raises (db : Store) (D date : string) :
  ((forall d, In d (doctors db) -> Doctor.doctor_name d <> D) ->
   check_doctor_availability db (Some D) date = Ok false)
  /\ (forall e, check_doctor_availability db (Some D) date = Raise e <->
        e = ValueError
        /\ (exists d, In d (doctors db) /\ Doctor.doctor_name d = D)
        /\ datetime.strptime_Ymd date = Raise ValueError).
Proof.
  unfold check_doctor_availability. split.
  - intros Hno. apply doctor_named_None in Hno. now rewrite Hno.
  - intros e. destruct (doctor_named db (Some D)) as [doc|] eqn:Hdoc.
    + apply doctor_named_Some in Hdoc.
      destruct (datetime.strptime_Ymd date) as [dt|pe] eqn:Hp; cbn [rbind].
      * split; [destruct (_ && _); discriminate|].
        intros (_ & _ & H). discriminate.
      * pose proof (strptime_Ymd_raises _ _ Hp) as ->.
        split; [intros [= <-]; repeat split; eauto | intros (-> & _); reflexivity].
    + split; [discriminate|]. intros (_ & (d & Hin & Hd) & _).
      rewrite doctor_named_None in Hdoc. exfalso. exact (Hdoc d Hin Hd).
Qed.

Lemma check_doctor_availability_raises_witness :
  check_doctor_availability Examples.db1 (Some "Dr. Who") "next monday" = Ok false.
Proof.
  apply (check_doctor_availability_raises Examples.db1 "Dr. Who" "next monday").
  intros d Hin. cbn in Hin. destruct Hin as [<-|[<-|[]]]; discriminate.
Defined.

(** ** The doctor directory *)

Lemma like_cons (c : ascii) (p s : string) :
  Sql.like (String c p) s =
  if Ascii.eqb c "%" then
    Sql.like p s || match s with
                    | EmptyString => false
                    | String _ r => Sql.like (String c p) r
                    end
  else if Ascii.eqb c "_" then
    match s with EmptyString => false | String _ r => Sql.like p r end
  else
    match s with
    | EmptyString => false
    | String d r => Ascii.eqb c d && Sql.like p r
    end.
Proof.
  destruct c as [[] [] [] [] [] [] [] []]; destruct s; reflexivity.
Qed.

Lemma like_percent (p s : string) :
  Sql.like (String "%" p) s =
  Sql.like p s || match s with
                  | EmptyString => false
                  | String _ r => Sql.like (String "%" p) r
                  end.
Proof. now rewrite like_cons. Qed.

(** a pattern followed by [%] matches its own text *)
Lemma like_self (n : string) : Sql.like (n +:+ "%") n = true.
Proof.
  induction n as [|c n IH]; [reflexivity|].
  change (String c n +:+ "%") with (String c (n +:+ "%")).
  destruct (Ascii.eqb_spec c "%") as [->|Hc].
  - rewrite like_percent, (like_percent _ n), IH. cbn. apply orb_true_r.
  - rewrite like_cons. apply Ascii.eqb_neq in Hc. rewrite Hc.
    destruct (Ascii.eqb c "_"); [exact IH|].
    now rewrite Ascii.eqb_refl, IH.
Qed.

Lemma like_wrap_self (n : string) : Sql.like ("%" +:+ n +:+ "%") n = true.
Proof.
  change ("%" +:+ n +:+ "%") with (String "%" (n +:+ "%")).
  rewrite like_percent, like_self. reflexivity.
Qed.

Lemma lower_app (a b : string) : Py.lower (a +:+ b) = Py.lower a +:+ Py.lower b.
Proof.
  induction a as [|c a IH]; simpl; [reflexivity|].
  now rewrite IH.
Qed.

Lemma lower_wrap (n : string) :
  Py.lower ("%" +:+ n +:+ "%") = "%" +:+ Py.lower n +:+ "%".
Proof. now rewrite !lower_app. Qed.

Lemma ilike_wrap_self (n : string) : Sql.ilike ("%" +:+ n +:+ "%") n = true.
Proof. unfold Sql.ilike. rewrite lower_wrap. apply like_wrap_self. Qed.

Lemma is_wildcard_lower (c : ascii) :
  is_wildcard (Py.lower_char c) = is_wildcard c.
Proof. destruct c as [[] [] [] [] [] [] [] []]; reflexivity. Qed.

Lemma wildcard_free_lower (s : string) :
  wildcard_free (Py.lower s) = wildcard_free s.
Proof.
  induction s as [|c s IH]; cbn [Py.lower wildcard_free]; [reflexivity|].
  now rewrite is_wildcard_lower, IH.
Qed.

Lemma like_any (s : string) : Sql.like "%" s = true.
Proof.
  induction s as [|d s IH]; [reflexivity|]. rewrite like_percent, IH.
  apply orb_true_r.
Qed.

Lemma like_plain_prefix (p s : string) :
  wildcard_free p = true -> Sql.like (p +:+ "%") s = String.prefix p s.
Proof.
  revert s. induction p as [|c p IH]; intros s Hp.
  - change ("" +:+ "%") with "%". rewrite like_any. now destruct s.
  - cbn [wildcard_free] in Hp. apply andb_true_iff in Hp. destruct Hp as [Hc Hp].
    unfold is_wildcard in Hc. apply negb_true_iff, orb_false_iff in Hc.
    destruct Hc as [H1 H2].
    change (String c p +:+ "%") with (String c (p +:+ "%")).
    rewrite like_cons, H1, H2. destruct s as [|d s]; [reflexivity|].
    cbn [String.prefix]. rewrite IH by assumption.
    destruct (Ascii.eqb_spec c d) as [->|Hne].
    + destruct (ascii_dec d d); [reflexivity | contradiction].
    + destruct (ascii_dec c d); [contradiction | reflexivity].
Qed.

(** between two [%], a text without wildcards matches as a substring *)
Lemma like_plain_contains (p s : string) :
  wildcard_free p = true -> Sql.like ("%" +:+ p +:+ "%") s = Py.contains p s.
Proof.
  intros Hp. change ("%" +:+ p +:+ "%") with (String "%" (p +:+ "%")).
  induction s as [|d s IH].
  - rewrite like_percent, like_plain_prefix by assumption. reflexivity.
  - rewrite like_percent, like_plain_prefix, IH by assumption. reflexivity.
Qed.

Lemma ilike_plain_contains (p s : string) :
  wildcard_free p = true ->
  Sql.ilike ("%" +:+ p +:+ "%") s = Py.contains (Py.lower p) (Py.lower s).
Proof.
  intros Hp. unfold Sql.ilike. rewrite lower_wrap.
  apply like_plain_contains. now rewrite wildcard_free_lower.
Qed.

Lemma contains_empty (s : string) : Py.contains "" s = true.
Proof. destruct s; reflexivity. Qed.

Lemma filter_all {A} (f : A -> bool) (l : list A) :
  (forall x, In x l -> f x = true) -> List.filter f l = l.
Proof.
  induction l as [|x l IH]; intros H; cbn [List.filter]; [reflexivity|].
  rewrite (H x) by now left. f_equal. apply IH. intros y Hy. apply H. now right.
Qed.

(** X14: for a text without [%] and [_], [find_doctors_by_department]
    returns, in table order, exactly the doctors whose department holds
    the text as a substring, letter case aside; for the empty text that is
    every doctor. *)
Theorem find_doctors_by_department_substring (db : Store) (dept : string) :
  wildcard_free dept = true ->
  find_doctors_by_department db dept
  = List.filter (fun d => Py.contains (Py.lower dept)
                            (Py.lower (Doctor.department d))) (doctors db)
  /\ find_doctors_by_department db "" = doctors db.
Proof.
  intros Hp. unfold find_doctors_by_department. split.
  - apply filter_ext. intros d. now apply ilike_plain_contains.
  - apply filter_all. intros d _.
    rewrite ilike_plain_contains by reflexivity. apply contains_empty.
Qed.

Lemma find_doctors_by_department_substring_witness :
  find_doctors_by_department Examples.db1 "OLOG"
  = List.filter (fun d => Py.contains (Py.lower "OLOG")
                            (Py.lower (Doctor.department d))) (doctors Examples.db1)
  /\ find_doctors_by_department Examples.db1 "" = doctors Examples.db1.
Proof.
  apply (find_doctors_by_department_substring Examples.db1 "OLOG"). reflexivity.
Defined.



Lemma distinct_In (l : list string) (x : string) :
  In x (Sql.distinct l) <-> In x l.
Proof.
  induction l as [|y l IH]; cbn [Sql.distinct In]; [tauto|].
  rewrite filter_In, IH, negb_true_iff. split.
  - intros [H|[H _]]; auto.
  - intros [H|H]; [auto|].
    destruct (String.eqb_spec y x) as [->|Hne]; [now left | right; auto].
Qed.

Lemma distinct_NoDup (l : list string) : List.NoDup (Sql.distinct l).
Proof.
  induction l as [|y l IH]; cbn [Sql.distinct]; constructor.
  - intros Hin. apply filter_In in Hin. destruct Hin as [_ Hne].
    now rewrite String.eqb_refl in Hne.
  - now apply List.NoDup_filter.
Qed.

(** X16: [list_departments] lists each department of the table once, and
    nothing else; and every department it lists has doctors:
    [find_doctors_by_department] finds at least one for it and
    [get_doctors_by_department] answers 200. *)
Theorem list_departments_complete (db : Store) :
  List.NoDup (list_departments db)
  /\ (forall x, In x (list_departments db) <->
        exists d, In d (doctors db) /\ Doctor.department d = x)
  /\ (forall x, In x (list_departments db) ->
        find_doctors_by_department db x <> []
        /\ Http.status (get_doctors_by_department db x) = 200).
Proof.
  assert (Hmem : forall x, In x (list_departments db) <->
            exists d, In d (doctors db) /\ Doctor.department d = x).
  { intros x. unfold list_departments. rewrite distinct_In, in_map_iff.
    split; intros (d & H1 & H2); exists d; auto. }
  split; [apply distinct_NoDup|]. split; [exact Hmem|].
  intros x Hx. apply Hmem in Hx. destruct Hx as (d & Hin & <-).
  assert (Hfound : In d (find_doctors_by_department db (Doctor.department d))).
  { unfold find_doctors_by_department. apply filter_In.
    split; [assumption | apply ilike_wrap_self]. }
  unfold get_doctors_by_department.
  destruct (find_doctors_by_department db (Doctor.department d));
    [destruct Hfound | split; [discriminate | reflexivity]].
Qed.

(** ** Administration *)

Lemma find_app_found {A} (f : A -> bool) (l l' : list A) (x : A) :
  List.find f l = Some x -> List.find f (l ++ l') = Some x.
Proof.
  induction l as [|y l IH]; cbn [List.find app]; [discriminate|].
  destruct (f y); auto.
Qed.

Lemma available_slots_same_doctor (db1 db2 : Store) (D T : option string) :
  doctor_named db1 D = doctor_named db2 D -> bookings db1 = bookings db2 ->
  get_doctor_available_slots db1 D T = get_doctor_available_slots db2 D T.
Proof.
  intros Hd Hb. unfold get_doctor_available_slots, booked_for.
  now rewrite Hd, Hb.
Qed.

Lemma doctor_id_fresh (rows : list Doctor.t) (d : Doctor.t) :
  In d rows -> Doctor.id d <> Sql.next_id (map Doctor.id rows).
Proof.
  intros Hin Heq.
  pose proof (max_id_bound (map Doctor.id rows) (Doctor.id d) (in_map _ _ _ Hin)).
  lia.
Qed.

(** X17: [add_doctor] never changes which doctor an existing name finds,
    nor the available slots under that name, even when the new doctor has
    the same name: the older row shadows the new one.  A doctor with a
    name not yet in the table is found under it afterwards.  The bookings
    are untouched, and deleting the new doctor by its id gives the store
    back. *)
Theorem add_doctor_shadowed (db : Store) (doctor : Seed.t) :
  let db' := fst (add_doctor db doctor) in
  let row := snd (add_doctor db doctor) in
  (forall D found, doctor_named db (Some D) = Some found ->
     doctor_named db' (Some D) = Some found
     /\ forall T, get_doctor_available_slots db' (Some D) T
                  = get_doctor_available_slots db (Some D) T)
  /\ ((forall d, In d (doctors db) -> Doctor.doctor_name d <> Seed.doctor_name doctor) ->
      doctor_named db' (Some (Seed.doctor_name doctor)) = Some row)
  /\ bookings db' = bookings db
  /\ delete_doctor db' (Doctor.id row) = (db, Http.Returned "Doctor deleted successfully").
Proof.
  cbv zeta. unfold add_doctor. cbn [fst snd].
  set (row := Doctor.mk _ _ _ _ _ _).
  split; [|split; [|split]].
  - intros D found Hfound.
    assert (H' : doctor_named (mkStore (doctors db ++ [row]) (bookings db)) (Some D)
                 = Some found).
    { unfold doctor_named in *. cbn [doctors]. now apply find_app_found. }
    split; [exact H'|]. intros T. apply available_slots_same_doctor; [|reflexivity].
    now rewrite H', Hfound.
  - intros Hno. unfold doctor_named. cbn [doctors].
    apply find_snoc_fresh.
    + intros y Hy. apply bool_decide_eq_false. intros [= Heq].
      exact (Hno y Hy Heq).
    + now apply bool_decide_eq_true.
  - reflexivity.
  - unfold delete_doctor. cbn [doctors bookings].
    rewrite (find_snoc_fresh _ _ row).
    + rewrite filter_snoc_fresh; [now destruct db | | ].
      * intros y Hy. apply negb_true_iff, Z.eqb_neq.
        now apply doctor_id_fresh.
      * now rewrite Z.eqb_refl.
    + intros y Hy. apply Z.eqb_neq. now apply doctor_id_fresh.
    + apply Z.eqb_refl.
Qed.

Lemma add_doctor_shadowed_witness :
  let twin := Seed.mk "Dr. Smith" "Oncology" "13:00" "14:00" None in
  doctor_named (fst (add_doctor Examples.db1 twin)) (Some "Dr. Smith")
  = Some Examples.smith
  /\ forall T, get_doctor_available_slots (fst (add_doctor Examples.db1 twin))
                 (Some "Dr. Smith") T
               = get_doctor_available_slots Examples.db1 (Some "Dr. Smith") T.
Proof.
  intros twin.
  apply (proj1 (add_doctor_shadowed Examples.db1 twin) "Dr. Smith" Examples.smith).
  reflexivity.
Defined.

Lemma add_doctors_columns (rows : list Doctor.t) (data : list Seed.t) :
  map doctor_columns (add_doctors rows data) = map doctor_columns rows ++ data.
Proof.
  revert rows. induction data as [|d data IH]; intros rows; cbn [add_doctors].
  - now rewrite app_nil_r.
  - rewrite IH, map_app, <- app_assoc. cbn. now destruct d.
Qed.

Lemma next_id_seq (n : nat) :
  Sql.next_id (map Z.of_nat (seq 1 n)) = Z.of_nat (S n).
Proof.
  unfold Sql.next_id.
  assert (H : fold_right Z.max 0 (map Z.of_nat (seq 1 n)) = Z.of_nat n).
  { induction n as [|n IH]; [reflexivity|].
    rewrite seq_S, map_app, fold_right_app. cbn [map fold_right seq].
    assert (Hgen : forall l a, 0 <= a -> fold_right Z.max a l = Z.max a (fold_right Z.max 0 l)).
    { induction l as [|x l IHl]; intros a Ha; cbn [fold_right]; [lia|].
      rewrite IHl by assumption. lia. }
    rewrite Hgen by lia. rewrite IH. lia. }
  rewrite H. lia.
Qed.

Lemma add_doctors_ids (rows : list Doctor.t) (data : list Seed.t) (n : nat) :
  map Doctor.id rows = map Z.of_nat (seq 1 n) ->
  map Doctor.id (add_doctors rows data)
  = map Z.of_nat (seq 1 (n + length data)).
Proof.
  revert rows n. induction data as [|d data IH]; intros rows n Hids;
    cbn [add_doctors length].
  - now rewrite Nat.add_0_r.
  - rewrite (IH _ (S n)).
    + f_equal. f_equal. lia.
    + rewrite map_app, Hids, next_id_seq. cbn [map Doctor.id].
      now rewrite seq_S, map_app.
Qed.

(** X18: [init_db] seeds an empty doctor table with the records of the
    seed file, in order, under the ids 1, 2, ..., and leaves a table that
    has a doctor as it is; it never touches the bookings; running it again
    changes nothing. *)
Theorem init_db_seeds_once (db : Store) (data : list Seed.t) :
  (doctors db = [] ->
   map doctor_columns (doctors (init_db db data)) = data
   /\ map Doctor.id (doctors (init_db db data))
      = map Z.of_nat (seq 1 (length data)))
  /\ (doctors db <> [] -> init_db db data = db)
  /\ bookings (init_db db data) = bookings db
  /\ init_db (init_db db data) data = init_db db data.
Proof.
  unfold init_db.
  destruct (doctors db) as [|d0 rows] eqn:Hdocs; cbn [length Nat.eqb].
  - split; [intros _|split; [congruence|split; [reflexivity|]]].
    + cbn [doctors]. split.
      * now rewrite add_doctors_columns.
      * now rewrite (add_doctors_ids [] data 0).
    + cbn [doctors bookings]. destruct data as [|d data]; [reflexivity|].
      cbn [add_doctors].
      assert (H : length (add_doctors ([] ++ [Doctor.mk (Sql.next_id (map Doctor.id []))
                     (Seed.doctor_name d) (Seed.department d) (Seed.available_start d)
                     (Seed.available_end d) (Seed.off_day d)]) data) <> 0%nat).
      { rewrite <- (length_map doctor_columns), add_doctors_columns, length_app.
        cbn. lia. }
      destruct (length _); [contradiction | reflexivity].
  - split; [discriminate|]. split; [reflexivity|]. split; [reflexivity|].
    rewrite Hdocs. reflexivity.
Qed.

Lemma init_db_seeds_once_witness :
  let data := [Seed.mk "Dr. Smith" "Cardiology" "09:00" "10:00" (Some "Friday");
               Seed.mk "Dr. Jones" "Neurology" "09:00" "12:00" None] in
  map doctor_columns (doctors (init_db (mkStore [] []) data)) = data
  /\ map Doctor.id (doctors (init_db (mkStore [] []) data))
     = map Z.of_nat (seq 1 (length data)).
Proof.
  intros data.
  apply (init_db_seeds_once (mkStore [] []) data). reflexivity.
Defined.

(** ** The extraction *)

Lemma department_mapping_lower :
  forall kv, In kv department_mapping -> fst kv = Py.lower (snd kv).
Proof.
  apply List.Forall_forall. unfold department_mapping.
  repeat constructor.
Qed.



(** ** The sessions *)

(** X20: a call of [process_message] for one session never changes the
    state of another session, nor creates or removes one. *)
Theorem process_message_other_sessions (env : Env) (w : World)
    (session_id message other : string) :
  other <> session_id ->
  CONVERSATION_STATES (fst (process_message env w session_id message)) !! other
  = CONVERSATION_STATES w !! other.
Proof.
  intros Hne. rewrite process_message_session. now apply lookup_insert_ne.
Qed.

Lemma process_message_other_sessions_witness :
  let state := mkState (Some "Bob") None None None None None false None
                 "booking_request" in
  let w := mkWorld (<["s2" := state]> ∅) Examples.db1 in
  let env := mkEnv (Raise ValueError) "2024-01-01" "2024-01-02" (fun _ => false) in
  CONVERSATION_STATES (fst (process_message env w "s1" "hello")) !! "s2"
  = CONVERSATION_STATES w !! "s2".
Proof.
  intros state w env.
  apply (process_message_other_sessions env w "s1" "hello" "s2"). discriminate.
Defined.

(** ** The exceptions of the [try] block *)

Lemma raises_ret {A} (allowed : exn -> Prop) (a : A) : raises_only allowed (ret a).
Proof. intros m e H. discriminate. Qed.

Lemma raises_raise {A} (allowed : exn -> Prop) (e : exn) :
  allowed e -> raises_only allowed (@raise A e).
Proof. intros He m e' [= <-]. exact He. Qed.

Lemma raises_get_state (allowed : exn -> Prop) : raises_only allowed get_state.
Proof. intros m e H. discriminate. Qed.

Lemma raises_modify (allowed : exn -> Prop)
    (f : ConversationState -> ConversationState) :
  raises_only allowed (modify f).
Proof. intros m e H. discriminate. Qed.

Lemma raises_attr {A} (allowed : exn -> Prop) (v : option A) :
  allowed AttributeError -> raises_only allowed (attr v).
Proof. intros He m e. destruct v; cbn; [discriminate | now intros [= <-]]. Qed.

Lemma raises_call {A} (allowed : exn -> Prop) (env : Env) (t : tool)
    (f : Store -> result A) :
  (storage_fails env t = true -> allowed OperationalError) ->
  (forall store e, f store = Raise e -> allowed e) ->
  raises_only allowed (call env t f).
Proof.
  intros Hop Hf m e. unfold call.
  destruct (storage_fails env t); cbn [snd]; [intros [= <-]; auto | apply Hf].
Qed.

Lemma raises_create (allowed : exn -> Prop) (env : Env)
    (p d dt ts : option string) :
  (storage_fails env CreateBooking = true -> allowed OperationalError) ->
  raises_only allowed (call_create_booking env p d dt ts).
Proof.
  intros Hop m e. unfold call_create_booking.
  destruct (storage_fails env CreateBooking); cbn [snd]; [intros [= <-]; auto|].
  destruct (create_booking _ _ _ _ _). discriminate.
Qed.

Lemma raises_bind {A B} (allowed : exn -> Prop) (c : M A) (k : A -> M B) :
  raises_only allowed c -> (forall a, raises_only allowed (k a)) ->
  raises_only allowed (bind c k).
Proof.
  intros Hc Hk m e. unfold bind. specialize (Hc m).
  destruct (c m) as [m' [a|e']]; cbn [snd] in *; [apply Hk|].
  intros [= <-]. now apply Hc.
Qed.

Lemma get_doctor_available_slots_raises (db : Store) (D T : option string)
    (e : exn) :
  get_doctor_available_slots db D T = Raise e -> e = ValueError.
Proof.
  unfold get_doctor_available_slots.
  destruct (doctor_named db D) as [doc|]; [|discriminate].
  destruct (generate_time_slots _ _) as [grid|e'] eqn:Hgen; [discriminate|].
  cbn [rbind]. intros [= <-].
  now destruct (proj1 (proj1 (generate_time_slots_edges _ _) e') Hgen).
Qed.

Lemma check_doctor_availability_raises_value (db : Store) (D : option string)
    (date : string) (e : exn) :
  check_doctor_availability db D date = Raise e -> e = ValueError.
Proof.
  unfold check_doctor_availability.
  destruct (doctor_named db D) as [doc|]; [|discriminate].
  destruct (datetime.strptime_Ymd date) as [dt|e'] eqn:Hp; cbn [rbind].
  - destruct (_ && _); discriminate.
  - intros [= <-]. exact (strptime_Ymd_raises _ _ Hp).
Qed.

Lemma suggest_alternative_slots_raises_value (db : Store) (D T : option string)
    (preferred : string) (e : exn) :
  suggest_alternative_slots db D T preferred = Raise e -> e = ValueError.
Proof.
  intros H.
  destruct (get_doctor_available_slots db D T) as [available|e'] eqn:Hget.
  - now apply (proj2 (suggest_alternative_slots_raises db D T preferred)
                 available e Hget) in H.
  - rewrite (proj1 (suggest_alternative_slots_raises db D T preferred) e' Hget) in H.
    injection H as <-. exact (get_doctor_available_slots_raises _ _ _ _ Hget).
Qed.

Lemma lower_lower (s : string) : Py.lower (Py.lower s) = Py.lower s.
Proof.
  induction s as [|c s IH]; simpl; [reflexivity|]. rewrite IH. f_equal.
  destruct c as [[] [] [] [] [] [] [] []]; reflexivity.
Qed.

(** a department the message mentions is found by the loop over the names *)
Lemma department_loop_finds (message_lower : string) :
  existsb (fun dept => Py.contains (Py.lower dept) message_lower) department_keys
    = true ->
  List.find (fun dept => Py.contains (Py.lower dept) message_lower)
    department_names <> None.
Proof.
  intros Hex Hfind. apply existsb_exists in Hex. destruct Hex as (key & Hin & Hc).
  unfold department_keys in Hin. apply in_map_iff in Hin.
  destruct Hin as ([k name] & <- & Hin). cbn [fst] in Hc.
  pose proof (department_mapping_lower _ Hin) as Hk. cbn [fst snd] in Hk.
  assert (Hname : In name department_names).
  { unfold department_names. apply in_map_iff. now exists (k, name). }
  pose proof (find_none _ _ Hfind name Hname) as Hn. cbn beta in Hn.
  rewrite Hk, lower_lower in Hc. congruence.
Qed.

Ltac leaf_raises :=
  first
    [ apply raises_ret | apply raises_get_state | apply raises_modify
    | apply raises_attr; unfold tool_error; tauto
    | apply raises_create; unfold tool_error; eauto
    | apply raises_call;
      [ unfold tool_error; eauto
      | let store := fresh "store" in let e := fresh "e" in let H := fresh "H" in
        intros store e H; cbv beta in H; unfold tool_error;
        first [ discriminate
              | left; exact (get_doctor_available_slots_raises _ _ _ _ H)
              | left; exact (check_doctor_availability_raises_value _ _ _ _ H)
              | left; exact (suggest_alternative_slots_raises_value _ _ _ _ _ H) ] ]
    | exfalso; eapply department_loop_finds; eassumption ].

Ltac walk_raises :=
  cbv zeta;
  first
    [ lazymatch goal with
      | |- raises_only _ (bind _ _) =>
          apply raises_bind; [walk_raises | intros ?; walk_raises]
      | |- raises_only _ (match ?x with _ => _ end) =>
          destruct x eqn:?; walk_raises
      end
    | leaf_raises ].

Lemma transition_raises (env : Env) (parsed : Parsed.t) (message : string) :
  raises_only (tool_error env) (transition env parsed message).
Proof.
  unfold transition. unfold_handlers.
  unfold set_patient_name, set_intent, set_selected_department,
    set_selected_doctor, set_selected_date, set_selected_time,
    set_booking_confirmed, set_booking_details, set_step.
  walk_raises.
Qed.

(** X21: when the [try] block of [process_message] raises, the exception is
    a [ValueError] (a time or date [strptime] rejects), an
    [AttributeError] (an attribute of [None]), or the failure of a storage
    call that [env] makes fail; it is never the [UnboundLocalError] of a
    reply left unassigned, since the loop over the department names finds
    every department the test before it found. *)
Theorem try_block_exceptions (env : Env) (w : World) (session_id message : string)
    (e : exn) :
  snd (try_block env w session_id message) = Raise e ->
  e <> UnboundLocalError
  /\ (e = ValueError \/ e = AttributeError
      \/ (e = OperationalError /\ exists t, storage_fails env t = true)).
Proof.
  intros H. apply transition_raises in H. split; [|exact H].
  destruct H as [->|[->|[-> _]]]; discriminate.
Qed.

Lemma try_block_exceptions_witness :
  let state := mkState (Some "Alice") None (Some "Cardiology") (Some "Dr. Smith")
                 None None false None "date_selection" in
  let w := mkWorld (<["s1" := state]> ∅) Examples.db1 in
  let env := mkEnv (Ok (Parsed.mk None None None None (Some "next monday") None None))
               "2024-01-01" "2024-01-02" (fun _ => false) in
  ValueError <> UnboundLocalError
  /\ (ValueError = ValueError \/ ValueError = AttributeError
      \/ (ValueError = OperationalError /\ exists t, storage_fails env t = true)).
Proof.
  intros state w env.
  apply (try_block_exceptions env w "s1" "next monday" ValueError).
  vm_compute. reflexivity.
Defined.

(** ** What one message does to a session *)

Lemma hoare_get_eq {B} (m0 : ConversationState * Store)
    (k : ConversationState -> M B)
    (Q : B -> ConversationState * Store -> Prop)
    (E : ConversationState * Store -> Prop) :
  hoare (eq m0) (k (fst m0)) Q E -> hoare (eq m0) (bind get_state k) Q E.
Proof. intros H m <-. unfold bind, get_state. now apply H. Qed.

(** after a computation that only reads, the state is the same and the
    value is the one it returned there *)
Lemma hoare_read_eq {A B} (m0 : ConversationState * Store) (c : M A)
    (k : A -> M B) (Q : B -> ConversationState * Store -> Prop)
    (E : ConversationState * Store -> Prop) :
  E m0 -> reads c ->
  (forall a, snd (c m0) = Ok a -> hoare (eq m0) (k a) Q E) ->
  hoare (eq m0) (bind c k) Q E.
Proof.
  intros HE Hc Hk m <-. unfold bind. specialize (Hc m0).
  destruct (c m0) as [m' [a|e]] eqn:Hcm; cbn [fst] in Hc; subst m'.
  - now apply (Hk a).
  - exact HE.
Qed.

Lemma department_names_truthy (f : string -> bool) (dept : string) :
  List.find f department_names = Some dept -> Py.truthy (Some dept) = true.
Proof.
  intros H. apply find_some in H. destruct H as [Hin _].
  revert dept Hin. apply List.Forall_forall. repeat constructor.
Qed.

(** evaluate [stage] and [next_steps] at a literal step *)
Ltac eval_stage :=
  repeat match goal with
  | |- context [stage (String ?c ?a)] =>
      let v := eval vm_compute in (stage (String c a)) in
      change (stage (String c a)) with v
  | H : context [stage (String ?c ?a)] |- _ =>
      let v := eval vm_compute in (stage (String c a)) in
      change (stage (String c a)) with v in H
  end.

(** what a returned value says about the test it came from *)
Ltac use_values :=
  repeat match goal with
  | Hv : snd ((if ?c then _ else _) _) = Ok _ |- _ =>
      destruct c eqn:?; unfold ret in Hv; cbn [snd] in Hv;
      try discriminate Hv; clear Hv
  end.

Ltac solve_fields Hstep :=
  let Hf := fresh "Hf" in
  intros Hf;
  first
    [ exact Hf
    | destruct Hf as (? & ? & ? & ? & ? & ? & ?);
      unfold has_fields;
      cbn [patient_name intent selected_department selected_doctor selected_date
           selected_time booking_confirmed booking_details step] in *;
      rewrite ?Hstep in *; eval_stage; use_values;
      repeat match goal with
      | H : negb _ = true |- _ => apply negb_true_iff in H
      | H : negb _ = false |- _ => apply negb_false_iff in H
      end;
      repeat split;
      try match goal with |- (_ <= _) -> _ => intro end;
      first [ reflexivity | assumption | exfalso; lia | discriminate
            | eapply department_names_truthy; eassumption
            | match goal with H : _ -> ?G |- ?G => apply H; lia end ] ].

Ltac leaf_post Hstep :=
  let m := fresh "m" in
  intros m <-; run_writes; unfold branch_post; cbn [fst snd step];
  split; [reflexivity|];
  split; [rewrite ?Hstep; vm_compute; reflexivity|];
  solve_fields Hstep.

Ltac walk_eq leaf :=
  cbv zeta;
  first
    [ lazymatch goal with
      | |- hoare _ (bind get_state _) _ _ =>
          apply hoare_get_eq; cbn [fst]; walk_eq leaf
      | |- hoare _ (bind _ _) _ _ =>
          apply hoare_read_eq;
          [auto | solve [prove_reads] | intros ? ?; walk_eq leaf]
      | |- hoare _ (match ?x with _ => _ end) _ _ =>
          destruct x eqn:?; walk_eq leaf
      end
    | leaf ].

Ltac prove_branch Hstep :=
  match goal with
  | |- hoare (eq (?s, ?store)) _ _ _ =>
      assert (branch_post s store (s, store))
        by (unfold branch_post; cbn [fst snd];
            split; [reflexivity|];
            split; [rewrite Hstep; vm_compute; reflexivity | auto])
  end;
  unfold_handlers; walk_eq ltac:(leaf_post Hstep).

Lemma on_welcome_post (parsed : Parsed.t) (s : ConversationState) (store : Store) :
  step s = "welcome" ->
  hoare (eq (s, store)) (on_welcome parsed)
    (fun _ => branch_post s store) (branch_post s store).
Proof. intros Hstep. prove_branch Hstep. Qed.

Lemma on_booking_request_post (env : Env) (parsed : Parsed.t) (message : string)
    (s : ConversationState) (store : Store) :
  step s = "booking_request" ->
  hoare (eq (s, store)) (on_booking_request env parsed message)
    (fun _ => branch_post s store) (branch_post s store).
Proof. intros Hstep. prove_branch Hstep. Qed.

Lemma on_department_selection_post (env : Env) (parsed : Parsed.t)
    (s : ConversationState) (store : Store) :
  step s = "department_selection" ->
  hoare (eq (s, store)) (on_department_selection env parsed)
    (fun _ => branch_post s store) (branch_post s store).
Proof. intros Hstep. prove_branch Hstep. Qed.

Lemma on_doctor_selection_post (env : Env) (parsed : Parsed.t) (message : string)
    (s : ConversationState) (store : Store) :
  step s = "doctor_selection" ->
  hoare (eq (s, store)) (on_doctor_selection env parsed message)
    (fun _ => branch_post s store) (branch_post s store).
Proof. intros Hstep. prove_branch Hstep. Qed.

Lemma on_date_selection_post (env : Env) (parsed : Parsed.t) (message : string)
    (s : ConversationState) (store : Store) :
  step s = "date_selection" ->
  hoare (eq (s, store)) (on_date_selection env parsed message)
    (fun _ => branch_post s store) (branch_post s store).
Proof. intros Hstep. prove_branch Hstep. Qed.

Lemma on_time_selection_post (env : Env) (parsed : Parsed.t)
    (s : ConversationState) (store : Store) :
  step s = "time_selection" ->
  hoare (eq (s, store)) (on_time_selection env parsed)
    (fun _ => branch_post s store) (branch_post s store).
Proof. intros Hstep. prove_branch Hstep. Qed.

Lemma on_confirm_booking_eq (env : Env) (message : string)
    (s : ConversationState) (store : Store) :
  on_confirm_booking env message (s, store)
  = if Py.contains "yes" (Py.lower message)
       || Py.contains "confirm" (Py.lower message)
    then
      if storage_fails env CreateBooking then ((s, store), Raise OperationalError)
      else
        match create_booking store (patient_name s) (selected_doctor s)
                (selected_date s) (selected_time s) with
        | (store', Some booking) =>
            ((with_booking s booking, store'), Ok (Text.booked s))
        | (store', None) =>
            ((with_step s "time_selection", store'), Ok Text.slot_taken)
        end
    else ((s, store), Ok Text.what_to_change).
Proof.
  unfold on_confirm_booking, bind at 1, get_state. cbn [fst].
  destruct (_ || _); [|reflexivity].
  unfold bind at 1, call_create_booking.
  destruct (storage_fails env CreateBooking); [reflexivity|]. cbn [fst snd].
  destruct (create_booking _ _ _ _ _) as [store' [booking|]]; reflexivity.
Qed.

Lemma on_confirm_booking_post (env : Env) (message : string)
    (s : ConversationState) (store : Store) :
  confirm_post message s store (fst (on_confirm_booking env message (s, store))).
Proof.
  rewrite on_confirm_booking_eq. unfold confirm_post.
  destruct (_ || _) eqn:Hyes; [|now left].
  apply orb_true_iff in Hyes.
  destruct (storage_fails env CreateBooking); [now left|].
  pose proof (create_booking_correct store (patient_name s) (selected_doctor s)
                (selected_date s) (selected_time s)) as Hc.
  cbv zeta in Hc. destruct Hc as (Hnone & Hsame & _).
  destruct (create_booking _ _ _ _ _) as [store' [b|]]; cbn [fst snd] in *.
  - right. right. split; [exact Hyes|]. exists b. auto.
  - right. left. split; [exact Hyes|]. rewrite (Hsame eq_refl).
    split; [reflexivity | now apply Hnone].
Qed.

Lemma hoare_run {A} (m0 : ConversationState * Store) (c : M A)
    (Q : ConversationState * Store -> Prop) :
  hoare (eq m0) c (fun _ => Q) Q -> Q (fst (c m0)).
Proof.
  intros H. specialize (H m0 eq_refl). now destruct (c m0) as [m' [a|e]].
Qed.

Lemma transition_cases (env : Env) (parsed : Parsed.t) (message : string)
    (s : ConversationState) (store : Store) :
  transition_post message s store (fst (transition env parsed message (s, store))).
Proof.
  unfold transition, bind at 1, get_state. cbn [fst]. unfold transition_post.
  destruct (Py.mem (Py.lower message) reset_phrases) eqn:Hmem.
  { left. split; [now apply starts_over_mem | reflexivity]. }
  assert (Hno : ~ starts_over message).
  { rewrite starts_over_mem. congruence. }
  right.
  destruct (String.eqb_spec (step s) "welcome") as [Hs|_].
  { left. split; [assumption|]. split; [congruence|].
    apply hoare_run. now apply on_welcome_post. }
  destruct (String.eqb_spec (step s) "booking_request") as [Hs|_].
  { left. split; [assumption|]. split; [congruence|].
    apply hoare_run. now apply on_booking_request_post. }
  destruct (String.eqb_spec (step s) "department_selection") as [Hs|_].
  { left. split; [assumption|]. split; [congruence|].
    apply hoare_run. now apply on_department_selection_post. }
  destruct (String.eqb_spec (step s) "doctor_selection") as [Hs|_].
  { left. split; [assumption|]. split; [congruence|].
    apply hoare_run. now apply on_doctor_selection_post. }
  destruct (String.eqb_spec (step s) "date_selection") as [Hs|_].
  { left. split; [assumption|]. split; [congruence|].
    apply hoare_run. now apply on_date_selection_post. }
  destruct (String.eqb_spec (step s) "time_selection") as [Hs|_].
  { left. split; [assumption|]. split; [congruence|].
    apply hoare_run. now apply on_time_selection_post. }
  destruct (String.eqb_spec (step s) "confirm_booking") as [Hs|Hnc].
  { right. split; [assumption|]. split; [assumption|].
    apply on_confirm_booking_post. }
  left. split; [assumption|]. split; [assumption|].
  assert (Hsame : branch_post s store (s, store)).
  { unfold branch_post. cbn [fst snd]. split; [reflexivity|]. split; [|auto].
    unfold next_steps.
    repeat match goal with
    | |- context [String.eqb (step s) ?x] =>
        destruct (String.eqb_spec (step s) x) as [Hx|?];
        [rewrite Hx; vm_compute; reflexivity|]
    end.
    apply mem_In. now left. }
  now destruct (String.eqb (step s) "completed").
Qed.

Lemma try_block_cases (env : Env) (w : World) (session_id message : string) :
  transition_post message (session_state w session_id) (db w)
    (fst (try_block env w session_id message)).
Proof. unfold try_block. apply transition_cases. Qed.

Lemma process_message_after (env : Env) (w : World) (session_id message : string) :
  session_state (fst (process_message env w session_id message)) session_id
  = fst (fst (try_block env w session_id message))
  /\ db (fst (process_message env w session_id message))
     = snd (fst (try_block env w session_id message)).
Proof.
  unfold session_state. rewrite process_message_session, lookup_insert_eq.
  split; [reflexivity|]. rewrite process_message_try.
  now destruct (try_block env w session_id message) as [[s' db'] [r|e]].
Qed.

Lemma process_message_reply (env : Env) (w : World) (session_id message : string) :
  fst (try_block env w session_id message) <> (session_state w session_id, db w) ->
  let s' := fst (fst (try_block env w session_id message)) in
  Reply.done (snd (process_message env w session_id message)) = booking_confirmed s'
  /\ Reply.booking_details (snd (process_message env w session_id message))
     = booking_details s'.
Proof.
  intros Hchanged. cbv zeta. rewrite process_message_try.
  pose proof (transition_unchanged_on_raise env
    (extract_intent_and_entities (llm env) message) message
    (session_state w session_id, db w) _ eq_refl) as Hsame.
  fold (try_block env w session_id message) in Hsame.
  destruct (try_block env w session_id message) as [[s' db'] [r|e]];
    cbn [fst snd Reply.done Reply.booking_details] in *; [auto|].
  congruence.
Qed.

Lemma snoc_neq {A} (l : list A) (x : A) : l ++ [x] <> l.
Proof.
  intros H. apply (f_equal (@length A)) in H. rewrite length_app in H.
  cbn in H. lia.
Qed.

(** X22: a call of [process_message] never changes the doctors, and it
    changes the bookings only by appending one: that happens only in step
    confirm_booking on a message that says yes and does not start over,
    the booking carries the patient, doctor, date and time of the session,
    and the reply then has done true and that booking as details.  A
    ledger with one booking per (doctor, date, time slot) stays so. *)
Theorem process_message_store (env : Env) (w : World) (session_id message : string) :
  let w' := fst (process_message env w session_id message) in
  let r := snd (process_message env w session_id message) in
  let s := session_state w session_id in
  doctors (db w') = doctors (db w)
  /\ (bookings (db w') = bookings (db w)
      \/ exists b, bookings (db w') = bookings (db w) ++ [b]
           /\ step s = "confirm_booking" /\ says_yes message
           /\ ~ starts_over message /\ booking_of s b
           /\ Reply.done r = true /\ Reply.booking_details r = Some b)
  /\ (slot_unique (bookings (db w)) -> slot_unique (bookings (db w'))).
Proof.
  cbv zeta.
  destruct (process_message_after env w session_id message) as [_ Hdb].
  rewrite Hdb. clear Hdb.
  pose proof (try_block_cases env w session_id message) as Hcases.
  pose proof (process_message_reply env w session_id message) as Hreply.
  destruct (fst (try_block env w session_id message)) as [s' db'] eqn:Htry.
  cbn [fst snd] in *.
  destruct Hcases as [[_ [= _ ->]]|[(_ & _ & Hb)|(Hno & Hstep & Hc)]].
  - split; [reflexivity|]. split; [now left | auto].
  - destruct Hb as [Hb _]. cbn [snd] in Hb. subst db'.
    split; [reflexivity|]. split; [now left | auto].
  - destruct Hc as [[= _ ->]|[(_ & [= _ ->] & _)|(Hyes & b & Hs' & Hcreate)]];
      [split; [reflexivity|]; split; [now left | auto]..|].
    cbn [fst snd] in Hs', Hcreate. subst s'.
    pose proof (create_booking_correct (db w)
      (patient_name (session_state w session_id))
      (selected_doctor (session_state w session_id))
      (selected_date (session_state w session_id))
      (selected_time (session_state w session_id))) as Hcb.
    cbv zeta in Hcb. rewrite Hcreate in Hcb. cbn [fst snd] in Hcb.
    destruct Hcb as (_ & _ & Hsome & Huniq).
    destruct (Hsome b eq_refl) as (Hp & Hkey & Hrows & Hdocs & _).
    split; [assumption|]. split; [|assumption].
    right. exists b. split; [assumption|].
    assert (Hchanged : (with_booking (session_state w session_id) b, db')
                       <> (session_state w session_id, db w)).
    { intros [= _ Heq]. rewrite Heq in Hrows. symmetry in Hrows.
      exact (snoc_neq _ _ Hrows). }
    destruct (Hreply Hchanged) as [Hdone Hdet].
    unfold slot_key in Hkey. injection Hkey as H1 H2 H3.
    repeat split; assumption.
Qed.

Lemma process_message_store_witness :
  let state := mkState (Some "Alice") None (Some "Cardiology") (Some "Dr. Smith")
                 (Some "2024-01-01") (Some "09:40") false None "confirm_booking" in
  let w := mkWorld (<["s1" := state]> ∅) Examples.db1 in
  let env := mkEnv (Raise ValueError) "2024-01-01" "2024-01-02" (fun _ => false) in
  slot_unique (bookings (db (fst (process_message env w "s1" "yes")))).
Proof.
  intros state w env.
  apply (process_message_store env w "s1" "yes"). apply slot_unique_db1.
Defined.

Lemma next_steps_completed (s : string) :
  In "completed" (next_steps s) -> s = "completed" \/ s = "confirm_booking".
Proof.
  unfold next_steps.
  repeat match goal with
  | |- context [String.eqb s ?x] =>
      destruct (String.eqb_spec s x) as [->|?];
      [cbn; intuition discriminate|]
  end.
  cbn. intuition.
Qed.

(** X23: a message that starts over leads to step welcome; any other
    message leaves the step or moves it along the edges of the
    conversation: welcome to booking_request, booking_request to
    department_selection, department_selection to doctor_selection,
    doctor_selection to department_selection or date_selection,
    date_selection to time_selection, time_selection to confirm_booking
    or date_selection, confirm_booking to completed or time_selection.
    So step completed is entered only from confirm_booking. *)
Theorem process_message_steps (env : Env) (w : World) (session_id message : string) :
  let s := step (session_state w session_id) in
  let s' := step (session_state (fst (process_message env w session_id message))
                    session_id) in
  (starts_over message -> s' = "welcome")
  /\ (~ starts_over message -> In s' (next_steps s))
  /\ (s' = "completed" -> s = "completed" \/ s = "confirm_booking").
Proof.
  cbv zeta.
  destruct (process_message_after env w session_id message) as [-> _].
  pose proof (try_block_cases env w session_id message) as Hcases.
  destruct (fst (try_block env w session_id message)) as [s' db'].
  cbn [fst] in *.
  assert (Hnext : ~ starts_over message ->
            In (step s') (next_steps (step (session_state w session_id)))).
  { intros Hno.
    destruct Hcases as [[Hyes _]|[(_ & _ & Hb)|(_ & Hstep & Hc)]];
      [contradiction | |].
    - destruct Hb as (_ & Hb & _). now apply mem_In.
    - rewrite Hstep.
      destruct Hc as [[= -> _]|[(_ & [= -> _] & _)|(_ & b & Hs' & _)]].
      + rewrite Hstep. cbn. auto.
      + cbn. auto.
      + cbn [fst] in Hs'. subst s'. cbn. auto. }
  split; [|split; [exact Hnext|]].
  - intros Hyes.
    destruct Hcases as [[_ [= -> _]]|[(Hno & _)|(Hno & _)]];
      [reflexivity | contradiction | contradiction].
  - intros Hdone.
    destruct Hcases as [[_ [= -> _]]|Hrest]; [discriminate|].
    apply next_steps_completed. rewrite <- Hdone. apply Hnext.
    now destruct Hrest as [(Hno & _)|(Hno & _)].
Qed.

Lemma process_message_steps_witness :
  let state := mkState (Some "Alice") None None None None None false None
                 "booking_request" in
  let w := mkWorld (<["s1" := state]> ∅) Examples.db1 in
  let env := mkEnv (Raise ValueError) "2024-01-01" "2024-01-02" (fun _ => false) in
  In (step (session_state (fst (process_message env w "s1" "book me in")) "s1"))
     (next_steps (step (session_state w "s1"))).
Proof.
  intros state w env.
  apply (process_message_steps env w "s1" "book me in").
  unfold starts_over. cbn. intuition discriminate.
Defined.

Lemma new_state_has_fields : has_fields new_state.
Proof.
  unfold has_fields. cbn [new_state step patient_name selected_department
    selected_doctor selected_date selected_time booking_details].
  eval_stage. repeat split; try reflexivity; intros; exfalso; lia.
Qed.

Lemma transition_has_fields (env : Env) (parsed : Parsed.t) (message : string)
    (s : ConversationState) (store : Store) :
  has_fields s ->
  has_fields (fst (fst (transition env parsed message (s, store)))).
Proof.
  intros Hf. pose proof (transition_cases env parsed message s store) as Hcases.
  destruct (fst (transition env parsed message (s, store))) as [s' store'].
  cbn [fst].
  destruct Hcases as [[_ [= -> _]]|[(_ & _ & Hb)|(_ & Hstep & Hc)]].
  - exact new_state_has_fields.
  - destruct Hb as (_ & _ & Hb). now apply Hb.
  - destruct Hf as (H0 & H1 & H3 & H4 & H5 & H6 & H7).
    rewrite Hstep in *. eval_stage.
    destruct Hc as [[= -> _]|[(_ & [= -> _] & _)|(_ & b & Hs' & Hcreate)]].
    + unfold has_fields. rewrite Hstep. eval_stage.
      repeat split; auto.
    + unfold has_fields, with_step.
      cbn [step patient_name selected_department selected_doctor selected_date
           selected_time booking_details]. eval_stage.
      repeat split; try reflexivity;
        try match goal with |- (_ <= _) -> _ => intro end;
        first [exfalso; lia | match goal with H : _ -> ?G |- ?G => apply H; lia end].
    + cbn [fst snd] in Hs', Hcreate. subst s'.
      pose proof (create_booking_correct store (patient_name s)
        (selected_doctor s) (selected_date s) (selected_time s)) as Hcb.
      cbv zeta in Hcb. rewrite Hcreate in Hcb. cbn [fst snd] in Hcb.
      destruct Hcb as (_ & _ & Hsome & _).
      destruct (Hsome b eq_refl) as (Hp & Hkey & _).
      unfold slot_key in Hkey. injection Hkey as K1 K2 K3.
      unfold has_fields, with_booking, booking_of.
      cbn [step patient_name selected_department selected_doctor selected_date
           selected_time booking_details]. eval_stage.
      repeat split; try reflexivity;
        try match goal with |- (_ <= _) -> _ => intro end;
        first [ match goal with H : _ -> ?G |- ?G => apply H; lia end
              | exists b; repeat split; assumption ].
Qed.

Lemma reachable_has_fields (w : World) :
  reachable w ->
  forall sid st, CONVERSATION_STATES w !! sid = Some st -> has_fields st.
Proof.
  induction 1 as [store | env w session_id message Hw IH | w store Hw IH];
    intros sid st Hst.
  - cbn in Hst. now rewrite lookup_empty in Hst.
  - rewrite process_message_session in Hst.
    apply lookup_insert_Some in Hst. destruct Hst as [[_ <-]|[_ Hst]].
    + unfold try_block. apply transition_has_fields.
      unfold session_state.
      destruct (CONVERSATION_STATES w !! session_id) as [s|] eqn:Hs; cbn [default].
      * exact (IH _ _ Hs).
      * exact new_state_has_fields.
    + exact (IH _ _ Hst).
  - exact (IH _ _ Hst).
Qed.

Lemma truthy_Some (v : option string) :
  Py.truthy v = true -> exists x, v = Some x /\ x <> "".
Proof.
  destruct v as [[|c x]|]; try discriminate. intros _.
  eexists. split; [reflexivity | discriminate].
Qed.

(** X24: in every world reachable by calls of [process_message], every
    session is at one of the eight steps, and holds what its step needs: a
    patient name once past welcome, a department from doctor_selection on,
    a doctor from date_selection on, a date from time_selection on, a time
    from confirm_booking on, and in step completed the details of a
    booking with exactly the session's patient, doctor, date and time. *)
Theorem conversation_fields (w : World) :
  reachable w ->
  forall session_id s, CONVERSATION_STATES w !! session_id = Some s ->
    In (step s) steps
    /\ (step s <> "welcome" -> Py.truthy (patient_name s) = true)
    /\ (3 <= stage (step s) -> Py.truthy (selected_department s) = true)
    /\ (4 <= stage (step s) -> selected_doctor s <> None)
    /\ (5 <= stage (step s) -> Py.truthy (selected_date s) = true)
    /\ (6 <= stage (step s) -> Py.truthy (selected_time s) = true)
    /\ (step s = "completed" ->
        exists b, booking_details s = Some b /\ booking_of s b).
Proof.
  intros Hw session_id s Hs.
  destruct (reachable_has_fields w Hw _ _ Hs) as (H0 & H1 & H3 & H4 & H5 & H6 & H7).
  apply mem_In in H0.
  split; [assumption|]. split; [|split; [|split; [|split; [|split]]]]; auto.
  - intros Hne. apply H1.
    unfold steps in H0. cbn [In] in H0.
    destruct H0 as [H|[H|[H|[H|[H|[H|[H|[H|[]]]]]]]]]; rewrite <- H in *;
      first [congruence | vm_compute; discriminate].
  - intros Hc. apply H7. rewrite Hc. vm_compute. discriminate.
Qed.

Lemma conversation_fields_witness :
  let env := mkEnv (Ok (Parsed.mk None (Some "Alice") None None None None None))
               "2024-01-01" "2024-01-02" (fun _ => false) in
  let w := fst (process_message env (mkWorld ∅ Examples.db1) "s1" "I am Alice") in
  let s := mkState (Some "Alice") None None None None None false None
             "booking_request" in
  In (step s) steps
  /\ (step s <> "welcome" -> Py.truthy (patient_name s) = true)
  /\ (3 <= stage (step s) -> Py.truthy (selected_department s) = true)
  /\ (4 <= stage (step s) -> selected_doctor s <> None)
  /\ (5 <= stage (step s) -> Py.truthy (selected_date s) = true)
  /\ (6 <= stage (step s) -> Py.truthy (selected_time s) = true)
  /\ (step s = "completed" ->
      exists b, booking_details s = Some b /\ booking_of s b).
Proof.
  intros env w s.
  apply (conversation_fields w (reach_message env _ "s1" "I am Alice"
                                  (reach_start Examples.db1)) "s1" s).
  vm_compute. reflexivity.
Defined.

(** X25: in a reachable world, a booking that [process_message] appends
    has no empty column: its patient name, date and time slot are
    non-empty texts and its doctor name is a text. *)
Theorem process_message_booking_filled (env : Env) (w : World)
    (session_id message : string) (b : Booking.t) :
  reachable w ->
  bookings (db (fst (process_message env w session_id message)))
  = bookings (db w) ++ [b] ->
  (exists p, Booking.patient_name b = Some p /\ p <> "")
  /\ (exists d, Booking.doctor_name b = Some d)
  /\ (exists dt, Booking.date b = Some dt /\ dt <> "")
  /\ (exists t, Booking.time_slot b = Some t /\ t <> "").
Proof.
  intros Hw Hrows.
  destruct (process_message_store env w session_id message) as (_ & Hb & _).
  cbv zeta in Hb.
  destruct Hb as [Hsame|(b' & Hrows' & Hstep & _ & _ & Hof & _)].
  { rewrite Hsame in Hrows. symmetry in Hrows. now apply snoc_neq in Hrows. }
  rewrite Hrows in Hrows'. apply app_inv_head in Hrows'. injection Hrows' as <-.
  assert (Hf : has_fields (session_state w session_id)).
  { unfold session_state in *.
    destruct (CONVERSATION_STATES w !! session_id) as [s|] eqn:Hs; cbn [default] in *.
    - exact (reachable_has_fields w Hw _ _ Hs).
    - exact new_state_has_fields. }
  destruct Hf as (_ & H1 & _ & H4 & H5 & H6 & _).
  rewrite Hstep in *. eval_stage.
  destruct Hof as (-> & -> & -> & ->).
  split; [apply truthy_Some, H1; lia|].
  split; [|split; apply truthy_Some; [apply H5 | apply H6]; lia].
  destruct (selected_doctor (session_state w session_id)) as [d|];
    [now exists d | exfalso; apply H4; [lia | reflexivity]].
Qed.

Lemma dialogue_reachable : reachable Dialogue.w6 /\ reachable Dialogue.w7.
Proof.
  assert (H6 : reachable Dialogue.w6).
  { unfold Dialogue.w6, Dialogue.w5, Dialogue.w4, Dialogue.w3, Dialogue.w2,
      Dialogue.w1, Dialogue.w0.
    repeat apply reach_message. apply reach_start. }
  split; [exact H6|]. unfold Dialogue.w7. now apply reach_message.
Qed.

Example dialogue_books :
  CONVERSATION_STATES Dialogue.w6 !! "s1"
  = Some (mkState (Some "Alice") None (Some "Cardiology") (Some "Dr. Smith")
            (Some "2024-01-02") (Some "09:20") false None "confirm_booking")
  /\ CONVERSATION_STATES Dialogue.w7 !! "s1"
     = Some (mkState (Some "Alice") None (Some "Cardiology") (Some "Dr. Smith")
               (Some "2024-01-02") (Some "09:20") true (Some Dialogue.booking)
               "completed")
  /\ bookings (db Dialogue.w7) = bookings Examples.db1 ++ [Dialogue.booking].
Proof. vm_compute. repeat split; reflexivity. Qed.

Lemma process_message_booking_filled_witness :
  (exists p, Booking.patient_name Dialogue.booking = Some p /\ p <> "")
  /\ (exists d, Booking.doctor_name Dialogue.booking = Some d)
  /\ (exists dt, Booking.date Dialogue.booking = Some dt /\ dt <> "")
  /\ (exists t, Booking.time_slot Dialogue.booking = Some t /\ t <> "").
Proof.
  apply (process_message_booking_filled (Dialogue.heard Dialogue.nothing)
           Dialogue.w6 "s1" "YES" Dialogue.booking (proj1 dialogue_reachable)).
  vm_compute. reflexivity.
Defined.

(** X26: in a reachable world, a session in step completed stays as it is
    under every message that does not start over: the world is unchanged
    and the reply is the same acknowledgment, with done true and the
    booking of the session, which has the session's patient, doctor, date
    and time. *)
Theorem completed_is_final (env : Env) (w : World) (session_id message : string) :
  reachable w ->
  step (session_state w session_id) = "completed" ->
  ~ starts_over message ->
  exists b,
    booking_details (session_state w session_id) = Some b
    /\ booking_of (session_state w session_id) b
    /\ process_message env w session_id message
       = (w, Reply.mk Text.completed true (Some b)).
Proof.
  intros Hw Hstep Hno.
  assert (Hs : CONVERSATION_STATES w !! session_id
               = Some (session_state w session_id)).
  { unfold session_state in *.
    destruct (CONVERSATION_STATES w !! session_id); [reflexivity | discriminate]. }
  destruct (reachable_has_fields w Hw _ _ Hs) as (_ & _ & _ & _ & _ & _ & H7).
  destruct (reachable_consistent w Hw _ _ Hs) as [Hdone _].
  rewrite Hstep in H7. eval_stage.
  destruct (H7 ltac:(lia)) as (b & Hdet & Hof).
  exists b. split; [assumption|]. split; [assumption|].
  assert (Htry : try_block env w session_id message
                 = ((session_state w session_id, db w), Ok Text.completed)).
  { rewrite starts_over_mem in Hno. apply not_true_is_false in Hno.
    unfold try_block, transition, bind at 1, get_state. cbn [fst].
    rewrite Hno, Hstep. eval_steps. reflexivity. }
  rewrite process_message_try, Htry, (insert_id _ _ _ Hs).
  rewrite (proj2 Hdone Hstep), Hdet. now destruct w.
Qed.

Lemma completed_is_final_witness :
  exists b,
    booking_details (session_state Dialogue.w7 "s1") = Some b
    /\ booking_of (session_state Dialogue.w7 "s1") b
    /\ process_message (Dialogue.heard Dialogue.nothing) Dialogue.w7 "s1" "thanks"
       = (Dialogue.w7, Reply.mk Text.completed true (Some b)).
Proof.
  apply (completed_is_final (Dialogue.heard Dialogue.nothing) Dialogue.w7 "s1"
           "thanks" (proj2 dialogue_reachable)).
  - vm_compute. reflexivity.
  - unfold starts_over. cbn. intuition discriminate.
Defined.

(** ** What the session accepts *)

Lemma call_returned {A} (env : Env) (t : tool) (f : Store -> result A)
    (m : ConversationState * Store) (a : A) :
  snd (call env t f m) = Ok a -> f (snd m) = Ok a.
Proof. unfold call. destruct (storage_fails env t); [discriminate | auto]. Qed.

Lemma on_date_selection_accepts (env : Env) (parsed : Parsed.t) (message : string)
    (s : ConversationState) (store : Store) :
  step s = "date_selection" ->
  hoare (eq (s, store)) (on_date_selection env parsed message)
    (fun _ => date_accepted s store) (date_accepted s store).
Proof.
  intros Hstep.
  assert (date_accepted s store (s, store))
    by (unfold date_accepted; cbn [fst]; congruence).
  unfold on_date_selection. walk_eq idtac.
  all: intros m <-; run_writes; unfold date_accepted;
    cbn [fst snd step selected_date]; intros Hc; try congruence.
  repeat match goal with
  | Hv : snd (call _ _ _ _) = Ok _ |- _ =>
      apply call_returned in Hv; cbv beta in Hv; cbn [snd] in Hv
  end.
  match goal with
  | Ht : Py.truthy ?d = true |- _ =>
      destruct (truthy_Some _ Ht) as (date & Hd & _); rewrite Hd in *
  end.
  cbn [Py.fmt] in *.
  match goal with H : negb ?a = false |- _ =>
    apply negb_false_iff in H; subst a end.
  eexists _, _. repeat split; [eassumption | eassumption | discriminate].
Qed.

Lemma on_time_selection_accepts (env : Env) (parsed : Parsed.t)
    (s : ConversationState) (store : Store) :
  step s = "time_selection" ->
  hoare (eq (s, store)) (on_time_selection env parsed)
    (fun _ => time_accepted s store) (time_accepted s store).
Proof.
  intros Hstep.
  assert (time_accepted s store (s, store))
    by (unfold time_accepted; cbn [fst]; congruence).
  unfold on_time_selection. walk_eq idtac.
  all: intros m <-; run_writes; unfold time_accepted;
    cbn [fst snd step selected_time]; intros Hc; try congruence.
  repeat match goal with
  | Hv : snd (call _ _ _ _) = Ok _ |- _ =>
      apply call_returned in Hv; cbv beta in Hv; cbn [snd] in Hv
  end.
  match goal with
  | Ht : Py.truthy ?d = true |- _ =>
      destruct (truthy_Some _ Ht) as (time & Hd & _); rewrite Hd in *
  end.
  cbn [Py.fmt] in *.
  eexists _, _. repeat split; [eassumption | now apply mem_In].
Qed.

(** X27: the session moves from date_selection to time_selection only with
    a date on which [check_doctor_availability] answers true for its
    doctor and [get_doctor_available_slots] has a slot; and from
    time_selection to confirm_booking only with a time that is then among
    the doctor's available slots of the selected date. *)
Theorem selection_guards (env : Env) (w : World) (session_id message : string) :
  ~ starts_over message ->
  let s := session_state w session_id in
  let s' := session_state (fst (process_message env w session_id message))
              session_id in
  (step s = "date_selection" -> step s' = "time_selection" ->
   exists date slots,
     selected_date s' = Some date
     /\ check_doctor_availability (db w) (selected_doctor s) date = Ok true
     /\ get_doctor_available_slots (db w) (selected_doctor s) (Some date) = Ok slots
     /\ slots <> [])
  /\ (step s = "time_selection" -> step s' = "confirm_booking" ->
      exists time slots,
        selected_time s' = Some time
        /\ get_doctor_available_slots (db w) (selected_doctor s) (selected_date s)
           = Ok slots
        /\ In time slots).
Proof.
  intros Hno. cbv zeta.
  destruct (process_message_after env w session_id message) as [-> _].
  rewrite starts_over_mem in Hno. apply not_true_is_false in Hno.
  split; intros Hstep.
  - assert (Htry : try_block env w session_id message
                   = on_date_selection env
                       (extract_intent_and_entities (llm env) message) message
                       (session_state w session_id, db w)).
    { unfold try_block, transition, bind at 1, get_state. cbn [fst].
      rewrite Hno, Hstep. reflexivity. }
    rewrite Htry.
    exact (hoare_run _ _ _ (on_date_selection_accepts env _ message _ (db w) Hstep)).
  - assert (Htry : try_block env w session_id message
                   = on_time_selection env
                       (extract_intent_and_entities (llm env) message)
                       (session_state w session_id, db w)).
    { unfold try_block, transition, bind at 1, get_state. cbn [fst].
      rewrite Hno, Hstep. reflexivity. }
    rewrite Htry.
    exact (hoare_run _ _ _ (on_time_selection_accepts env _ _ (db w) Hstep)).
Qed.

Lemma selection_guards_witness :
  exists time slots,
    selected_time (session_state Dialogue.w6 "s1") = Some time
    /\ get_doctor_available_slots (db Dialogue.w5)
         (selected_doctor (session_state Dialogue.w5 "s1"))
         (selected_date (session_state Dialogue.w5 "s1")) = Ok slots
    /\ In time slots.
Proof.
  apply (proj2 (selection_guards
                  (Dialogue.heard (Parsed.mk None None None None None (Some "09:20") None))
                  Dialogue.w5 "s1" "at 09:20" ltac:(unfold starts_over; cbn; intuition discriminate)));
    vm_compute; reflexivity.
Defined.
